(** * HasteModuleLoader: a shallow embedding of the module loader

    The development follows [src/HasteModuleLoader/HasteModuleLoader.js].
    The [Loader] class becomes a record of its fields, its methods become
    functions in a state-and-exception monad over that record, and the
    collaborators the loader only calls (node's [path], [fs] and [resolve],
    the transformer, the environment that evaluates source text, the mock
    synthesizer) are gathered in a record of host functions. *)

From Stdlib Require Import ZArith NArith Ascii String List Bool Lia.
From stdpp Require Import base option gmap strings list.

Open Scope string_scope.

(** ** Strings as JavaScript uses them *)

Module JsString.

(** [s.indexOf(p) === 0] *)
Definition startsWith (p s : string) : bool := String.prefix p s.

(** [s.indexOf(p) > 0] *)
Definition indexOfPositive (p s : string) : bool :=
  match String.index 0 p s with
  | Some (S _) => true
  | _ => false
  end.

Fixpoint contains (c : ascii) (s : string) : bool :=
  match s with
  | EmptyString => false
  | String a r => if Ascii.eqb a c then true else contains c r
  end.

Definition endsWith (suffix s : string) : bool :=
  let n := String.length s in
  let k := String.length suffix in
  (k <=? n)%nat && String.eqb (String.substring (n - k) k s) suffix.

(** [s.split(c)] for a separator of one character: the pieces between
    the occurrences of [c], the empty pieces included. *)
Fixpoint split (c : ascii) (s : string) : list string :=
  match s with
  | EmptyString => [EmptyString]
  | String a r =>
      if Ascii.eqb a c then EmptyString :: split c r
      else match split c r with
           | [] => [String a EmptyString]
           | p :: ps => String a p :: ps
           end
  end.

(** [parts.join(sep)] *)
Fixpoint join (sep : string) (parts : list string) : string :=
  match parts with
  | [] => EmptyString
  | [p] => p
  | p :: ps => p +:+ sep +:+ join sep ps
  end.

(** String concatenation with a nullable operand: [x + null] appends
    the text [null]. *)
Definition orNull (o : option string) : string :=
  match o with
  | Some s => s
  | None => "null"
  end.

End JsString.

(** ** Objects used as ordered tables

    [for (k in o)] enumerates the keys of a plain object: first the keys
    that are array indices, in ascending numeric order, then the other
    keys in the order of their creation.  Assigning to an existing key
    keeps the key where it is. *)

Module JsObject.

(** The names a plain object answers to without having them as
    properties of its own: the members of [Object.prototype]. *)
Definition prototypeNames : list string :=
  ["constructor"; "__defineGetter__"; "__defineSetter__"; "hasOwnProperty";
   "__lookupGetter__"; "__lookupSetter__"; "isPrototypeOf";
   "propertyIsEnumerable"; "toString"; "valueOf"; "__proto__";
   "toLocaleString"].

Definition inherited (k : string) : bool :=
  existsb (String.eqb k) prototypeNames.

Definition digit (c : ascii) : option N :=
  let n := N_of_ascii c in
  if ((48 <=? n) && (n <=? 57))%N then Some (n - 48)%N else None.

Fixpoint digits (acc : N) (s : string) : option N :=
  match s with
  | EmptyString => Some acc
  | String c r =>
      match digit c with
      | Some d => digits (acc * 10 + d)%N r
      | None => None
      end
  end.

(** A key is an array index when it is the canonical decimal form of an
    integer below [2^32 - 1]. *)
Definition arrayIndex (k : string) : option N :=
  match k with
  | EmptyString => None
  | String c r =>
      match digit c, r with
      | None, _ => None
      | Some 0%N, EmptyString => Some 0%N
      | Some 0%N, _ => None
      | Some _, _ =>
          match digits 0 k with
          | Some n => if (n <? 4294967295)%N then Some n else None
          | None => None
          end
      end
  end.

Section Table.
Context {V : Type}.

(** [o[k] = v] on the keys in creation order *)
Fixpoint set (o : list (string * V)) (k : string) (v : V) : list (string * V) :=
  match o with
  | [] => [(k, v)]
  | (k', v') :: r =>
      if String.eqb k' k then (k', v) :: r else (k', v') :: set r k v
  end.

Fixpoint insertIndex (n : N) (e : string * V) (l : list (N * (string * V)))
  : list (N * (string * V)) :=
  match l with
  | [] => [(n, e)]
  | (m, e') :: r =>
      if (n <? m)%N then (n, e) :: l else (m, e') :: insertIndex n e r
  end.

Fixpoint indexEntries (o : list (string * V)) : list (N * (string * V)) :=
  match o with
  | [] => []
  | (k, v) :: r =>
      match arrayIndex k with
      | Some n => insertIndex n (k, v) (indexEntries r)
      | None => indexEntries r
      end
  end.

Definition namedEntries (o : list (string * V)) : list (string * V) :=
  List.filter (fun e => match arrayIndex (fst e) with
                        | Some _ => false
                        | None => true
                        end) o.

(** the entries in the order [for ... in] visits them *)
Definition forIn (o : list (string * V)) : list (string * V) :=
  List.map snd (indexEntries o) ++ namedEntries o.

End Table.

End JsObject.

(** ** The resource map (node-haste) *)

Inductive ResourceType :=
| JS | JSMock | JSTest | ProjectConfiguration | OtherResource.

Definition ResourceType_eqb (a b : ResourceType) : bool :=
  match a, b with
  | JS, JS | JSMock, JSMock | JSTest, JSTest
  | ProjectConfiguration, ProjectConfiguration
  | OtherResource, OtherResource => true
  | _, _ => false
  end.

(** A resource: [id], [type], [path], [requiredModules], the [data] of a
    project configuration ([name] and the optional [main]), and the
    optional method [getModuleIDByOrigin]. *)
Record HasteResource := {
  id : string;
  type : ResourceType;
  path : string;
  requiredModules : list string;
  data_name : string;
  data_main : option string;
  getModuleIDByOrigin : option (string -> option string);
}.

Record ResourceMap := {
  getResource : ResourceType -> string -> option HasteResource;
  getResourceByPath : string -> option HasteResource;
  getAllResourcesByType : ResourceType -> list HasteResource;
}.

(** The configuration options the loader reads. *)
Record Config := {
  moduleNameMapper : list (string * string);
  unmockedModulePathPatterns : list string;
}.

(** ** Errors and outcomes *)

Inductive Error :=
| CannotFindModule (moduleName from : string)
| ModuleNotFound (moduleName : string)
| FailedToGetMockMetadata (modulePath : string)
| UnknownModulePath (modulePath : string)
| CouldNotExtractDependencies
| TypeError (what : string)
| HostError (what : string).

(** A call returns, throws, or does not come back within the depth
    allowed to it. *)
Inductive Outcome (A : Type) :=
| Ok (a : A)
| Throw (e : Error)
| Diverge.
Arguments Ok {A} a.
Arguments Throw {A} e.
Arguments Diverge {A}.

(** ** Values, module objects and the global object *)

(** Modelled from the spec: the mock synthesizer ([lib/moduleMocker]) is
    not part of the loader's file.  Its shape descriptor is kept as the
    list of the member names it describes; [getMetadata] itself is a host
    function. *)
Definition Metadata := list string.

(** The values the loader hands to a requiring module.  The exports
    object of a module object is shared, so it is named by the address of
    its module object in the store. *)
Inductive Value :=
| VUndefined
| VNumber (n : Z)
| VExportsOf (moduleObj : nat)
| VParsedJSON (modulePath : string)
| VNative (moduleName : string)
  (** a mock made by [generateFromMetadata] from this metadata: every
      call makes a new one, and two made from the same metadata are
      not told apart *)
| VGeneratedMock (metadata : option Metadata).

(** What [moduleObj.exports] holds. *)
Inductive Exports :=
| EObject (fields : list (string * Z))
| EParsedJSON (modulePath : string)
| ENative (modulePath : string).

(** Which allocation site made a module object: the one of
    [requireModule] or the one of [requireMock] (a ghost tag). *)
Inductive Origin := RealModule | ManualMock.

Definition Origin_eqb (a b : Origin) : bool :=
  match a, b with
  | RealModule, RealModule | ManualMock, ManualMock => true
  | _, _ => false
  end.

Record ModuleRecord := {
  __filename : string;
  exports : Exports;
  parent : option string;
  require : option string;
  origin : Origin;
}.

(** A property of the environment's global object, as far as
    [resetModuleRegistry] looks at it: its [typeof]; for an object or a
    function, whether [_isMockFunction] is truthy, whether it has a
    [mockClear] method, and the calls it has recorded.  Any value can
    carry a truthy [_isMockFunction], with or without the method.
    Distinct properties hold distinct values. *)
Inductive GlobalValue :=
| GPrimitive
| GNull
| GObject (_isMockFunction hasMockClear : bool) (calls : list Z)
| GFunction (_isMockFunction hasMockClear : bool) (calls : list Z).

(** What [envGlobal.mockClearTimers] holds: nothing (a falsy value), a
    function that has been invoked so many times, or a truthy value
    that cannot be called. *)
Inductive TimersHook :=
| NoHook
| Hook (invoked : nat)
| NotAFunction.

(** The global object: its own enumerable properties in the order
    [Object.keys] lists them; the properties [Object.keys] does not
    list, own ones that are not enumerable and inherited ones; and
    [mockClearTimers]. *)
Record Global := {
  properties : list (string * GlobalValue);
  unlisted : list (string * GlobalValue);
  mockClearTimers : TimersHook;
}.

(** ** Module code

    What a module's top level does with the loader: the calls it can make
    on its bound [require] and on its [jest] runtime, assignments to its
    exports, and exceptions. *)
#[warnings="-register-all"]
Inductive Stmt :=
| SRequire (moduleName : string)
| SRequireActual (moduleName : string)
| SRequireMock (moduleName : string)
| SResolve (moduleName : string)
| SExport (key : string) (v : Z)
| SMock (moduleName : string)
| SDontMock (moduleName : string)
| SSetMock (moduleName : string) (v : Z)
| SAutoMockOn
| SAutoMockOff
| SGenMockFromModule (moduleName : string)
| SResetModuleRegistry
| SThrow (what : string)
| STry (body handler : list Stmt).

(** What the transformer and the environment make of a file. *)
Inductive ModuleSource :=
| TransformFails (what : string)
| EvaluationFails (what : string)
| Program (body : list Stmt).

(** ** The host: node, the file system and the collaborators *)

Record Host := {
  resolve_isCore : string -> bool;
  (** [resolve.sync(name, {basedir, ...})], [None] when it throws *)
  resolve_sync : string -> string -> option string;
  path_dirname : string -> string;
  (** whether [path.dirname(undefined)] throws a TypeError, as node's
      does since [path] checks its arguments; before that it answered
      as for the empty path *)
  path_rejects_undefined : bool;
  path_basename : string -> string;
  path_extname : string -> string;
  path_join : list string -> string;
  path_delimiter : ascii;
  fs_existsSync : string -> bool;
  (** [None] when it throws *)
  fs_realpathSync : string -> option string;
  VENDOR_PATH : string;
  (** [new RegExp(source).test(subject)] *)
  RegExp_test : string -> string -> bool;
  (** [transform], the coverage instrumentation and [runSourceText] *)
  source : string -> ModuleSource;
  (** whether the file reads and parses as JSON *)
  JSON_parses : string -> bool;
  (** [getMetadata] of a value; for an exports object, of its members *)
  moduleMocker_getMetadata : Exports -> option Metadata;
}.

(** ** The loader's state

    The objects the loader uses as tables are keyed by paths, module IDs
    and requested names; no key is the name of a member of
    [Object.prototype], so a table is the finite map of its own
    properties.  The table of project configurations is keyed by
    package names, which can be such names: it is not a field here but
    a function of the resource map (see
    [_nodeModuleProjectConfigNameToResource]), and what is said below
    of the state of the loader is said of the fields of this record. *)

Record Loader := {
  _currentlyExecutingModulePath : string;
  _isCurrentlyExecutingManualMock : option string;
  _explicitShouldMock : gmap string bool;
  _explicitlySetMocks : gmap string Value;
  _mockMetaDataCache : gmap string (option Metadata);
  _shouldAutoMock : bool;
  _configShouldMockModuleNames : gmap string bool;
  _mockRegistry : gmap string Value;
  _moduleRegistry : gmap string nat;
  (** the store of module objects, by address *)
  store : list ModuleRecord;
  (** [this._environment.global], [None] once the environment is disposed *)
  global : option Global;
  (** ghost: the identity of the current pair of registry objects *)
  generation : nat;
  (** ghost: the number of registry pairs created so far *)
  generations : nat;
  (** ghost: the evaluations the executor started, the latest first *)
  evaluations : list (nat * string * Origin);
}.

Definition with_currentlyExecutingModulePath v (s : Loader) : Loader :=
  {| _currentlyExecutingModulePath := v;
     _isCurrentlyExecutingManualMock := _isCurrentlyExecutingManualMock s;
     _explicitShouldMock := _explicitShouldMock s;
     _explicitlySetMocks := _explicitlySetMocks s;
     _mockMetaDataCache := _mockMetaDataCache s;
     _shouldAutoMock := _shouldAutoMock s;
     _configShouldMockModuleNames := _configShouldMockModuleNames s;
     _mockRegistry := _mockRegistry s;
     _moduleRegistry := _moduleRegistry s;
     store := store s; global := global s;
     generation := generation s; generations := generations s;
     evaluations := evaluations s |}.

Definition with_isCurrentlyExecutingManualMock v (s : Loader) : Loader :=
  {| _currentlyExecutingModulePath := _currentlyExecutingModulePath s;
     _isCurrentlyExecutingManualMock := v;
     _explicitShouldMock := _explicitShouldMock s;
     _explicitlySetMocks := _explicitlySetMocks s;
     _mockMetaDataCache := _mockMetaDataCache s;
     _shouldAutoMock := _shouldAutoMock s;
     _configShouldMockModuleNames := _configShouldMockModuleNames s;
     _mockRegistry := _mockRegistry s;
     _moduleRegistry := _moduleRegistry s;
     store := store s; global := global s;
     generation := generation s; generations := generations s;
     evaluations := evaluations s |}.

Definition with_explicitShouldMock v (s : Loader) : Loader :=
  {| _currentlyExecutingModulePath := _currentlyExecutingModulePath s;
     _isCurrentlyExecutingManualMock := _isCurrentlyExecutingManualMock s;
     _explicitShouldMock := v;
     _explicitlySetMocks := _explicitlySetMocks s;
     _mockMetaDataCache := _mockMetaDataCache s;
     _shouldAutoMock := _shouldAutoMock s;
     _configShouldMockModuleNames := _configShouldMockModuleNames s;
     _mockRegistry := _mockRegistry s;
     _moduleRegistry := _moduleRegistry s;
     store := store s; global := global s;
     generation := generation s; generations := generations s;
     evaluations := evaluations s |}.

Definition with_explicitlySetMocks v (s : Loader) : Loader :=
  {| _currentlyExecutingModulePath := _currentlyExecutingModulePath s;
     _isCurrentlyExecutingManualMock := _isCurrentlyExecutingManualMock s;
     _explicitShouldMock := _explicitShouldMock s;
     _explicitlySetMocks := v;
     _mockMetaDataCache := _mockMetaDataCache s;
     _shouldAutoMock := _shouldAutoMock s;
     _configShouldMockModuleNames := _configShouldMockModuleNames s;
     _mockRegistry := _mockRegistry s;
     _moduleRegistry := _moduleRegistry s;
     store := store s; global := global s;
     generation := generation s; generations := generations s;
     evaluations := evaluations s |}.

Definition with_mockMetaDataCache v (s : Loader) : Loader :=
  {| _currentlyExecutingModulePath := _currentlyExecutingModulePath s;
     _isCurrentlyExecutingManualMock := _isCurrentlyExecutingManualMock s;
     _explicitShouldMock := _explicitShouldMock s;
     _explicitlySetMocks := _explicitlySetMocks s;
     _mockMetaDataCache := v;
     _shouldAutoMock := _shouldAutoMock s;
     _configShouldMockModuleNames := _configShouldMockModuleNames s;
     _mockRegistry := _mockRegistry s;
     _moduleRegistry := _moduleRegistry s;
     store := store s; global := global s;
     generation := generation s; generations := generations s;
     evaluations := evaluations s |}.

Definition with_shouldAutoMock v (s : Loader) : Loader :=
  {| _currentlyExecutingModulePath := _currentlyExecutingModulePath s;
     _isCurrentlyExecutingManualMock := _isCurrentlyExecutingManualMock s;
     _explicitShouldMock := _explicitShouldMock s;
     _explicitlySetMocks := _explicitlySetMocks s;
     _mockMetaDataCache := _mockMetaDataCache s;
     _shouldAutoMock := v;
     _configShouldMockModuleNames := _configShouldMockModuleNames s;
     _mockRegistry := _mockRegistry s;
     _moduleRegistry := _moduleRegistry s;
     store := store s; global := global s;
     generation := generation s; generations := generations s;
     evaluations := evaluations s |}.

Definition with_configShouldMockModuleNames v (s : Loader) : Loader :=
  {| _currentlyExecutingModulePath := _currentlyExecutingModulePath s;
     _isCurrentlyExecutingManualMock := _isCurrentlyExecutingManualMock s;
     _explicitShouldMock := _explicitShouldMock s;
     _explicitlySetMocks := _explicitlySetMocks s;
     _mockMetaDataCache := _mockMetaDataCache s;
     _shouldAutoMock := _shouldAutoMock s;
     _configShouldMockModuleNames := v;
     _mockRegistry := _mockRegistry s;
     _moduleRegistry := _moduleRegistry s;
     store := store s; global := global s;
     generation := generation s; generations := generations s;
     evaluations := evaluations s |}.

Definition with_mockRegistry v (s : Loader) : Loader :=
  {| _currentlyExecutingModulePath := _currentlyExecutingModulePath s;
     _isCurrentlyExecutingManualMock := _isCurrentlyExecutingManualMock s;
     _explicitShouldMock := _explicitShouldMock s;
     _explicitlySetMocks := _explicitlySetMocks s;
     _mockMetaDataCache := _mockMetaDataCache s;
     _shouldAutoMock := _shouldAutoMock s;
     _configShouldMockModuleNames := _configShouldMockModuleNames s;
     _mockRegistry := v;
     _moduleRegistry := _moduleRegistry s;
     store := store s; global := global s;
     generation := generation s; generations := generations s;
     evaluations := evaluations s |}.

Definition with_moduleRegistry v (s : Loader) : Loader :=
  {| _currentlyExecutingModulePath := _currentlyExecutingModulePath s;
     _isCurrentlyExecutingManualMock := _isCurrentlyExecutingManualMock s;
     _explicitShouldMock := _explicitShouldMock s;
     _explicitlySetMocks := _explicitlySetMocks s;
     _mockMetaDataCache := _mockMetaDataCache s;
     _shouldAutoMock := _shouldAutoMock s;
     _configShouldMockModuleNames := _configShouldMockModuleNames s;
     _mockRegistry := _mockRegistry s;
     _moduleRegistry := v;
     store := store s; global := global s;
     generation := generation s; generations := generations s;
     evaluations := evaluations s |}.

Definition with_store v (s : Loader) : Loader :=
  {| _currentlyExecutingModulePath := _currentlyExecutingModulePath s;
     _isCurrentlyExecutingManualMock := _isCurrentlyExecutingManualMock s;
     _explicitShouldMock := _explicitShouldMock s;
     _explicitlySetMocks := _explicitlySetMocks s;
     _mockMetaDataCache := _mockMetaDataCache s;
     _shouldAutoMock := _shouldAutoMock s;
     _configShouldMockModuleNames := _configShouldMockModuleNames s;
     _mockRegistry := _mockRegistry s;
     _moduleRegistry := _moduleRegistry s;
     store := v; global := global s;
     generation := generation s; generations := generations s;
     evaluations := evaluations s |}.

Definition with_global v (s : Loader) : Loader :=
  {| _currentlyExecutingModulePath := _currentlyExecutingModulePath s;
     _isCurrentlyExecutingManualMock := _isCurrentlyExecutingManualMock s;
     _explicitShouldMock := _explicitShouldMock s;
     _explicitlySetMocks := _explicitlySetMocks s;
     _mockMetaDataCache := _mockMetaDataCache s;
     _shouldAutoMock := _shouldAutoMock s;
     _configShouldMockModuleNames := _configShouldMockModuleNames s;
     _mockRegistry := _mockRegistry s;
     _moduleRegistry := _moduleRegistry s;
     store := store s; global := v;
     generation := generation s; generations := generations s;
     evaluations := evaluations s |}.

(** The two registries are always replaced together; the pair in use is
    named by [generation]. *)
Definition with_registries (mocks : gmap string Value) (modules : gmap string nat)
    (g : nat) (s : Loader) : Loader :=
  {| _currentlyExecutingModulePath := _currentlyExecutingModulePath s;
     _isCurrentlyExecutingManualMock := _isCurrentlyExecutingManualMock s;
     _explicitShouldMock := _explicitShouldMock s;
     _explicitlySetMocks := _explicitlySetMocks s;
     _mockMetaDataCache := _mockMetaDataCache s;
     _shouldAutoMock := _shouldAutoMock s;
     _configShouldMockModuleNames := _configShouldMockModuleNames s;
     _mockRegistry := mocks;
     _moduleRegistry := modules;
     store := store s; global := global s;
     generation := g; generations := generations s;
     evaluations := evaluations s |}.

(** A fresh pair of empty registries: [this._mockRegistry = {};
    this._moduleRegistry = {};] *)
Definition with_fresh_registries (s : Loader) : Loader :=
  {| _currentlyExecutingModulePath := _currentlyExecutingModulePath s;
     _isCurrentlyExecutingManualMock := _isCurrentlyExecutingManualMock s;
     _explicitShouldMock := _explicitShouldMock s;
     _explicitlySetMocks := _explicitlySetMocks s;
     _mockMetaDataCache := _mockMetaDataCache s;
     _shouldAutoMock := _shouldAutoMock s;
     _configShouldMockModuleNames := _configShouldMockModuleNames s;
     _mockRegistry := ∅;
     _moduleRegistry := ∅;
     store := store s; global := global s;
     generation := generations s; generations := S (generations s);
     evaluations := evaluations s |}.

Definition with_evaluation (e : nat * string * Origin) (s : Loader) : Loader :=
  {| _currentlyExecutingModulePath := _currentlyExecutingModulePath s;
     _isCurrentlyExecutingManualMock := _isCurrentlyExecutingManualMock s;
     _explicitShouldMock := _explicitShouldMock s;
     _explicitlySetMocks := _explicitlySetMocks s;
     _mockMetaDataCache := _mockMetaDataCache s;
     _shouldAutoMock := _shouldAutoMock s;
     _configShouldMockModuleNames := _configShouldMockModuleNames s;
     _mockRegistry := _mockRegistry s;
     _moduleRegistry := _moduleRegistry s;
     store := store s; global := global s;
     generation := generation s; generations := generations s;
     evaluations := e :: evaluations s |}.

(** ** The monad of the loader's methods *)

Definition M (A : Type) : Type := Loader -> Outcome A * Loader.

Definition ret {A} (a : A) : M A := fun s => (Ok a, s).

Definition bind {A B} (m : M A) (k : A -> M B) : M B :=
  fun s =>
    match m s with
    | (Ok a, s') => k a s'
    | (Throw e, s') => (Throw e, s')
    | (Diverge, s') => (Diverge, s')
    end.

Definition throw {A} (e : Error) : M A := fun s => (Throw e, s).

Definition gets {A} (f : Loader -> A) : M A := fun s => (Ok (f s), s).

Definition modify (f : Loader -> Loader) : M unit := fun s => (Ok tt, f s).

(** a pure outcome, the state untouched *)
Definition lift {A} (o : Outcome A) : M A := fun s => (o, s).

(** [try { m } catch (e) { h(e) }] *)
Definition try_catch {A} (m : M A) (h : Error -> M A) : M A :=
  fun s =>
    match m s with
    | (Throw e, s') => h e s'
    | r => r
    end.

Declare Scope loader_scope.
Delimit Scope loader_scope with loader.
Notation "x <- m ;; k" := (bind m (fun x => k))
  (at level 100, m at next level, right associativity) : loader_scope.
Notation "m ;;; k" := (bind m (fun _ => k))
  (at level 100, right associativity) : loader_scope.
Open Scope loader_scope.

(** The loader's methods that call each other while a module is
    evaluated, as requests: each method takes the way back into the loader
    as a function from requests to computations. *)
Inductive Call :=
| CallRequireModuleOrMock (currPath moduleName : string)
| CallRequireModule (currPath moduleName : string)
| CallRequireMock (currPath moduleName : string)
| CallGenerateMock (currPath moduleName : string)
| CallBlock (filename : string) (moduleObj : nat) (body : list Stmt).

(** ** The resolver and the mock policy *)

Section Loader.

Variable host : Host.
Variable config : Config.
Variable resourceMap : ResourceMap.

(** The nesting depth allowed to the recursion of the resolver. *)
Variable depth : nat.

(** [IS_PATH_BASED_MODULE_NAME = /^(?:\.\.?\/|\/)/] *)
Definition IS_PATH_BASED_MODULE_NAME (moduleName : string) : bool :=
  JsString.startsWith "./" moduleName
  || JsString.startsWith "../" moduleName
  || JsString.startsWith "/" moduleName.

(** The constructor: [this._unmockListRegExps], the patterns of the
    configuration compiled (the list is empty when the option is
    missing or empty). *)
Definition _unmockListRegExps : list string :=
  unmockedModulePathPatterns config.

(** The constructor: [this._mappedModuleNames[map[1]] = new
    RegExp(map[0])] for each mapping, in the declared order. *)
Definition _mappedModuleNames : list (string * string) :=
  fold_left (fun o map => JsObject.set o (snd map) (fst map))
            (moduleNameMapper config) [].

Definition _resolveStubModuleName (moduleName : string) : option string :=
  match List.find (fun e => RegExp_test host (snd e) moduleName)
                  (JsObject.forIn _mappedModuleNames) with
  | Some (mappedModuleName, _) => Some mappedModuleName
  | None => None
  end.

Definition _getResource (resourceType : ResourceType) (resourceName : string)
  : option HasteResource :=
  let resource := getResource resourceMap resourceType resourceName in
  let resource :=
    match resource with
    | None =>
        if ResourceType_eqb resourceType JS
           && JsString.contains "/" resourceName
           && negb (JsString.endsWith ".js" resourceName)
        then getResource resourceMap resourceType (resourceName +:+ ".js")
        else None
    | Some _ => resource
    end in
  match resource with
  | None =>
      if ResourceType_eqb resourceType JSMock then
        match _resolveStubModuleName resourceName with
        | Some moduleName =>
            (* [if (moduleName)]: the empty name is falsy *)
            if String.eqb moduleName "" then None
            else getResource resourceMap JS moduleName
        | None => None
        end
      else None
  | Some _ => resource
  end.

(** [`Cannot find module '${moduleName}' from '${currPath || '.'}'`] *)
Definition cannotFind (moduleName currPath : string) : Error :=
  CannotFindModule moduleName (if String.eqb currPath "" then "." else currPath).

(** The memo [_nodeModuleProjectConfigNameToResource], as far as its
    own properties go: each project configuration stored under its
    [data.name], a later one replacing an earlier one of the same name.
    The loader builds the table at the first resolution that node
    fails and keeps it in a field; the resource map never changes, so
    the table is the same whenever it is built, and the field is not
    part of the state below.  A project configuration named
    [__proto__] would become the prototype of the table and lend it
    its own members: for the name [__proto__] the table then answers
    with it, as it does here; what it answers for the names of those
    members is left out. *)
Definition _nodeModuleProjectConfigNameToResource (name : string)
  : option HasteResource :=
  List.find (fun res => String.eqb (data_name res) name)
            (rev (getAllResourcesByType resourceMap ProjectConfiguration)).

(** [moduleProjectPart] and [subModulePath] of a module name such as
    [jest/lib/util]. *)
Definition projectParts (moduleName : string) : string * option string :=
  if JsString.contains "/" moduleName then
    match JsString.split "/" moduleName with
    | first :: projectPathParts =>
        (first, Some (JsString.join "/" projectPathParts))
    | [] => (moduleName, None)
    end
  else (moduleName, None).

(** [_nodeModuleNameToPath], its call back into [_moduleNameToPath]
    taken as [self].  The table is a plain object read without
    [hasOwnProperty]: for a name that is not a property of its own and
    is a member of [Object.prototype], it answers with that member, a
    value without [path] and without [data]. *)
Definition _nodeModuleNameToPath_ (self : string -> string -> Outcome string)
    (currPath moduleName : string) : Outcome string :=
  let basedir := path_dirname host currPath in
  let '(moduleProjectPart, subModulePath) := projectParts moduleName in
  match resolve_sync host basedir moduleName with
  | Some found => Ok found
  | None =>
      let resolveError := cannotFind moduleName currPath in
      match _nodeModuleProjectConfigNameToResource moduleProjectPart with
      | None =>
          if JsObject.inherited moduleProjectPart then
            (* [path.dirname(resource.path)] of an undefined path *)
            if path_rejects_undefined host
            then Throw (TypeError "path.dirname")
            else
              let resourceDirname := path_dirname host "" in
              if JsString.indexOfPositive basedir resourceDirname
              then Throw resolveError
              else
                match subModulePath with
                | Some sub => self "" ("./" +:+ sub)
                | None =>
                    (* [hasOwnProperty.call(resource.data, 'main')] of
                       an undefined [data] *)
                    Throw (TypeError "hasOwnProperty")
                end
          else Throw resolveError
      | Some resource =>
          let resourceDirname := path_dirname host (path resource) in
          if JsString.indexOfPositive basedir resourceDirname
          then Throw resolveError
          else
            let subModulePath :=
              match subModulePath with
              | Some sub => sub
              | None =>
                  match data_main resource with
                  | Some main => main
                  | None => "index.js"
                  end
              end in
            self (path resource) ("./" +:+ subModulePath)
      end
  end.

Fixpoint _moduleNameToPath_at (fuel : nat) (currPath moduleName : string)
  : Outcome string :=
  match _getResource JS moduleName with
  | Some resource => Ok (path resource)
  | None =>
      _nodeModuleNameToPath_
        (fun currPath' moduleName' =>
           match fuel with
           | O => Diverge
           | S fuel' => _moduleNameToPath_at fuel' currPath' moduleName'
           end)
        currPath moduleName
  end.

Definition _moduleNameToPath : string -> string -> Outcome string :=
  _moduleNameToPath_at depth.

Definition _nodeModuleNameToPath : string -> string -> Outcome string :=
  _nodeModuleNameToPath_
    (match depth with
     | O => fun _ _ => Diverge
     | S fuel' => _moduleNameToPath_at fuel'
     end).

Definition absent {A} (o : option A) : bool :=
  match o with
  | None => true
  | Some _ => false
  end.

(** [_moduleNameToPath] returns a path or throws, so the test
    [absolutePath === undefined] of the source never fires. *)
Definition _getNormalizedModuleID (currPath moduleName : string)
  : Outcome string :=
  let delimiter := String (path_delimiter host) EmptyString in
  let moduleID (moduleType : string) (realAbsPath mockAbsPath : option string) :=
    moduleType +:+ delimiter +:+ JsString.orNull realAbsPath
    +:+ delimiter +:+ JsString.orNull mockAbsPath in
  if resolve_isCore host moduleName then
    Ok (moduleID "node" (Some moduleName) None)
  else
    let located : Outcome (string * option string * option string) :=
      if IS_PATH_BASED_MODULE_NAME moduleName
         || (absent (_getResource JS moduleName)
             && absent (_getResource JSMock moduleName))
      then
        match _moduleNameToPath currPath moduleName with
        | Ok absolutePath =>
            match getResourceByPath resourceMap absolutePath with
            | Some resource =>
                match type resource with
                | JS => Ok (id resource, Some absolutePath, None)
                | JSMock => Ok (id resource, None, Some absolutePath)
                | _ => Ok (id resource, None, None)
                end
            | None => Ok (moduleName, None, None)
            end
        | Throw e => Throw e
        | Diverge => Diverge
        end
      else Ok (moduleName, None, None) in
    match located with
    | Ok (moduleName, realAbsPath, mockAbsPath) =>
        let realAbsPath :=
          match realAbsPath with
          | None => option_map path (_getResource JS moduleName)
          | Some _ => realAbsPath
          end in
        let mockAbsPath :=
          match mockAbsPath with
          | None => option_map path (_getResource JSMock moduleName)
          | Some _ => mockAbsPath
          end in
        Ok (moduleID "user" realAbsPath mockAbsPath)
    | Throw e => Throw e
    | Diverge => Diverge
    end.

Definition _getRealPathFromNormalizedModuleID (moduleID : string) : option string :=
  nth_error (JsString.split (path_delimiter host) moduleID) 1.

(** [resource.getModuleIDByOrigin(requiredModule) || requiredModule],
    when the resource has the method *)
Definition requiredName (resource : HasteResource) (requiredModule : string)
  : string :=
  match getModuleIDByOrigin resource with
  | Some byOrigin =>
      match byOrigin requiredModule with
      | Some mapped =>
          if String.eqb mapped "" then requiredModule else mapped
      | None => requiredModule
      end
  | None => requiredModule
  end.

Fixpoint dependencyPathsFrom (resource : HasteResource)
    (required : list string) (dependencyPaths : list (option string))
  : Outcome (list (option string)) :=
  match required with
  | [] => Ok dependencyPaths
  | requiredModule :: rest =>
      let requiredModule := requiredName resource requiredModule in
      match _getNormalizedModuleID (path resource) requiredModule with
      | Throw _ => dependencyPathsFrom resource rest dependencyPaths
      | Diverge => Diverge
      | Ok moduleID =>
          dependencyPathsFrom resource rest
            (dependencyPaths ++ [_getRealPathFromNormalizedModuleID moduleID])
      end
  end.

(** a required name that does not resolve is skipped *)
Definition _getDependencyPathsFromResource (resource : HasteResource)
  : Outcome (list (option string)) :=
  dependencyPathsFrom resource (requiredModules resource) [].

Definition getDependenciesFromPath (modulePath : string)
  : Outcome (list (option string)) :=
  match getResourceByPath resourceMap modulePath with
  | None => Throw (UnknownModulePath modulePath)
  | Some resource =>
      match type resource with
      | ProjectConfiguration | OtherResource =>
          Throw CouldNotExtractDependencies
      | _ => _getDependencyPathsFromResource resource
      end
  end.

(** *** The mock policy *)

Definition cacheDecision (moduleName : string) (decision : bool) : M unit :=
  modify (fun s =>
    with_configShouldMockModuleNames
      (<[moduleName := decision]> (_configShouldMockModuleNames s)) s).

Definition _shouldMock (currPath moduleName : string) : M bool :=
  moduleID <- lift (_getNormalizedModuleID currPath moduleName) ;;
  explicit <- gets _explicitShouldMock ;;
  match explicit !! moduleID with
  | Some decision => ret decision
  | None =>
      if resolve_isCore host moduleName then ret false
      else
        shouldAutoMock <- gets _shouldAutoMock ;;
        if shouldAutoMock then
          cached <- gets _configShouldMockModuleNames ;;
          match cached !! moduleName with
          | Some decision => ret decision
          | None =>
              if (0 <? length _unmockListRegExps)%nat then
                cacheDecision moduleName true ;;;
                let manualMockResource := _getResource JSMock moduleName in
                match _moduleNameToPath currPath moduleName with
                | Throw e =>
                    match manualMockResource with
                    | Some _ => ret true
                    | None => throw e
                    end
                | Diverge => lift Diverge
                | Ok modulePath =>
                    if JsString.startsWith (VENDOR_PATH host) modulePath
                    then ret false
                    else
                      match fs_realpathSync host modulePath with
                      | None => throw (HostError "realpathSync")
                      | Some realPath =>
                          cacheDecision moduleName true ;;;
                          if existsb
                               (fun unmockRegExp =>
                                  RegExp_test host unmockRegExp modulePath
                                  || RegExp_test host unmockRegExp realPath)
                               _unmockListRegExps
                          then cacheDecision moduleName false ;;; ret false
                          else
                            cached <- gets _configShouldMockModuleNames ;;
                            ret (default true (cached !! moduleName))
                      end
                end
              else ret true
          end
        else ret false
  end.

(** *** The registries *)

(** Modelled from the spec: [mockClear] of the mock synthesizer resets
    the calls the mock function has recorded. *)
Definition mockClear (calls : list Z) : list Z := [].

(** [globalMock._isMockFunction && globalMock.mockClear()] for an
    object or a function: [None] when the flag is truthy and the method
    is missing, so that the call throws a TypeError. *)
Definition clearGlobalMock (globalMock : GlobalValue) : option GlobalValue :=
  match globalMock with
  | GObject isMock hasMockClear calls =>
      if isMock then
        if hasMockClear
        then Some (GObject isMock hasMockClear (mockClear calls))
        else None
      else Some globalMock
  | GFunction isMock hasMockClear calls =>
      if isMock then
        if hasMockClear
        then Some (GFunction isMock hasMockClear (mockClear calls))
        else None
      else Some globalMock
  | GPrimitive | GNull => Some globalMock
  end.

(** The loop over [Object.keys(envGlobal)]: the properties as the loop
    leaves them, and whether it came to its end.  It stops at the
    first call that throws, the properties after it not visited. *)
Fixpoint clearGlobalMocks (listed : list (string * GlobalValue))
  : list (string * GlobalValue) * bool :=
  match listed with
  | [] => ([], true)
  | (key, globalMock) :: rest =>
      match clearGlobalMock globalMock with
      | Some cleared =>
          let '(rest', completed) := clearGlobalMocks rest in
          ((key, cleared) :: rest', completed)
      | None => ((key, globalMock) :: rest, false)
      end
  end.

Definition with_properties (listed : list (string * GlobalValue))
    (envGlobal : Global) : Global :=
  {| properties := listed;
     unlisted := unlisted envGlobal;
     mockClearTimers := mockClearTimers envGlobal |}.

Definition with_mockClearTimers (hook : TimersHook) (envGlobal : Global)
  : Global :=
  {| properties := properties envGlobal;
     unlisted := unlisted envGlobal;
     mockClearTimers := hook |}.

Definition resetModuleRegistry : M unit :=
  modify with_fresh_registries ;;;
  envGlobal <- gets global ;;
  match envGlobal with
  | Some envGlobal =>
      let '(visited, completed) := clearGlobalMocks (properties envGlobal) in
      modify (with_global (Some (with_properties visited envGlobal))) ;;;
      if completed : bool then
        match mockClearTimers envGlobal with
        | NoHook => ret tt
        | Hook invoked =>
            modify (with_global
                      (Some (with_mockClearTimers (Hook (S invoked))
                               (with_properties visited envGlobal))))
        | NotAFunction => throw (TypeError "envGlobal.mockClearTimers")
        end
      else throw (TypeError "globalMock.mockClear")
  | None => ret tt
  end.

(** The constructor: the fields as it sets them, then
    [this.resetModuleRegistry()].  When that call throws, so does the
    constructor, and the state is the one of a loader that is never
    handed out. *)
Definition constructor (envGlobal : option Global) : Loader :=
  snd (resetModuleRegistry
         {| _currentlyExecutingModulePath := "";
            _isCurrentlyExecutingManualMock := None;
            _explicitShouldMock := ∅;
            _explicitlySetMocks := ∅;
            _mockMetaDataCache := ∅;
            _shouldAutoMock := true;
            _configShouldMockModuleNames := ∅;
            _mockRegistry := ∅;
            _moduleRegistry := ∅;
            store := [];
            global := envGlobal;
            generation := 0;
            generations := 0;
            evaluations := [] |}).

(** *** The store of module objects *)

Definition allocate (record : ModuleRecord) : M nat :=
  fun s => (Ok (length (store s)), with_store (store s ++ [record]) s).

Definition updateRecord (moduleObj : nat) (f : ModuleRecord -> ModuleRecord)
  : M unit :=
  modify (fun s => with_store (alter f moduleObj (store s)) s).

Definition with_exports (e : Exports) (m : ModuleRecord) : ModuleRecord :=
  {| __filename := __filename m; exports := e; parent := parent m;
     require := require m; origin := origin m |}.

Definition with_parent_require (p r : string) (m : ModuleRecord) : ModuleRecord :=
  {| __filename := __filename m; exports := exports m; parent := Some p;
     require := Some r; origin := origin m |}.

(** [exports.key = v] *)
Definition assignExport (key : string) (v : Z) (m : ModuleRecord) : ModuleRecord :=
  match exports m with
  | EObject fields => with_exports (EObject (JsObject.set fields key v)) m
  | _ => m
  end.

Definition valueOfExports (moduleObj : nat) (e : Exports) : Value :=
  match e with
  | EObject _ => VExportsOf moduleObj
  | EParsedJSON modulePath => VParsedJSON modulePath
  | ENative modulePath => VNative modulePath
  end.

(** [moduleObj.exports] *)
Definition readExports (moduleObj : nat) : M Value :=
  gets (fun s =>
          match store s !! moduleObj with
          | Some record => valueOfExports moduleObj (exports record)
          | None => VUndefined
          end).

(** what [getMetadata] is given *)
Definition describe (s : Loader) (v : Value) : Exports :=
  match v with
  | VExportsOf moduleObj =>
      match store s !! moduleObj with
      | Some record => exports record
      | None => EObject []
      end
  | VParsedJSON modulePath => EParsedJSON modulePath
  | VNative name => ENative name
  | _ => EObject []
  end.

(** *** The executor *)

(** [mockParentModule.id] *)
Definition mockParentModule : string := "mockParent".

Definition _execModule (self : Call -> M Value) (moduleObj : nat) : M unit :=
  envGlobal <- gets global ;;
  match envGlobal with
  | None => ret tt
  | Some _ =>
      records <- gets store ;;
      match records !! moduleObj with
      | None => throw (TypeError "moduleObj")
      | Some record =>
          let filename := __filename record in
          g <- gets generation ;;
          modify (with_evaluation (g, filename, origin record)) ;;;
          match source host filename with
          | TransformFails what => throw (HostError what)
          | evaluated =>
              lastExecutingModulePath <- gets _currentlyExecutingModulePath ;;
              modify (with_currentlyExecutingModulePath filename) ;;;
              origCurrExecutingManualMock <-
                gets _isCurrentlyExecutingManualMock ;;
              modify (with_isCurrentlyExecutingManualMock (Some filename)) ;;;
              updateRecord moduleObj
                (with_parent_require mockParentModule filename) ;;;
              match evaluated with
              | Program body =>
                  self (CallBlock filename moduleObj body) ;;; ret tt
              | EvaluationFails what => throw (HostError what)
              | TransformFails what => throw (HostError what)
              end ;;;
              modify (with_isCurrentlyExecutingManualMock
                        origCurrExecutingManualMock) ;;;
              modify (with_currentlyExecutingModulePath
                        lastExecutingModulePath)
          end
      end
  end.

(** *** The automocker *)

Definition cacheMetadata (modulePath : string) (metadata : option Metadata)
  : M unit :=
  modify (fun s =>
    with_mockMetaDataCache
      (<[modulePath := metadata]> (_mockMetaDataCache s)) s).

Definition _generateMock (self : Call -> M Value)
    (currPath moduleName : string) : M Value :=
  modulePath <- lift (_moduleNameToPath currPath moduleName) ;;
  known <- gets _mockMetaDataCache ;;
  match known !! modulePath with
  | Some _ => ret tt
  | None =>
      cacheMetadata modulePath
        (moduleMocker_getMetadata host (EObject [])) ;;;
      origMockRegistry <- gets _mockRegistry ;;
      origModuleRegistry <- gets _moduleRegistry ;;
      origGeneration <- gets generation ;;
      modify with_fresh_registries ;;;
      moduleExports <- self (CallRequireModule currPath moduleName) ;;
      modify (with_registries origMockRegistry origModuleRegistry
                              origGeneration) ;;;
      described <- gets (fun s => describe s moduleExports) ;;
      match moduleMocker_getMetadata host described with
      | None => throw (FailedToGetMockMetadata modulePath)
      | Some mockMetadata => cacheMetadata modulePath (Some mockMetadata)
      end
  end ;;;
  known <- gets _mockMetaDataCache ;;
  ret (VGeneratedMock (default None (known !! modulePath))).

(** *** Requiring *)

Definition registerMock (modulePath : string) (v : Value) : M unit :=
  modify (fun s => with_mockRegistry (<[modulePath := v]> (_mockRegistry s)) s).

Definition registerModule (modulePath : string) (moduleObj : nat) : M unit :=
  modify (fun s =>
    with_moduleRegistry (<[modulePath := moduleObj]> (_moduleRegistry s)) s).

Definition requireMock (self : Call -> M Value)
    (currPath moduleName : string) : M Value :=
  moduleID <- lift (_getNormalizedModuleID currPath moduleName) ;;
  explicitlySet <- gets _explicitlySetMocks ;;
  match explicitlySet !! moduleID with
  | Some mock => ret mock
  | None =>
      found <-
        match _getResource JSMock moduleName with
        | Some manualMockResource => ret (true, path manualMockResource)
        | None =>
            modulePath <- lift (_moduleNameToPath currPath moduleName) ;;
            let moduleDir := path_dirname host modulePath in
            let moduleFileName := path_basename host modulePath in
            let potentialManualMock :=
              path_join host [moduleDir; "__mocks__"; moduleFileName] in
            if fs_existsSync host potentialManualMock
            then ret (true, potentialManualMock)
            else ret (false, modulePath)
        end ;;
      let '(manualMockResource, modulePath) := found in
      registry <- gets _mockRegistry ;;
      match registry !! modulePath with
      | Some mock => ret mock
      | None =>
          (if manualMockResource : bool then
             moduleObj <- allocate {| __filename := modulePath;
                                      exports := EObject [];
                                      parent := None; require := None;
                                      origin := ManualMock |} ;;
             _execModule self moduleObj ;;;
             mock <- readExports moduleObj ;;
             registerMock modulePath mock
           else
             mock <- self (CallGenerateMock currPath moduleName) ;;
             registerMock modulePath mock) ;;;
          registry <- gets _mockRegistry ;;
          ret (default VUndefined (registry !! modulePath))
      end
  end.

Definition requireModule (self : Call -> M Value)
    (currPath moduleName : string) : M Value :=
  moduleID <- lift (_getNormalizedModuleID currPath moduleName) ;;
  let moduleResource := _getResource JS moduleName in
  let manualMockResource := _getResource JSMock moduleName in
  executingManualMock <- gets _isCurrentlyExecutingManualMock ;;
  explicit <- gets _explicitShouldMock ;;
  let modulePath : option string :=
    match moduleResource, manualMockResource with
    | None, Some manualMockResource =>
        if negb (bool_decide (Some (path manualMockResource)
                              = executingManualMock))
           && negb (bool_decide (explicit !! moduleID = Some false))
        then Some (path manualMockResource)
        else None
    | _, _ => None
    end in
  if resolve_isCore host moduleName then ret (VNative moduleName)
  else
    modulePath <-
      match modulePath with
      | Some chosen =>
          if String.eqb chosen ""
          then lift (_moduleNameToPath currPath moduleName)
          else ret chosen
      | None => lift (_moduleNameToPath currPath moduleName)
      end ;;
    if JsString.startsWith (VENDOR_PATH host) modulePath
    then ret (VNative modulePath)
    else if String.eqb modulePath ""
    then throw (CannotFindModule moduleName currPath)
    else
      registry <- gets _moduleRegistry ;;
      match registry !! modulePath with
      | Some moduleObj => readExports moduleObj
      | None =>
          moduleObj <- allocate {| __filename := modulePath;
                                   exports := EObject [];
                                   parent := None; require := None;
                                   origin := RealModule |} ;;
          registerModule modulePath moduleObj ;;;
          (if String.eqb (path_extname host modulePath) ".json" then
             envGlobal <- gets global ;;
             match envGlobal with
             | None => throw (TypeError "global")
             | Some _ =>
                 if JSON_parses host modulePath
                 then updateRecord moduleObj
                        (with_exports (EParsedJSON modulePath))
                 else throw (HostError "JSON")
             end
           else if String.eqb (path_extname host modulePath) ".node" then
             updateRecord moduleObj (with_exports (ENative modulePath))
           else _execModule self moduleObj) ;;;
          readExports moduleObj
      end.

Definition requireModuleOrMock (self : Call -> M Value)
    (currPath moduleName : string) : M Value :=
  shouldMock <- _shouldMock currPath moduleName ;;
  if shouldMock : bool
  then self (CallRequireMock currPath moduleName)
  else self (CallRequireModule currPath moduleName).

(** *** The bound require and the runtime of a module *)

Definition setExplicitShouldMock (currPath moduleName : string)
    (decision : bool) : M unit :=
  moduleID <- lift (_getNormalizedModuleID currPath moduleName) ;;
  modify (fun s =>
    with_explicitShouldMock
      (<[moduleID := decision]> (_explicitShouldMock s)) s).

(** [jest.mock(moduleName)] of the runtime made for [currPath] *)
Definition mock (currPath moduleName : string) : M unit :=
  setExplicitShouldMock currPath moduleName true.

(** [jest.dontMock(moduleName)] *)
Definition dontMock (currPath moduleName : string) : M unit :=
  setExplicitShouldMock currPath moduleName false.

(** [jest.setMock(moduleName, moduleExports)] *)
Definition setMock (currPath moduleName : string) (moduleExports : Value)
  : M unit :=
  moduleID <- lift (_getNormalizedModuleID currPath moduleName) ;;
  modify (fun s =>
    with_explicitlySetMocks
      (<[moduleID := moduleExports]> (_explicitlySetMocks s))
      (with_explicitShouldMock
         (<[moduleID := true]> (_explicitShouldMock s)) s)).

(** [require.resolve(moduleName)] *)
Definition resolve (modulePath moduleName : string) : M string :=
  found <- lift (_moduleNameToPath modulePath moduleName) ;;
  if String.eqb found "" then throw (ModuleNotFound moduleName)
  else ret found.

(** One statement of the module at [filename], run with the require
    bound to [filename], the runtime made for [filename], and the
    exports of [moduleObj]. *)
Definition execStmt (self : Call -> M Value) (filename : string)
    (moduleObj : nat) (stmt : Stmt) : M unit :=
  match stmt with
  | SRequire name =>
      self (CallRequireModuleOrMock filename name) ;;; ret tt
  | SRequireActual name =>
      self (CallRequireModule filename name) ;;; ret tt
  | SRequireMock name =>
      self (CallRequireMock filename name) ;;; ret tt
  | SResolve name => resolve filename name ;;; ret tt
  | SExport key v => updateRecord moduleObj (assignExport key v)
  | SMock name => mock filename name
  | SDontMock name => dontMock filename name
  | SSetMock name v => setMock filename name (VNumber v)
  | SAutoMockOn => modify (with_shouldAutoMock true)
  | SAutoMockOff => modify (with_shouldAutoMock false)
  | SGenMockFromModule name =>
      executing <- gets _currentlyExecutingModulePath ;;
      self (CallGenerateMock executing name) ;;; ret tt
  | SResetModuleRegistry => resetModuleRegistry
  | SThrow what => throw (HostError what)
  | STry body handler =>
      try_catch
        (self (CallBlock filename moduleObj body) ;;; ret tt)
        (fun _ => self (CallBlock filename moduleObj handler) ;;; ret tt)
  end.

Fixpoint execBlock (self : Call -> M Value) (filename : string)
    (moduleObj : nat) (body : list Stmt) : M Value :=
  match body with
  | [] => ret VUndefined
  | stmt :: rest =>
      execStmt self filename moduleObj stmt ;;;
      execBlock self filename moduleObj rest
  end.

(** The loader's methods closed into one function: [fuel] bounds the
    nesting of calls. *)
Fixpoint run (fuel : nat) (call : Call) : M Value :=
  match fuel with
  | O => lift Diverge
  | S fuel' =>
      match call with
      | CallRequireModuleOrMock currPath moduleName =>
          requireModuleOrMock (run fuel') currPath moduleName
      | CallRequireModule currPath moduleName =>
          requireModule (run fuel') currPath moduleName
      | CallRequireMock currPath moduleName =>
          requireMock (run fuel') currPath moduleName
      | CallGenerateMock currPath moduleName =>
          _generateMock (run fuel') currPath moduleName
      | CallBlock filename moduleObj body =>
          execBlock (run fuel') filename moduleObj body
      end
  end.

End Loader.

(** ** Notions the properties are stated with *)

(** A property of the global object that is a mock function, and the
    calls it has recorded. *)
Definition isMockFunction (v : GlobalValue) : bool :=
  match v with
  | GObject isMock _ _ | GFunction isMock _ _ => isMock
  | GPrimitive | GNull => false
  end.

Definition recordedCalls (v : GlobalValue) : list Z :=
  match v with
  | GObject _ _ calls | GFunction _ _ calls => calls
  | GPrimitive | GNull => []
  end.

(** A value that carries the flag of a mock function and has no
    [mockClear] method. *)
Definition lacksMockClear (v : GlobalValue) : bool :=
  match v with
  | GObject isMock hasMockClear _ | GFunction isMock hasMockClear _ =>
      isMock && negb hasMockClear
  | GPrimitive | GNull => false
  end.

(** What [mockClear] makes of a property: a value with the flag has no
    recorded calls left, any other value is as it was. *)
Definition clearedTo (v v' : GlobalValue) : Prop :=
  (isMockFunction v = true ->
   isMockFunction v' = true /\ recordedCalls v' = [])
  /\ (isMockFunction v = false -> v' = v).

(** The hook after one more invocation. *)
Definition invokedOnceMore (hook : TimersHook) : TimersHook :=
  match hook with
  | Hook invoked => Hook (S invoked)
  | other => other
  end.



(** The evaluations of module objects made by [requireModule]. *)
Definition isReal (e : nat * string * Origin) : bool :=
  Origin_eqb (snd e) RealModule.

Definition realEvaluations (s : Loader) : list (nat * string * Origin) :=
  List.filter isReal (evaluations s).

(** The module object a value was read from. *)
Definition deliveredFrom (s : Loader) (v : Value) (modulePath : string) : Prop :=
  exists moduleObj record,
    store s !! moduleObj = Some record
    /\ __filename record = modulePath
    /\ origin record = RealModule
    /\ v = valueOfExports moduleObj (exports record).

(** The state in which the code of a module starts to run: the
    evaluation listed, the module path and the manual-mock flag set to
    the file of the module, the module object given its parent and its
    bound require. *)
Definition entered (moduleObj : nat) (record : ModuleRecord) (s : Loader)
  : Loader :=
  with_store
    (alter (with_parent_require mockParentModule (__filename record))
           moduleObj (store s))
    (with_isCurrentlyExecutingManualMock (Some (__filename record))
       (with_currentlyExecutingModulePath (__filename record)
          (with_evaluation (generation s, __filename record, origin record)
             s))).

(** What [requireModule] does with the path it has settled on: the
    module object it registers on a miss, how that object gets its
    exports, and the lookup around both. *)
Definition freshModule (modulePath : string) : ModuleRecord :=
  {| __filename := modulePath; exports := EObject [];
     parent := None; require := None; origin := RealModule |}.

Definition fillModule (host : Host) (self : Call -> M Value)
    (modulePath : string) (moduleObj : nat) : M unit :=
  if String.eqb (path_extname host modulePath) ".json" then
    envGlobal <- gets global ;;
    match envGlobal with
    | None => throw (TypeError "global")
    | Some _ =>
        if JSON_parses host modulePath
        then updateRecord moduleObj (with_exports (EParsedJSON modulePath))
        else throw (HostError "JSON")
    end
  else if String.eqb (path_extname host modulePath) ".node" then
    updateRecord moduleObj (with_exports (ENative modulePath))
  else _execModule host self moduleObj.

Definition loadModule (host : Host) (self : Call -> M Value)
    (modulePath : string) : M Value :=
  registry <- gets _moduleRegistry ;;
  match registry !! modulePath with
  | Some moduleObj => readExports moduleObj
  | None =>
      moduleObj <- allocate (freshModule modulePath) ;;
      registerModule modulePath moduleObj ;;;
      fillModule host self modulePath moduleObj ;;;
      readExports moduleObj
  end.

(** The state in which the module object of [modulePath] has been
    allocated and registered, and nothing of the module evaluated yet. *)
Definition preallocated (modulePath : string) (s : Loader) : Loader :=
  with_moduleRegistry
    (<[modulePath := length (store s)]> (_moduleRegistry s))
    (with_store (store s ++ [freshModule modulePath]) s).

(** The request resolves to the real path [modulePath]: the name is not
    a core module, its module ID is computed, no manual mock stands in
    for a missing source, and the resolver gives the path, which is not
    under the vendor path. *)
Definition resolvesTo (host : Host) (config : Config) (resourceMap : ResourceMap)
    (depth : nat) (currPath moduleName modulePath : string) : Prop :=
  resolve_isCore host moduleName = false
  /\ (exists moduleID,
        _getNormalizedModuleID host config resourceMap depth currPath moduleName
        = Ok moduleID)
  /\ (_getResource host config resourceMap JS moduleName <> None
      \/ _getResource host config resourceMap JSMock moduleName = None)
  /\ _moduleNameToPath host config resourceMap depth currPath moduleName
     = Ok modulePath
  /\ JsString.startsWith (VENDOR_PATH host) modulePath = false
  /\ modulePath <> "".

(** The path under which [requireMock] looks up and registers the mock
    of a request: the path of the manual mock the resource map has for
    the name, or else the [__mocks__] sibling of the real path when
    that file exists, or else the real path. *)
Definition mockRegistryPath (host : Host) (config : Config)
    (resourceMap : ResourceMap) (depth : nat) (currPath moduleName : string)
  : Outcome string :=
  match _getResource host config resourceMap JSMock moduleName with
  | Some manualMockResource => Ok (path manualMockResource)
  | None =>
      match _moduleNameToPath host config resourceMap depth currPath
              moduleName with
      | Ok modulePath =>
          let potentialManualMock :=
            path_join host [path_dirname host modulePath; "__mocks__";
                            path_basename host modulePath] in
          Ok (if fs_existsSync host potentialManualMock
              then potentialManualMock
              else modulePath)
      | Throw e => Throw e
      | Diverge => Diverge
      end
  end.

(** The invariant of the registries: an evaluation started by
    [requireModule] in the current generation is of a registered path,
    no such evaluation is listed twice, generations are numbered below
    the counter, and a registered path names a module object made by
    [requireModule] for that path. *)
Record Inv (s : Loader) : Prop := {
  inv_registered :
    forall p, In (generation s, p, RealModule) (evaluations s) ->
              is_Some (_moduleRegistry s !! p);
  inv_once : NoDup (realEvaluations s);
  inv_current : generation s < generations s;
  inv_numbered :
    forall g p o, In (g, p, o) (evaluations s) -> g < generations s;
  inv_records :
    forall p moduleObj, _moduleRegistry s !! p = Some moduleObj ->
      exists record, store s !! moduleObj = Some record
                     /\ __filename record = p
                     /\ origin record = RealModule;
}.

(** What a call may do to the ghost state and to the store. *)
Record Rel (s s' : Loader) : Prop := {
  rel_counter : generations s <= generations s';
  rel_generation :
    generation s' = generation s \/ generations s <= generation s';
  rel_evaluations :
    exists new, evaluations s' = (new ++ evaluations s)%list
                /\ forall g p o, In (g, p, o) new ->
                                 g = generation s \/ generations s <= g;
  rel_store :
    forall moduleObj record, store s !! moduleObj = Some record ->
      exists record', store s' !! moduleObj = Some record'
                      /\ __filename record' = __filename record
                      /\ origin record' = origin record;
}.

(** A computation started in [s] keeps the invariant and stays within
    [Rel]; [Safe] says so of every start that satisfies the invariant. *)
Definition Good {A} (s : Loader) (m : M A) : Prop :=
  Inv (snd (m s)) /\ Rel s (snd (m s)).

Definition Safe {A} (m : M A) : Prop :=
  forall s, Inv s -> Good s m.

(** Two states with the same module registry, store and ghost fields. *)
Definition sameGhost (s s' : Loader) : Prop :=
  _moduleRegistry s' = _moduleRegistry s
  /\ store s' = store s
  /\ generation s' = generation s
  /\ generations s' = generations s
  /\ evaluations s' = evaluations s.

(** A change of a module object that keeps its file and its origin. *)
Definition keepsIdentity (f : ModuleRecord -> ModuleRecord) : Prop :=
  forall record, __filename (f record) = __filename record
                 /\ origin (f record) = origin record.

(** The module object [requireMock] makes for a manual mock. *)
Definition freshManualMock (modulePath : string) : ModuleRecord :=
  {| __filename := modulePath; exports := EObject [];
     parent := None; require := None; origin := ManualMock |}.

(** The states a loader goes through, between the calls made on it and
    in the middle of them: the constructor's state; the state a call
    into the loader or a block of module code leaves; the state after
    the environment is disposed of; the state in which the automocker
    has put fresh registries in place; and the states in which the code
    of a module starts to run, for [requireModule] after the module
    object has been registered, for [requireMock] after the module
    object of a manual mock has been made. *)
Inductive reachable (host : Host) (config : Config) (resourceMap : ResourceMap)
    (depth : nat) : Loader -> Prop :=
| reach_constructor envGlobal :
    reachable host config resourceMap depth (constructor envGlobal)
| reach_call fuel call s :
    reachable host config resourceMap depth s ->
    reachable host config resourceMap depth
      (snd (run host config resourceMap depth fuel call s))
| reach_dispose s :
    reachable host config resourceMap depth s ->
    reachable host config resourceMap depth (with_global None s)
| reach_isolate s :
    reachable host config resourceMap depth s ->
    reachable host config resourceMap depth (with_fresh_registries s)
| reach_enter_real modulePath s :
    reachable host config resourceMap depth s ->
    _moduleRegistry s !! modulePath = None ->
    reachable host config resourceMap depth
      (entered (length (store s)) (freshModule modulePath)
               (preallocated modulePath s))
| reach_enter_manual modulePath s :
    reachable host config resourceMap depth s ->
    reachable host config resourceMap depth
      (entered (length (store s)) (freshManualMock modulePath)
               (with_store (store s ++ [freshManualMock modulePath]) s)).

(** ** The dependents of a file *)

(** [o[k]] and [Object.keys(o)] on a table kept in creation order. *)
Fixpoint lookupKey {V} (o : list (string * V)) (k : string) : option V :=
  match o with
  | [] => None
  | (k', v) :: r => if String.eqb k' k then Some v else lookupKey r k
  end.

Definition keysOf {V} (o : list (string * V)) : list string :=
  List.map fst (JsObject.forIn o).

(** The property name a dependency path makes: [undefined] is turned
    into text. *)
Definition propertyKey (entry : option string) : string :=
  match entry with
  | Some p => p
  | None => "undefined"
  end.

(** One turn of the inner loop of [getDependentsFromPath]:
    [reverseDepMap[requiredModulePath]] is created when missing, and
    [resource.path] is entered in it. *)
Definition addDependent (resourcePath : string)
    (reverseDepMap : list (string * list (string * bool)))
    (requiredModulePath : option string)
  : list (string * list (string * bool)) :=
  let key := propertyKey requiredModulePath in
  let reverseDepMap :=
    match lookupKey reverseDepMap key with
    | Some _ => reverseDepMap
    | None => JsObject.set reverseDepMap key []
    end in
  match lookupKey reverseDepMap key with
  | Some dependents =>
      JsObject.set reverseDepMap key (JsObject.set dependents resourcePath true)
  | None => reverseDepMap
  end.

(** The scan over all resources.  The map is filled in place, so what
    has been entered stays when the scan does not come to its end. *)
Fixpoint scanResources (host : Host) (config : Config)
    (resourceMap : ResourceMap) (depth : nat)
    (resources : list HasteResource)
    (reverseDepMap : list (string * list (string * bool)))
  : Outcome unit * list (string * list (string * bool)) :=
  match resources with
  | [] => (Ok tt, reverseDepMap)
  | resource :: rest =>
      match type resource with
      | ProjectConfiguration | OtherResource =>
          scanResources host config resourceMap depth rest reverseDepMap
      | _ =>
          match _getDependencyPathsFromResource host config resourceMap depth
                  resource with
          | Ok dependencyPaths =>
              scanResources host config resourceMap depth rest
                (fold_left (addDependent (path resource)) dependencyPaths
                           reverseDepMap)
          | Throw e => (Throw e, reverseDepMap)
          | Diverge => (Diverge, reverseDepMap)
          end
      end
  end.

(** [getDependentsFromPath]: [allResources] are the values of
    [getAllResources()] in the order of its keys, and the memo
    [_reverseDependencyMap], [None] for [null], is passed in and handed
    back. *)
Definition getDependentsFromPath (host : Host) (config : Config)
    (resourceMap : ResourceMap) (depth : nat)
    (allResources : list HasteResource)
    (_reverseDependencyMap : option (list (string * list (string * bool))))
    (modulePath : string)
  : Outcome (list string) * option (list (string * list (string * bool))) :=
  let '(built, reverseDepMap) :=
    match _reverseDependencyMap with
    | Some reverseDepMap => (Ok tt, reverseDepMap)
    | None => scanResources host config resourceMap depth allResources []
    end in
  match built with
  | Ok _ =>
      (Ok match lookupKey reverseDepMap modulePath with
          | Some reverseDeps => keysOf reverseDeps
          | None => []
          end,
       Some reverseDepMap)
  | Throw e => (Throw e, Some reverseDepMap)
  | Diverge => (Diverge, Some reverseDepMap)
  end.

(** A resource the scan looks at lists [modulePath] among the paths of
    its dependencies. *)
Definition dependsOn (host : Host) (config : Config) (resourceMap : ResourceMap)
    (depth : nat) (resource : HasteResource) (modulePath : string) : Prop :=
  type resource <> ProjectConfiguration
  /\ type resource <> OtherResource
  /\ exists dependencyPaths entry,
       _getDependencyPathsFromResource host config resourceMap depth resource
       = Ok dependencyPaths
       /\ In entry dependencyPaths
       /\ propertyKey entry = modulePath.

(** [dependent] is entered under [modulePath] in a reverse dependency
    map. *)
Definition listsDependent (reverseDepMap : list (string * list (string * bool)))
    (modulePath dependent : string) : Prop :=
  exists dependents,
    lookupKey reverseDepMap modulePath = Some dependents
    /\ lookupKey dependents dependent <> None.

(** No list of dependents of a reverse dependency map names a file
    twice. *)
Definition dependentsOnce (reverseDepMap : list (string * list (string * bool)))
  : Prop :=
  forall modulePath dependents,
    lookupKey reverseDepMap modulePath = Some dependents ->
    NoDup (List.map fst dependents).

(** The pattern the table of mapped names holds for a canonical name:
    the one of the last mapping declared for it. *)
Fixpoint lastPatternFor (mapper : list (string * string)) (canonical : string)
  : option string :=
  match mapper with
  | [] => None
  | (pattern, name) :: rest =>
      match lastPatternFor rest canonical with
      | Some later => Some later
      | None => if String.eqb name canonical then Some pattern else None
      end
  end.

(** ** A project to run the loader on *)

(** [path] of node on POSIX, for normalised absolute paths. *)
Module Posix.

Definition dirname (p : string) : string :=
  match rev (JsString.split "/" p) with
  | [] | [_] => "."
  | _ :: r =>
      match JsString.join "/" (rev r) with
      | EmptyString => "/"
      | d => d
      end
  end.

Definition basename (p : string) : string :=
  match rev (JsString.split "/" p) with
  | [] => EmptyString
  | b :: _ => b
  end.

Definition extname (p : string) : string :=
  match rev (JsString.split "." (basename p)) with
  | [] | [_] => EmptyString
  | [_; EmptyString] => EmptyString
  | [EmptyString; EmptyString; EmptyString] => EmptyString
  | e :: _ => "." +:+ e
  end.

Definition join (parts : list string) : string := JsString.join "/" parts.

End Posix.

Module Scenario.

(** A pattern without metacharacters matches the subjects it occurs in. *)
Definition literal (pattern subject : string) : bool :=
  match String.index 0 pattern subject with
  | Some _ => true
  | None => false
  end.

Definition resource (i : string) (t : ResourceType) (p : string)
    (required : list string) : HasteResource :=
  {| id := i; type := t; path := p; requiredModules := required;
     data_name := ""; data_main := None; getModuleIDByOrigin := None |}.

Definition mapOf (resources : list HasteResource) : ResourceMap :=
  {| getResource := fun t n =>
       List.find (fun r => ResourceType_eqb (type r) t && String.eqb (id r) n)
                 resources;
     getResourceByPath := fun p =>
       List.find (fun r => String.eqb (path r) p) resources;
     getAllResourcesByType := fun t =>
       List.filter (fun r => ResourceType_eqb (type r) t) resources |}.

(** The project: a test [T], two modules [A] and [B] that require each
    other, a module [Bad] whose top level throws, a stub [Stub], the
    assertion library under the vendor path, a manual mock [M] without
    a real module, and a manual mock of the package [foo] that lives
    under [node_modules]. *)
Definition project : ResourceMap :=
  mapOf [ resource "T" JS "/proj/t.js" ["A"; "M"; "fs"; "nope"];
          resource "A" JS "/proj/a.js" ["B"];
          resource "B" JS "/proj/b.js" ["A"];
          resource "Bad" JS "/proj/bad.js" [];
          resource "Stub" JS "/proj/Stub.js" [];
          resource "jasmine" JS "/jest/vendor/jasmine.js" [];
          resource "M" JSMock "/proj/__mocks__/M.js" [];
          resource "foo" JSMock "/proj/__mocks__/foo.js" [] ].

Definition files (filename : string) : ModuleSource :=
  if String.eqb filename "/proj/a.js" then
    Program [SExport "early" 1; SRequireActual "B"; SExport "late" 2]
  else if String.eqb filename "/proj/b.js" then
    Program [SRequireActual "A"; SExport "b" 1]
  else if String.eqb filename "/proj/bad.js" then
    Program [SThrow "boom"]
  else Program [].

Definition node : Host :=
  {| resolve_isCore := fun name => String.eqb name "fs";
     resolve_sync := fun basedir name =>
       if String.eqb name "foo"
       then Some "/proj/node_modules/foo/index.js"
       else None;
     path_dirname := Posix.dirname;
     path_rejects_undefined := true;
     path_basename := Posix.basename;
     path_extname := Posix.extname;
     path_join := Posix.join;
     path_delimiter := ":"%char;
     fs_existsSync := fun _ => false;
     fs_realpathSync := Some;
     VENDOR_PATH := "/jest/vendor";
     RegExp_test := literal;
     source := files;
     JSON_parses := fun _ => true;
     moduleMocker_getMetadata := fun e =>
       match e with
       | EObject fields => Some (List.map fst fields)
       | _ => Some []
       end |}.

(** auto-mocking with one unmock pattern, no name mapping *)
Definition plain : Config :=
  {| moduleNameMapper := []; unmockedModulePathPatterns := ["/keep/"] |}.

(** no unmock pattern at all *)
Definition bare : Config :=
  {| moduleNameMapper := []; unmockedModulePathPatterns := [] |}.



(** two patterns mapped to the same stub *)
Definition shared : Config :=
  {| moduleNameMapper := [("css", "Stub"); ("png", "Stub")];
     unmockedModulePathPatterns := [] |}.


Definition envGlobal : Global :=
  {| properties :=
       [("spy", GFunction true true [1; 2]%Z); ("answer", GPrimitive);
        ("helper", GFunction false false [])];
     unlisted := [];
     mockClearTimers := Hook 0 |}.

Definition fresh : Loader := constructor (Some envGlobal).

Definition test : string := "/proj/t.js".

End Scenario.

(** A checkout with files the resource map does not know, a package
    known by its manifest only, and files that fail. *)
Module Checkout.

Import Scenario.

(** The manifest of the package [pkg], installed below the project. *)
Definition manifest : HasteResource :=
  {| id := "/proj/node_modules/pkg/package.json";
     type := ProjectConfiguration;
     path := "/proj/node_modules/pkg/package.json";
     requiredModules := [];
     data_name := "pkg";
     data_main := Some "main.js";
     getModuleIDByOrigin := None |}.

(** [Kept] lies under a directory the unmock pattern of [plain]
    matches, the file of [Gone] has been removed, [Broken] fails when
    it is evaluated and [Garbled] when it is transformed; [Addon] is a
    compiled add-on. *)
Definition resources : list HasteResource :=
  [ resource "T" JS "/proj/t.js" ["Kept"; "pkg"; "./tools/one"; "missing"];
    resource "Kept" JS "/proj/keep/k.js" ["Gone"; "Gone"];
    resource "Gone" JS "/proj/gone.js" [];
    resource "Broken" JS "/proj/broken.js" ["Gone"];
    resource "Garbled" JS "/proj/garbled.js" [];
    resource "Addon" JS "/proj/addon.node" [];
    manifest ].

Definition checkout : ResourceMap := mapOf resources.

(** node's resolution finds the two scripts under [tools], which the
    resource map does not list, and the main file of [pkg] from inside
    the package. *)
Definition disk : Host :=
  {| resolve_isCore := fun name => String.eqb name "fs";
     resolve_sync := fun basedir name =>
       if String.eqb basedir "/proj" then
         if String.eqb name "./tools/one" then Some "/proj/tools/one.js"
         else if String.eqb name "./tools/two" then Some "/proj/tools/two.js"
         else None
       else if String.eqb basedir "/proj/node_modules/pkg"
               && String.eqb name "./main.js"
       then Some "/proj/node_modules/pkg/main.js"
       else None;
     path_dirname := Posix.dirname;
     path_rejects_undefined := true;
     path_basename := Posix.basename;
     path_extname := Posix.extname;
     path_join := Posix.join;
     path_delimiter := ":"%char;
     fs_existsSync := fun _ => false;
     fs_realpathSync := fun p =>
       if String.eqb p "/proj/gone.js" then None else Some p;
     VENDOR_PATH := "/jest/vendor";
     RegExp_test := literal;
     source := fun filename =>
       if String.eqb filename "/proj/broken.js" then EvaluationFails "boom"
       else if String.eqb filename "/proj/garbled.js"
       then TransformFails "syntax"
       else Program [];
     JSON_parses := fun _ => true;
     moduleMocker_getMetadata := fun e =>
       match e with
       | EObject fields => Some (List.map fst fields)
       | _ => Some []
       end |}.

End Checkout.

(** * Properties *)

Section Properties.

Variable host : Host.
Variable config : Config.
Variable resourceMap : ResourceMap.
Variable depth : nat.

(** ** The registries *)

Lemma clearGlobalMock_Some (v : GlobalValue) :
  lacksMockClear v = false ->
  exists v', clearGlobalMock v = Some v' /\ clearedTo v v'.
Proof.
  unfold clearedTo.
  destruct v as [| |[] [] calls|[] [] calls]; simpl; try discriminate;
    intros _; eexists; (split; [reflexivity|]); simpl;
    (split; [try discriminate; auto | try discriminate; auto]).
Qed.

Lemma clearGlobalMock_None (v : GlobalValue) :
  lacksMockClear v = true -> clearGlobalMock v = None.
Proof.
  destruct v as [| |isMock hasMockClear calls|isMock hasMockClear calls];
    simpl; try discriminate;
    destruct isMock, hasMockClear; simpl; try discriminate; reflexivity.
Qed.

Lemma clearGlobalMocks_keys (listed : list (string * GlobalValue)) :
  List.map fst (fst (clearGlobalMocks listed)) = List.map fst listed.
Proof.
  induction listed as [|[key v] rest IH]; simpl; [reflexivity|].
  destruct (clearGlobalMock v); [|reflexivity].
  destruct (clearGlobalMocks rest) as [rest' completed]. simpl in *.
  now rewrite IH.
Qed.

Lemma clearGlobalMocks_completes (listed : list (string * GlobalValue)) :
  (forall key v, In (key, v) listed -> lacksMockClear v = false) ->
  exists visited,
    clearGlobalMocks listed = (visited, true)
    /\ forall i key v,
        listed !! i = Some (key, v) ->
        exists v', visited !! i = Some (key, v') /\ clearedTo v v'.
Proof.
  induction listed as [|[key v] rest IH]; intros Hall; simpl.
  - exists []. split; [reflexivity|]. intros i k w Hi. discriminate.
  - destruct (clearGlobalMock_Some v (Hall key v (or_introl eq_refl)))
      as (v' & -> & Hv).
    destruct IH as (rest' & -> & Hrest);
      [intros k w Hin; apply (Hall k w); now right|].
    exists ((key, v') :: rest'). split; [reflexivity|].
    intros [|i] k w Hi; simpl in *.
    + inversion Hi; subst. eauto.
    + apply Hrest. exact Hi.
Qed.

Lemma clearGlobalMocks_stops (before after : list (string * GlobalValue))
    (key : string) (v : GlobalValue) :
  (forall k w, In (k, w) before -> lacksMockClear w = false) ->
  lacksMockClear v = true ->
  exists visited,
    clearGlobalMocks (before ++ (key, v) :: after)%list
    = ((visited ++ (key, v) :: after)%list, false)
    /\ length visited = length before
    /\ forall i k w,
        before !! i = Some (k, w) ->
        exists w', visited !! i = Some (k, w') /\ clearedTo w w'.
Proof.
  intros Hall Hv.
  induction before as [|[k0 w0] before IH]; simpl.
  - rewrite (clearGlobalMock_None v Hv). exists []. split; [reflexivity|].
    split; [reflexivity|]. intros i k w Hi. discriminate.
  - destruct (clearGlobalMock_Some w0 (Hall k0 w0 (or_introl eq_refl)))
      as (w0' & -> & Hw0).
    destruct IH as (visited & -> & Hlen & Hvisited);
      [intros k w Hin; apply (Hall k w); now right|].
    exists ((k0, w0') :: visited). split; [reflexivity|].
    split; [simpl; now rewrite Hlen|].
    intros [|i] k w Hi; simpl in *.
    + inversion Hi; subst. eauto.
    + apply Hvisited. exact Hi.
Qed.

(** What [resetModuleRegistry] leaves, whether it returns or throws:
    the state with a fresh pair of registries, and nothing else changed
    but the global object. *)
Lemma resetModuleRegistry_state (s : Loader) :
  (global s = None
   /\ resetModuleRegistry s = (Ok tt, with_fresh_registries s))
  \/ (exists g g',
        global s = Some g
        /\ snd (resetModuleRegistry s)
           = with_global (Some g') (with_fresh_registries s)
        /\ List.map fst (properties g') = List.map fst (properties g)
        /\ unlisted g' = unlisted g).
Proof.
  unfold resetModuleRegistry, bind, modify, gets, ret, throw. simpl.
  destruct (global s) as [g|]; [right | now left].
  pose proof (clearGlobalMocks_keys (properties g)) as Hkeys.
  destruct (clearGlobalMocks (properties g)) as [visited completed].
  simpl in Hkeys.
  destruct completed; [destruct (mockClearTimers g)|]; simpl;
    (eexists; eexists; split; [reflexivity|]; split; [reflexivity|];
     split; [exact Hkeys | reflexivity]).
Qed.

(** C5, as the code has it: whether it returns or throws,
    [resetModuleRegistry] leaves both registries empty and the explicit
    overrides and the explicitly set mocks untouched.  With a global
    object it then visits the properties [Object.keys] lists, in that
    order, and clears each value that carries the flag of a mock
    function; the properties [Object.keys] does not list are never
    visited.  When every flagged value it visits has a [mockClear]
    method and [mockClearTimers] is a function or missing, it returns,
    the hook invoked once more.  At the first flagged value without the
    method it throws a [TypeError], the properties before it cleared,
    those from it on as they were and the hook not invoked; and it
    throws as well, after the loop, when [mockClearTimers] is a value
    that cannot be called. *)
Theorem resetModuleRegistry_effect (s : Loader) :
  let s' := snd (resetModuleRegistry s) in
  _mockRegistry s' = ∅
  /\ _moduleRegistry s' = ∅
  /\ _explicitShouldMock s' = _explicitShouldMock s
  /\ _explicitlySetMocks s' = _explicitlySetMocks s
  /\ match global s with
     | None => fst (resetModuleRegistry s) = Ok tt /\ global s' = None
     | Some g =>
         exists g',
           global s' = Some g'
           /\ List.map fst (properties g') = List.map fst (properties g)
           /\ unlisted g' = unlisted g
           /\ ((forall key v,
                   In (key, v) (properties g) -> lacksMockClear v = false) ->
               (forall i key v,
                   properties g !! i = Some (key, v) ->
                   exists v',
                     properties g' !! i = Some (key, v') /\ clearedTo v v')
               /\ mockClearTimers g' = invokedOnceMore (mockClearTimers g)
               /\ fst (resetModuleRegistry s)
                  = match mockClearTimers g with
                    | NotAFunction =>
                        Throw (TypeError "envGlobal.mockClearTimers")
                    | _ => Ok tt
                    end)
           /\ (forall before key v after,
                  properties g = (before ++ (key, v) :: after)%list ->
                  (forall k w, In (k, w) before -> lacksMockClear w = false) ->
                  lacksMockClear v = true ->
                  fst (resetModuleRegistry s)
                  = Throw (TypeError "globalMock.mockClear")
                  /\ (forall i k w,
                         before !! i = Some (k, w) ->
                         exists w',
                           properties g' !! i = Some (k, w')
                           /\ clearedTo w w')
                  /\ (forall i,
                         length before <= i ->
                         properties g' !! i = properties g !! i)
                  /\ mockClearTimers g' = mockClearTimers g)
     end.
Proof.
  unfold resetModuleRegistry, bind, modify, gets, ret, throw. simpl.
  destruct (global s) as [g|] eqn:Hg; simpl;
    [|do 4 (split; [reflexivity|]); split; [reflexivity | exact Hg]].
  pose proof (clearGlobalMocks_keys (properties g)) as Hkeys.
  destruct (clearGlobalMocks (properties g)) as [visited completed] eqn:Hloop.
  simpl in Hkeys.
  assert (Hframe :
    forall r : Outcome unit * Loader,
      (exists g', snd r = with_global (Some g') (with_fresh_registries s)) ->
      _mockRegistry (snd r) = ∅ /\ _moduleRegistry (snd r) = ∅
      /\ _explicitShouldMock (snd r) = _explicitShouldMock s
      /\ _explicitlySetMocks (snd r) = _explicitlySetMocks s).
  { intros r (g' & ->). repeat split. }
  match goal with
  | |- context [snd ?r] =>
      destruct (Hframe r) as (H1 & H2 & H3 & H4);
        [destruct completed; [destruct (mockClearTimers g)|]; simpl; eauto|]
  end.
  do 4 (split; [assumption|]). clear Hframe H1 H2 H3 H4.
  assert (Hreturns :
    (forall key v, In (key, v) (properties g) -> lacksMockClear v = false) ->
    completed = true
    /\ forall i key v,
        properties g !! i = Some (key, v) ->
        exists v', visited !! i = Some (key, v') /\ clearedTo v v').
  { intros Hall.
    destruct (clearGlobalMocks_completes (properties g) Hall)
      as (visited' & Hloop' & Hvisited).
    rewrite Hloop in Hloop'. inversion Hloop'; subst. auto. }
  assert (Hthrows :
    forall before key v after,
      properties g = (before ++ (key, v) :: after)%list ->
      (forall k w, In (k, w) before -> lacksMockClear w = false) ->
      lacksMockClear v = true ->
      completed = false
      /\ (forall i k w,
             before !! i = Some (k, w) ->
             exists w', visited !! i = Some (k, w') /\ clearedTo w w')
      /\ (forall i, length before <= i -> visited !! i = properties g !! i)).
  { intros before key v after Hsplit Hall Hv.
    destruct (clearGlobalMocks_stops before after key v Hall Hv)
      as (visited' & Hloop' & Hlen & Hvisited).
    rewrite <- Hsplit, Hloop in Hloop'. inversion Hloop'; subst.
    split; [reflexivity|]. split.
    - intros i k w Hi. destruct (Hvisited i k w Hi) as (w' & Hw' & Hc).
      exists w'. split; [|exact Hc]. apply lookup_app_l_Some. exact Hw'.
    - intros i Hi. rewrite Hsplit.
      rewrite !lookup_app_r by lia. now rewrite Hlen. }
  clear Hloop.
  destruct completed; [destruct (mockClearTimers g) eqn:Hhook|]; simpl;
    (eexists; split; [reflexivity|]; simpl;
     split; [exact Hkeys|]; split; [reflexivity|]; split;
     [ intros Hall; destruct (Hreturns Hall) as [Hc Hvisited];
       try discriminate; rewrite ?Hhook; auto
     | intros before key v after Hsplit Hall Hv;
       destruct (Hthrows before key v after Hsplit Hall Hv)
         as (Hc & Hvisited & Hrest);
       try discriminate; rewrite ?Hhook; auto ]).
Qed.

Lemma resetModuleRegistry_frame (s : Loader) :
  _explicitShouldMock (snd (resetModuleRegistry s)) = _explicitShouldMock s
  /\ _explicitlySetMocks (snd (resetModuleRegistry s)) = _explicitlySetMocks s
  /\ _shouldAutoMock (snd (resetModuleRegistry s)) = _shouldAutoMock s
  /\ _configShouldMockModuleNames (snd (resetModuleRegistry s))
     = _configShouldMockModuleNames s
  /\ _mockMetaDataCache (snd (resetModuleRegistry s)) = _mockMetaDataCache s
  /\ store (snd (resetModuleRegistry s)) = store s
  /\ evaluations (snd (resetModuleRegistry s)) = evaluations s
  /\ generation (snd (resetModuleRegistry s)) = generations s
  /\ _moduleRegistry (snd (resetModuleRegistry s)) = ∅
  /\ _mockRegistry (snd (resetModuleRegistry s)) = ∅
  /\ (global s <> None -> global (snd (resetModuleRegistry s)) <> None).
Proof.
  destruct (resetModuleRegistry_state s)
    as [[Hg Hr]|(g & g' & Hg & Hr & _)]; rewrite Hr; simpl;
    repeat split; auto; discriminate.
Qed.

(** ** The mock policy *)

Lemma _shouldMock_explicit (s : Loader) (currPath x moduleID : string)
    (decision : bool) :
  _getNormalizedModuleID host config resourceMap depth currPath x = Ok moduleID ->
  _explicitShouldMock s !! moduleID = Some decision ->
  _shouldMock host config resourceMap depth currPath x s = (Ok decision, s).
Proof.
  intros Hid Hex. unfold _shouldMock, bind, lift, gets, ret.
  rewrite Hid, Hex. reflexivity.
Qed.

Lemma setExplicitShouldMock_state (s : Loader) (currPath x moduleID : string)
    (decision : bool) :
  _getNormalizedModuleID host config resourceMap depth currPath x = Ok moduleID ->
  setExplicitShouldMock host config resourceMap depth currPath x decision s
  = (Ok tt, with_explicitShouldMock
              (<[moduleID := decision]> (_explicitShouldMock s)) s).
Proof.
  intros Hid. unfold setExplicitShouldMock, bind, lift, modify.
  rewrite Hid. reflexivity.
Qed.




(** ** The executor *)

(** C2, as the code has it: when [_execModule] returns normally, the
    module path and the manual-mock flag are what they were before the
    call, whatever the module did; when the transformer throws, the
    exception leaves with both untouched; when the evaluation of the
    wrapper throws, the exception leaves with both still set to the
    file of the module; and when the code of the module throws, the
    exception leaves with the state as that code left it, nothing
    restored. *)
Theorem _execModule_restores_on_return (self : Call -> M Value)
    (moduleObj : nat) (s s' : Loader) (o : Outcome unit) :
  _execModule host self moduleObj s = (o, s') ->
  (o = Ok tt ->
   _currentlyExecutingModulePath s' = _currentlyExecutingModulePath s
   /\ _isCurrentlyExecutingManualMock s' = _isCurrentlyExecutingManualMock s)
  /\ (forall record what,
         global s <> None ->
         store s !! moduleObj = Some record ->
         source host (__filename record) = TransformFails what ->
         o = Throw (HostError what)
         /\ _currentlyExecutingModulePath s' = _currentlyExecutingModulePath s
         /\ _isCurrentlyExecutingManualMock s'
            = _isCurrentlyExecutingManualMock s)
  /\ (forall record what,
         global s <> None ->
         store s !! moduleObj = Some record ->
         source host (__filename record) = EvaluationFails what ->
         o = Throw (HostError what)
         /\ _currentlyExecutingModulePath s' = __filename record
         /\ _isCurrentlyExecutingManualMock s' = Some (__filename record))
  /\ (forall record body e thrown,
         global s <> None ->
         store s !! moduleObj = Some record ->
         source host (__filename record) = Program body ->
         self (CallBlock (__filename record) moduleObj body)
              (entered moduleObj record s) = (Throw e, thrown) ->
         o = Throw e /\ s' = thrown).
Proof.
  unfold _execModule, entered, bind, gets, modify, ret, throw, updateRecord.
  simpl. intros H.
  destruct (global s) as [g|] eqn:Hg.
  2:{ inversion H; subst. split; [auto|].
      split; [|split]; intros; congruence. }
  destruct (store s !! moduleObj) as [record|] eqn:Hrec.
  2:{ inversion H; subst. split; [discriminate|].
      split; [|split]; intros; discriminate. }
  destruct (source host (__filename record)) as [what|what|body] eqn:Hsrc;
    simpl in H.
  - inversion H; subst. split; [discriminate|]. split; [|split].
    + intros r w _ Hr Hs. inversion Hr; subst. rewrite Hsrc in Hs.
      inversion Hs; subst. auto.
    + intros r w _ Hr Hs. inversion Hr; subst. rewrite Hsrc in Hs.
      discriminate.
    + intros r b e t _ Hr Hs. inversion Hr; subst. rewrite Hsrc in Hs.
      discriminate.
  - inversion H; subst. split; [discriminate|]. split; [|split].
    + intros r w _ Hr Hs. inversion Hr; subst. rewrite Hsrc in Hs.
      discriminate.
    + intros r w _ Hr Hs. inversion Hr; subst. rewrite Hsrc in Hs.
      inversion Hs; subst. auto.
    + intros r b e t _ Hr Hs. inversion Hr; subst. rewrite Hsrc in Hs.
      discriminate.
  - match type of H with
    | context [self ?c ?st] => destruct (self c st) as [[v|e|] s1] eqn:Hself
    end; simpl in H; inversion H; subst.
    + split; [auto|]. split; [|split].
      * intros r w _ Hr Hs; inversion Hr; subst; rewrite Hsrc in Hs;
          discriminate.
      * intros r w _ Hr Hs; inversion Hr; subst; rewrite Hsrc in Hs;
          discriminate.
      * intros r b e t _ Hr Hs Hthrown. inversion Hr; subst.
        rewrite Hsrc in Hs. inversion Hs; subst.
        rewrite Hself in Hthrown. discriminate.
    + split; [discriminate|]. split; [|split].
      * intros r w _ Hr Hs; inversion Hr; subst; rewrite Hsrc in Hs;
          discriminate.
      * intros r w _ Hr Hs; inversion Hr; subst; rewrite Hsrc in Hs;
          discriminate.
      * intros r b e' t _ Hr Hs Hthrown. inversion Hr; subst.
        rewrite Hsrc in Hs. inversion Hs; subst.
        rewrite Hself in Hthrown. inversion Hthrown; subst. auto.
    + split; [discriminate|]. split; [|split].
      * intros r w _ Hr Hs; inversion Hr; subst; rewrite Hsrc in Hs;
          discriminate.
      * intros r w _ Hr Hs; inversion Hr; subst; rewrite Hsrc in Hs;
          discriminate.
      * intros r b e t _ Hr Hs Hthrown. inversion Hr; subst.
        rewrite Hsrc in Hs. inversion Hs; subst.
        rewrite Hself in Hthrown. discriminate.
Qed.

(** ** Name mapping *)










(** ** Module IDs and the dependencies of a file *)

Lemma split_segment (d : ascii) (a rest : string) :
  JsString.contains d a = false ->
  JsString.split d (a +:+ String d rest) = a :: JsString.split d rest.
Proof.
  induction a as [|c a IH]; simpl; intros Hfree.
  - now rewrite Ascii.eqb_refl.
  - destruct (Ascii.eqb c d); [discriminate|].
    rewrite IH by exact Hfree. reflexivity.
Qed.

Lemma realPath_of_moduleID (moduleType realAbsPath mockAbsPath : string) :
  JsString.contains (path_delimiter host) moduleType = false ->
  JsString.contains (path_delimiter host) realAbsPath = false ->
  _getRealPathFromNormalizedModuleID host
    (moduleType +:+ String (path_delimiter host) EmptyString
     +:+ realAbsPath +:+ String (path_delimiter host) EmptyString
     +:+ mockAbsPath)
  = Some realAbsPath.
Proof.
  intros Htype Hreal. unfold _getRealPathFromNormalizedModuleID.
  change (String (path_delimiter host) "" +:+ ?r)
    with (String (path_delimiter host) r).
  rewrite split_segment by exact Htype.
  change (String (path_delimiter host) "" +:+ ?r)
    with (String (path_delimiter host) r).
  rewrite split_segment by exact Hreal. reflexivity.
Qed.



(** ** Errors of the resolver *)

Lemma dependencyPathsFrom_outcome (resource : HasteResource)
    (required : list string) (acc : list (option string)) :
  (forall e,
      dependencyPathsFrom host config resourceMap depth resource required acc
      <> Throw e)
  /\ (forall deps,
         dependencyPathsFrom host config resourceMap depth resource required acc
         = Ok deps ->
         length deps <= length acc + length required).
Proof.
  revert acc. induction required as [|m required IH]; intros acc; simpl.
  - split; [discriminate|]. intros deps H. inversion H; subst. lia.
  - destruct (_getNormalizedModuleID host config resourceMap depth
                (path resource) (requiredName resource m)) as [moduleID|e|].
    + destruct (IH (acc ++ [_getRealPathFromNormalizedModuleID host moduleID])%list)
        as [Hthrow Hlen].
      split; [exact Hthrow|]. intros deps H. apply Hlen in H.
      rewrite length_app in H. simpl in H. lia.
    + destruct (IH acc) as [Hthrow Hlen].
      split; [exact Hthrow|]. intros deps H. apply Hlen in H. lia.
    + split; [discriminate|discriminate].
Qed.

Lemma projectParts_relative (subModulePath : string) :
  fst (projectParts ("./" +:+ subModulePath)) = ".".
Proof.
  unfold projectParts. simpl.
  destruct (JsString.split "/" subModulePath); reflexivity.
Qed.

Lemma _moduleNameToPath_at_throws (fuel : nat) (currPath moduleName : string)
    (e : Error) :
  _moduleNameToPath_at host config resourceMap fuel currPath moduleName
  = Throw e ->
  ((exists name from, e = CannotFindModule name from)
   \/ ((exists what, e = TypeError what)
       /\ JsObject.inherited (fst (projectParts moduleName)) = true
       /\ _nodeModuleProjectConfigNameToResource resourceMap
            (fst (projectParts moduleName)) = None))
  /\ _getResource host config resourceMap JS moduleName = None
  /\ resolve_sync host (path_dirname host currPath) moduleName = None.
Proof.
  revert currPath moduleName.
  assert (Hrelative : forall fuel' c sub,
            (forall currPath moduleName,
                _moduleNameToPath_at host config resourceMap fuel' currPath
                  moduleName = Throw e ->
                ((exists name from, e = CannotFindModule name from)
                 \/ ((exists what, e = TypeError what)
                     /\ JsObject.inherited (fst (projectParts moduleName))
                        = true
                     /\ _nodeModuleProjectConfigNameToResource resourceMap
                          (fst (projectParts moduleName)) = None))
                /\ _getResource host config resourceMap JS moduleName = None
                /\ resolve_sync host (path_dirname host currPath) moduleName
                   = None) ->
            _moduleNameToPath_at host config resourceMap fuel' c
              ("./" +:+ sub) = Throw e ->
            exists name from, e = CannotFindModule name from).
  { intros fuel' c sub IH H. apply IH in H.
    destruct H as ([Hkind|(_ & Hinherited & _)] & _); [exact Hkind|].
    rewrite projectParts_relative in Hinherited. discriminate. }
  induction fuel as [|fuel IH]; intros currPath moduleName; simpl;
    destruct (_getResource host config resourceMap JS moduleName);
    try discriminate; unfold _nodeModuleNameToPath_;
    destruct (projectParts moduleName) as [part sub]; simpl;
    destruct (resolve_sync host _ moduleName); try discriminate;
    (destruct (_nodeModuleProjectConfigNameToResource resourceMap part)
       eqn:Hmanifest;
     [destruct (JsString.indexOfPositive _ _)
     |destruct (JsObject.inherited part) eqn:Hinherited;
      [destruct (path_rejects_undefined host);
       [|destruct (JsString.indexOfPositive _ _); [|destruct sub]]|]]);
    intros H; try discriminate;
    try (inversion H; subst; unfold cannotFind;
         split; [left; eauto | auto]; fail);
    try (inversion H; subst; split; [right; eauto | auto]; fail);
    (split; [left; eapply Hrelative; [exact IH | exact H] | auto]).
Qed.

Lemma resolution_failure_has_manual_mock (currPath moduleName moduleID : string)
    (e : Error) :
  resolve_isCore host moduleName = false ->
  _getNormalizedModuleID host config resourceMap depth currPath moduleName
  = Ok moduleID ->
  _moduleNameToPath host config resourceMap depth currPath moduleName
  = Throw e ->
  _getResource host config resourceMap JSMock moduleName <> None.
Proof.
  intros Hcore Hid Hpath Hmock.
  destruct (_moduleNameToPath_at_throws _ _ _ _ Hpath) as (_ & Hjs & _).
  unfold _getNormalizedModuleID in Hid.
  rewrite Hcore, Hjs, Hmock, Hpath in Hid. simpl in Hid.
  rewrite orb_true_r in Hid. discriminate.
Qed.


(** ** The invariant of the registries *)

Lemma Rel_refl (s : Loader) : Rel s s.
Proof.
  constructor; [lia | now left | | eauto].
  exists []. split; [reflexivity|]. intros g p o [].
Qed.

Lemma Rel_trans (s1 s2 s3 : Loader) : Rel s1 s2 -> Rel s2 s3 -> Rel s1 s3.
Proof.
  intros [Hc1 Hg1 (new1 & He1 & Hn1) Hs1] [Hc2 Hg2 (new2 & He2 & Hn2) Hs2].
  constructor.
  - lia.
  - destruct Hg2 as [Hg2|Hg2]; [rewrite Hg2; exact Hg1 | right; lia].
  - exists (new2 ++ new1)%list. split.
    + rewrite He2, He1. now rewrite app_assoc.
    + intros g p o Hin. apply in_app_or in Hin as [Hin|Hin].
      * destruct (Hn2 g p o Hin) as [->|Hle]; [exact Hg1 | right; lia].
      * exact (Hn1 g p o Hin).
  - intros moduleObj record Hrec.
    destruct (Hs1 _ _ Hrec) as (r1 & Hr1 & Hf1 & Ho1).
    destruct (Hs2 _ _ Hr1) as (r2 & Hr2 & Hf2 & Ho2).
    exists r2. split; [exact Hr2|]. split; congruence.
Qed.

Lemma Inv_sameGhost (s s' : Loader) : sameGhost s s' -> Inv s -> Inv s'.
Proof.
  intros (Hreg & Hstore & Hgen & Hgens & Hev) [H1 H2 H3 H4 H5].
  constructor; unfold realEvaluations in *;
    rewrite ?Hreg, ?Hstore, ?Hgen, ?Hgens, ?Hev; assumption.
Qed.

Lemma Rel_sameGhost (s s' : Loader) : sameGhost s s' -> Rel s s'.
Proof.
  intros (Hreg & Hstore & Hgen & Hgens & Hev).
  constructor; rewrite ?Hstore, ?Hgen, ?Hgens, ?Hev;
    [lia | now left | | eauto].
  exists []. split; [reflexivity|]. intros g p o [].
Qed.

Lemma Good_ret {A} (a : A) (s : Loader) : Inv s -> Good s (ret a).
Proof. intros Hinv. split; [exact Hinv | apply Rel_refl]. Qed.

Lemma Good_bind {A B} (m : M A) (k : A -> M B) (s : Loader) :
  Good s m ->
  (forall a, fst (m s) = Ok a -> Good (snd (m s)) (k a)) ->
  Good s (bind m k).
Proof.
  intros [Hinv Hrel] Hk. unfold Good, bind in *.
  destruct (m s) as [[a|e|] s1]; simpl in *; try (split; assumption).
  destruct (Hk a eq_refl) as [Hinv' Hrel'].
  split; [exact Hinv' | exact (Rel_trans _ _ _ Hrel Hrel')].
Qed.

Lemma Safe_ret {A} (a : A) : Safe (ret a).
Proof. intros s. apply Good_ret. Qed.

Lemma Safe_throw {A} (e : Error) : Safe (@throw A e).
Proof. intros s Hinv. split; [exact Hinv | apply Rel_refl]. Qed.

Lemma Safe_lift {A} (o : Outcome A) : Safe (lift o).
Proof. intros s Hinv. split; [exact Hinv | apply Rel_refl]. Qed.

Lemma Safe_gets {A} (f : Loader -> A) : Safe (gets f).
Proof. intros s Hinv. split; [exact Hinv | apply Rel_refl]. Qed.

Lemma Safe_bind {A B} (m : M A) (k : A -> M B) :
  Safe m -> (forall a, Safe (k a)) -> Safe (bind m k).
Proof.
  intros Hm Hk s Hinv. apply Good_bind; [now apply Hm|].
  intros a _. apply Hk. now apply Hm.
Qed.

Lemma Safe_try_catch {A} (m : M A) (h : Error -> M A) :
  Safe m -> (forall e, Safe (h e)) -> Safe (try_catch m h).
Proof.
  intros Hm Hh s Hinv. destruct (Hm s Hinv) as [Hinv1 Hrel1].
  unfold Good, try_catch in *.
  destruct (m s) as [[a|e|] s1]; simpl in *; try (split; assumption).
  destruct (Hh e s1 Hinv1) as [Hinv2 Hrel2].
  split; [exact Hinv2 | exact (Rel_trans _ _ _ Hrel1 Hrel2)].
Qed.

Lemma Safe_modify (f : Loader -> Loader) :
  (forall s, sameGhost s (f s)) -> Safe (modify f).
Proof.
  intros Hf s Hinv. split; simpl.
  - exact (Inv_sameGhost _ _ (Hf s) Hinv).
  - exact (Rel_sameGhost _ _ (Hf s)).
Qed.

Lemma Safe_updateRecord (moduleObj : nat) (f : ModuleRecord -> ModuleRecord) :
  keepsIdentity f -> Safe (updateRecord moduleObj f).
Proof.
  intros Hf s [H1 H2 H3 H4 H5]. split; simpl.
  - constructor; simpl; try assumption.
    intros p m Hreg. destruct (H5 p m Hreg) as (record & Hrec & Hfile & Horig).
    destruct (decide (moduleObj = m)) as [->|Hne].
    + exists (f record). rewrite list_lookup_alter_eq, Hrec. simpl.
      destruct (Hf record) as [-> ->]. auto.
    + exists record. rewrite list_lookup_alter_ne by exact Hne. auto.
  - constructor; simpl; [lia | now left | |].
    + exists []. split; [reflexivity|]. intros g p o [].
    + intros m record Hrec.
      destruct (decide (moduleObj = m)) as [->|Hne].
      * exists (f record). rewrite list_lookup_alter_eq, Hrec. simpl.
        destruct (Hf record) as [-> ->]. auto.
      * exists record. rewrite list_lookup_alter_ne by exact Hne. auto.
Qed.

Lemma Safe_allocate (record : ModuleRecord) : Safe (allocate record).
Proof.
  intros s [H1 H2 H3 H4 H5]. split; simpl.
  - constructor; simpl; try assumption.
    intros p m Hreg. destruct (H5 p m Hreg) as (r & Hrec & Hfile & Horig).
    exists r. split; [|auto]. apply lookup_app_l_Some. exact Hrec.
  - constructor; simpl; [lia | now left | |].
    + exists []. split; [reflexivity|]. intros g p o [].
    + intros m r Hrec. exists r. split; [|auto].
      apply lookup_app_l_Some. exact Hrec.
Qed.

Lemma Safe_fresh_registries : Safe (modify with_fresh_registries).
Proof.
  intros s [H1 H2 H3 H4 H5]. split; simpl.
  - constructor; simpl.
    + intros p Hin. apply H4 in Hin. lia.
    + exact H2.
    + lia.
    + intros g p o Hin. apply H4 in Hin. lia.
    + intros p m Hreg. rewrite lookup_empty in Hreg. discriminate.
  - constructor; simpl; [lia | right; lia | | eauto].
    exists []. split; [reflexivity|]. intros g p o [].
Qed.

Lemma Safe_resetModuleRegistry : Safe resetModuleRegistry.
Proof.
  unfold resetModuleRegistry.
  apply Safe_bind; [apply Safe_fresh_registries|]. intros _.
  apply Safe_bind; [apply Safe_gets|]. intros [g|]; [|apply Safe_ret].
  destruct (clearGlobalMocks (properties g)) as [visited completed].
  apply Safe_bind; [apply Safe_modify; intros s; repeat split|]. intros _.
  destruct completed; [destruct (mockClearTimers g)|].
  - apply Safe_ret.
  - apply Safe_modify. intros s. repeat split.
  - apply Safe_throw.
  - apply Safe_throw.
Qed.

Lemma Good_of_Safe {A} (m : M A) (s : Loader) : Safe m -> Inv s -> Good s m.
Proof. intros Hm Hinv. exact (Hm s Hinv). Qed.

Lemma Good_bind_gets {A B} (f : Loader -> A) (k : A -> M B) (s : Loader) :
  Good s (k (f s)) -> Good s (bind (gets f) k).
Proof. intros H. exact H. Qed.

Lemma Good_bind_lift {A B} (o : Outcome A) (k : A -> M B) (s : Loader) :
  Inv s ->
  (forall a, o = Ok a -> Good s (k a)) ->
  Good s (bind (lift o) k).
Proof.
  intros Hinv Hk. destruct o as [a|e|].
  - exact (Hk a eq_refl).
  - split; [exact Hinv | apply Rel_refl].
  - split; [exact Hinv | apply Rel_refl].
Qed.

Lemma Good_bind_allocate {B} (record : ModuleRecord) (k : nat -> M B)
    (s : Loader) :
  Inv s ->
  (forall s1,
      s1 = with_store (store s ++ [record]) s ->
      Inv s1 ->
      store s1 !! length (store s) = Some record ->
      Good s1 (k (length (store s)))) ->
  Good s (bind (allocate record) k).
Proof.
  intros Hinv Hk. apply Good_bind; [now apply Safe_allocate|].
  intros a Ha. simpl in Ha. inversion Ha; subst a. simpl.
  apply Hk; [reflexivity | now apply Safe_allocate |].
  simpl. apply list_lookup_middle. reflexivity.
Qed.

Ltac safe_step :=
  match goal with
  | |- Safe (ret _) => apply Safe_ret
  | |- Safe (throw _) => apply Safe_throw
  | |- Safe (lift _) => apply Safe_lift
  | |- Safe (gets _) => apply Safe_gets
  | |- Safe resetModuleRegistry => apply Safe_resetModuleRegistry
  | |- Safe (allocate _) => apply Safe_allocate
  | |- Safe (modify with_fresh_registries) => apply Safe_fresh_registries
  | |- Safe (updateRecord _ _) =>
      apply Safe_updateRecord; intros ?; unfold assignExport;
      try match goal with
          | |- context [match exports ?r with _ => _ end] => destruct (exports r)
          end;
      split; reflexivity
  | |- Safe (modify _) => apply Safe_modify; intros ?; repeat split
  | |- Safe (bind _ _) => apply Safe_bind; [|intros ?]
  | |- Safe (try_catch _ _) => apply Safe_try_catch; [|intros ?]
  | |- Safe (match ?x with _ => _ end) => destruct x
  | H : forall c, Safe (?self c) |- Safe (?self _) => apply H
  | |- Safe _ => assumption
  end.

Ltac safe := repeat safe_step.

Lemma Safe_shouldMock (currPath moduleName : string) :
  Safe (_shouldMock host config resourceMap depth currPath moduleName).
Proof. unfold _shouldMock, cacheDecision. safe. Qed.

Lemma Safe_readExports (moduleObj : nat) : Safe (readExports moduleObj).
Proof. unfold readExports. safe. Qed.

Lemma Inv_evaluation (s : Loader) (moduleObj : nat) (record : ModuleRecord) :
  Inv s ->
  store s !! moduleObj = Some record ->
  (origin record = RealModule ->
   is_Some (_moduleRegistry s !! __filename record)
   /\ ~ In (generation s, __filename record, RealModule) (evaluations s)) ->
  Good s (modify (with_evaluation
                    (generation s, __filename record, origin record))).
Proof.
  intros [H1 H2 H3 H4 H5] Hrec Hpre. split; simpl.
  - constructor; simpl; try assumption.
    + intros p [Heq|Hin]; [|now apply H1].
      inversion Heq as [[Hfile Horig]]. subst p.
      now apply Hpre.
    + unfold realEvaluations. simpl. unfold isReal at 1. simpl.
      destruct (origin record) eqn:Horig; simpl; [|exact H2].
      apply NoDup_cons. split; [|exact H2].
      intros Hin. apply list_elem_of_In, filter_In in Hin as [Hin _].
      now apply Hpre.
    + intros g p o [Heq|Hin]; [|now apply H4 with p o].
      inversion Heq; subst. exact H3.
  - constructor; simpl; [lia | now left | | eauto].
    exists [(generation s, __filename record, origin record)].
    split; [reflexivity|]. intros g p o [Heq|[]]. inversion Heq. now left.
Qed.

Lemma _execModule_good (self : Call -> M Value) (moduleObj : nat) (s : Loader) :
  (forall c, Safe (self c)) ->
  Inv s ->
  (forall record,
      store s !! moduleObj = Some record ->
      origin record = RealModule ->
      is_Some (_moduleRegistry s !! __filename record)
      /\ ~ In (generation s, __filename record, RealModule) (evaluations s)) ->
  Good s (_execModule host self moduleObj).
Proof.
  intros Hself Hinv Hpre. unfold _execModule.
  apply Good_bind_gets. destruct (global s); [|now apply Good_ret].
  apply Good_bind_gets.
  destruct (store s !! moduleObj) as [record|] eqn:Hrec;
    [|now apply Safe_throw].
  apply Good_bind_gets.
  pose proof (Inv_evaluation s moduleObj record Hinv Hrec (Hpre record eq_refl))
    as Hlogged.
  apply Good_bind; [exact Hlogged|]. intros _ _.
  destruct Hlogged as [Hinv1 _]. revert Hinv1.
  generalize (snd (modify (with_evaluation
                             (generation s, __filename record, origin record)) s)).
  intros s1 Hinv1.
  destruct (source host (__filename record));
    (apply Good_of_Safe; [safe | exact Hinv1]).
Qed.

Lemma Good_bind_then_Safe {A B} (m : M A) (k : A -> M B) (s : Loader) :
  Good s m -> (forall a, Safe (k a)) -> Good s (bind m k).
Proof.
  intros Hm Hk. apply Good_bind; [exact Hm|].
  intros a _. apply Hk. exact (proj1 Hm).
Qed.

Lemma Good_bind_modify {B} (f : Loader -> Loader) (k : unit -> M B)
    (s : Loader) :
  sameGhost s (f s) -> Inv s ->
  (Inv (f s) -> Good (f s) (k tt)) ->
  Good s (bind (modify f) k).
Proof.
  intros Hf Hinv Hk.
  assert (Hgood : Good s (modify f)).
  { split; simpl; [exact (Inv_sameGhost _ _ Hf Hinv) | exact (Rel_sameGhost _ _ Hf)]. }
  apply Good_bind; [exact Hgood|]. intros [] _. apply Hk. exact (proj1 Hgood).
Qed.

Lemma Good_bind_pure {A B} (m : M A) (k : A -> M B) (s : Loader) :
  Inv s ->
  (forall s', snd (m s') = s') ->
  (forall a, Good s (k a)) ->
  Good s (bind m k).
Proof.
  intros Hinv Hpure Hk.
  assert (Hgood : Good s m).
  { unfold Good. rewrite Hpure. split; [exact Hinv | apply Rel_refl]. }
  apply Good_bind; [exact Hgood|]. intros a _. rewrite Hpure. apply Hk.
Qed.

Lemma restore_good (s0 s2 : Loader) :
  Inv s0 -> Inv s2 -> Rel (with_fresh_registries s0) s2 ->
  Inv (with_registries (_mockRegistry s0) (_moduleRegistry s0)
                       (generation s0) s2)
  /\ Rel s0 (with_registries (_mockRegistry s0) (_moduleRegistry s0)
                             (generation s0) s2).
Proof.
  intros [H1 H2 H3 H4 H5] [K1 K2 K3 K4 K5] [Rc Rg (new & Re & Rn) Rs].
  simpl in *. split.
  - constructor; simpl.
    + intros p Hin. rewrite Re in Hin. apply in_app_or in Hin as [Hin|Hin].
      * destruct (Rn _ _ _ Hin) as [Heq|Hle]; lia.
      * now apply H1.
    + exact K2.
    + lia.
    + exact K4.
    + intros p m Hreg. destruct (H5 p m Hreg) as (r & Hr & Hf & Ho).
      destruct (Rs m r Hr) as (r' & Hr' & Hf' & Ho').
      exists r'. split; [exact Hr'|]. split; congruence.
  - constructor; simpl.
    + lia.
    + now left.
    + exists new. split; [exact Re|]. intros g p o Hin.
      destruct (Rn _ _ _ Hin) as [->|Hle]; right; lia.
    + exact Rs.
Qed.

Lemma Good_isolated {A B} (isolated : M A) (rest : A -> M B) (s0 : Loader) :
  Inv s0 -> Safe isolated -> (forall a, Safe (rest a)) ->
  Good s0
    (bind (modify with_fresh_registries) (fun _ =>
     bind isolated (fun a =>
     bind (modify (with_registries (_mockRegistry s0) (_moduleRegistry s0)
                                   (generation s0)))
          (fun _ => rest a)))).
Proof.
  intros Hinv Hiso Hrest.
  destruct (Safe_fresh_registries s0 Hinv) as [Hinv1 Hrel1].
  simpl in Hinv1, Hrel1.
  destruct (Hiso _ Hinv1) as [Hinv2 Hrel2].
  unfold Good, bind, modify. simpl.
  destruct (isolated (with_fresh_registries s0)) as [[a|e|] s2]; simpl in *.
  - destruct (restore_good s0 s2 Hinv Hinv2 Hrel2) as [Hinv3 Hrel3].
    destruct (Hrest a _ Hinv3) as [Hinv4 Hrel4].
    split; [exact Hinv4 | exact (Rel_trans _ _ _ Hrel3 Hrel4)].
  - split; [exact Hinv2 | exact (Rel_trans _ _ _ Hrel1 Hrel2)].
  - split; [exact Hinv2 | exact (Rel_trans _ _ _ Hrel1 Hrel2)].
Qed.

Lemma Safe_generateMock (self : Call -> M Value) (currPath moduleName : string) :
  (forall c, Safe (self c)) ->
  Safe (_generateMock host config resourceMap depth self currPath moduleName).
Proof.
  intros Hself s Hinv. unfold _generateMock, cacheMetadata.
  apply Good_bind_lift; [exact Hinv|]. intros modulePath _.
  apply Good_bind_gets.
  apply Good_bind_then_Safe; [|intros; safe].
  destruct (_mockMetaDataCache s !! modulePath); [now apply Good_ret|].
  apply Good_bind_modify; [repeat split | exact Hinv |].
  generalize (with_mockMetaDataCache
                (<[modulePath:=moduleMocker_getMetadata host (EObject [])]>
                   (_mockMetaDataCache s)) s).
  intros s0 Hinv0.
  do 3 apply Good_bind_gets.
  apply Good_isolated; [exact Hinv0 | apply Hself | intros; safe].
Qed.

Lemma Safe_exec_manual {B} (self : Call -> M Value) (record : ModuleRecord)
    (k : nat -> M B) :
  origin record = ManualMock ->
  (forall c, Safe (self c)) ->
  (forall moduleObj, Safe (k moduleObj)) ->
  Safe (bind (allocate record) (fun moduleObj =>
        bind (_execModule host self moduleObj) (fun _ => k moduleObj))).
Proof.
  intros Horigin Hself Hk s Hinv.
  apply Good_bind_allocate; [exact Hinv|]. intros s1 _ Hinv1 Hlook.
  apply Good_bind_then_Safe; [|intros; apply Hk].
  apply _execModule_good; [exact Hself | exact Hinv1 |].
  intros r Hr Ho. rewrite Hlook in Hr. inversion Hr; subst. congruence.
Qed.

Lemma Safe_requireMock (self : Call -> M Value) (currPath moduleName : string) :
  (forall c, Safe (self c)) ->
  Safe (requireMock host config resourceMap depth self currPath moduleName).
Proof.
  intros Hself. unfold requireMock, registerMock.
  repeat first
    [ match goal with
      | |- Safe (bind (allocate _) _) =>
          apply Safe_exec_manual; [reflexivity | exact Hself | intros ?]
      | |- Safe (readExports _) => apply Safe_readExports
      end
    | safe_step ].
Qed.

Lemma registerModule_good (s : Loader) (modulePath : string) (moduleObj : nat)
    (record : ModuleRecord) :
  Inv s ->
  store s !! moduleObj = Some record ->
  __filename record = modulePath ->
  origin record = RealModule ->
  Good s (registerModule modulePath moduleObj).
Proof.
  intros [H1 H2 H3 H4 H5] Hrec Hfile Horigin. split; simpl.
  - constructor; simpl; try assumption.
    + intros p Hin. apply H1 in Hin.
      destruct (decide (modulePath = p)) as [->|Hne].
      * rewrite lookup_insert_eq. eauto.
      * rewrite lookup_insert_ne by exact Hne. exact Hin.
    + intros p m Hreg.
      destruct (decide (modulePath = p)) as [->|Hne].
      * rewrite lookup_insert_eq in Hreg. inversion Hreg; subst. eauto.
      * rewrite lookup_insert_ne in Hreg by exact Hne. now apply H5.
  - constructor; simpl; [lia | now left | | eauto].
    exists []. split; [reflexivity|]. intros g p o [].
Qed.

Lemma Safe_requireModule (self : Call -> M Value) (currPath moduleName : string) :
  (forall c, Safe (self c)) ->
  Safe (requireModule host config resourceMap depth self currPath moduleName).
Proof.
  intros Hself s Hinv. unfold requireModule.
  apply Good_bind_lift; [exact Hinv|]. intros moduleID _.
  do 2 apply Good_bind_gets. cbv zeta.
  destruct (resolve_isCore host moduleName); [now apply Good_ret|].
  apply Good_bind_pure; [exact Hinv| |].
  { intros s'.
    repeat match goal with
           | |- context [match ?x with _ => _ end] => destruct x
           end; reflexivity. }
  intros modulePath.
  destruct (JsString.startsWith (VENDOR_PATH host) modulePath);
    [now apply Good_ret|].
  destruct (String.eqb modulePath ""); [now apply Safe_throw|].
  apply Good_bind_gets.
  destruct (_moduleRegistry s !! modulePath) as [known|] eqn:Hmiss;
    [now apply Safe_readExports|].
  apply Good_bind_allocate; [exact Hinv|]. intros s1 Hs1 Hinv1 Hlook.
  set (moduleObj := length (store s)) in *.
  pose proof (registerModule_good s1 modulePath moduleObj _ Hinv1 Hlook
                eq_refl eq_refl) as Hregistered.
  apply Good_bind; [exact Hregistered|]. intros _ _.
  destruct Hregistered as [Hinv2 _].
  apply Good_bind_then_Safe; [|intros; apply Safe_readExports].
  destruct (String.eqb (path_extname host modulePath) ".json");
    [apply Good_of_Safe; [safe | exact Hinv2]|].
  destruct (String.eqb (path_extname host modulePath) ".node");
    [apply Good_of_Safe; [safe | exact Hinv2]|].
  apply _execModule_good; [exact Hself | exact Hinv2 |].
  simpl. intros r Hr Ho. rewrite Hlook in Hr.
  inversion Hr; subst r. subst s1. simpl. split.
  - rewrite lookup_insert_eq. eauto.
  - intros Hin. apply (inv_registered s Hinv) in Hin.
    rewrite Hmiss in Hin. destruct Hin as [? Hin]. discriminate.
Qed.

Lemma Safe_requireModuleOrMock (self : Call -> M Value)
    (currPath moduleName : string) :
  (forall c, Safe (self c)) ->
  Safe (requireModuleOrMock host config resourceMap depth self currPath
          moduleName).
Proof.
  intros Hself. unfold requireModuleOrMock.
  apply Safe_bind; [apply Safe_shouldMock|]. intros []; apply Hself.
Qed.

Lemma Safe_execStmt (self : Call -> M Value) (filename : string)
    (moduleObj : nat) (stmt : Stmt) :
  (forall c, Safe (self c)) ->
  Safe (execStmt host config resourceMap depth self filename moduleObj stmt).
Proof.
  intros Hself.
  destruct stmt; simpl;
    unfold mock, dontMock, setMock, setExplicitShouldMock, resolve; safe.
Qed.

Lemma Safe_execBlock (self : Call -> M Value) (filename : string)
    (moduleObj : nat) (body : list Stmt) :
  (forall c, Safe (self c)) ->
  Safe (execBlock host config resourceMap depth self filename moduleObj body).
Proof.
  intros Hself. induction body as [|stmt rest IH]; simpl; [apply Safe_ret|].
  apply Safe_bind; [now apply Safe_execStmt | intros _; exact IH].
Qed.

Lemma Safe_run (fuel : nat) (call : Call) :
  Safe (run host config resourceMap depth fuel call).
Proof.
  revert call. induction fuel as [|fuel IH]; intros call; simpl;
    [apply Safe_lift|].
  destruct call.
  - now apply Safe_requireModuleOrMock.
  - now apply Safe_requireModule.
  - now apply Safe_requireMock.
  - now apply Safe_generateMock.
  - now apply Safe_execBlock.
Qed.

Lemma Inv_constructor (envGlobal : option Global) : Inv (constructor envGlobal).
Proof.
  unfold constructor.
  match goal with
  | |- Inv (snd (resetModuleRegistry ?initial)) =>
      destruct (resetModuleRegistry_state initial)
        as [[_ Hr]|(g & g' & _ & Hr & _)]
  end; rewrite Hr; simpl; constructor; simpl;
    try (intros; contradiction); try lia; try apply NoDup_nil_2;
    intros p m Hreg; rewrite lookup_empty in Hreg; discriminate.
Qed.

Lemma entered_Inv (s : Loader) (moduleObj : nat) (record : ModuleRecord) :
  Inv s ->
  store s !! moduleObj = Some record ->
  (origin record = RealModule ->
   is_Some (_moduleRegistry s !! __filename record)
   /\ ~ In (generation s, __filename record, RealModule) (evaluations s)) ->
  Inv (entered moduleObj record s).
Proof.
  intros Hinv Hrec Hpre.
  destruct (Inv_evaluation s moduleObj record Hinv Hrec Hpre) as [Hinv1 _].
  simpl in Hinv1.
  assert (Hinv2 :
    Inv (with_isCurrentlyExecutingManualMock (Some (__filename record))
           (with_currentlyExecutingModulePath (__filename record)
              (with_evaluation
                 (generation s, __filename record, origin record) s)))).
  { eapply Inv_sameGhost; [|exact Hinv1]. repeat split. }
  exact (proj1 (Safe_updateRecord moduleObj
                  (with_parent_require mockParentModule (__filename record))
                  (fun r => conj eq_refl eq_refl) _ Hinv2)).
Qed.

Lemma reachable_Inv (s : Loader) :
  reachable host config resourceMap depth s -> Inv s.
Proof.
  induction 1 as [envGlobal|fuel call s _ IH|s _ IH|s _ IH
                 |modulePath s _ IH Hmiss|modulePath s _ IH].
  - apply Inv_constructor.
  - exact (proj1 (Safe_run fuel call s IH)).
  - apply (Inv_sameGhost s); [repeat split | exact IH].
  - exact (proj1 (Safe_fresh_registries s IH)).
  - destruct (Safe_allocate (freshModule modulePath) s IH) as [Hinv1 _].
    simpl in Hinv1.
    assert (Hlook : store (with_store (store s ++ [freshModule modulePath]) s)
                    !! length (store s) = Some (freshModule modulePath)).
    { simpl. apply list_lookup_middle. reflexivity. }
    destruct (registerModule_good _ modulePath (length (store s)) _ Hinv1 Hlook
                eq_refl eq_refl) as [Hinv2 _].
    apply entered_Inv; [exact Hinv2 | exact Hlook |].
    intros _. simpl. split.
    + rewrite lookup_insert_eq. eauto.
    + intros Hin. apply (inv_registered s IH) in Hin.
      rewrite Hmiss in Hin. destruct Hin as [? Hin]. discriminate.
  - destruct (Safe_allocate (freshManualMock modulePath) s IH) as [Hinv1 _].
    simpl in Hinv1.
    apply entered_Inv; [exact Hinv1 | |discriminate].
    simpl. apply list_lookup_middle. reflexivity.
Qed.

(** ** Requiring the real module *)

(** When no manual mock stands in, [requireModule] settles on the path
    the resolver gives, and what it does then is [loadModule] of that
    path. *)
Lemma requireModule_real (self : Call -> M Value) (s : Loader)
    (currPath moduleName moduleID modulePath : string) :
  resolve_isCore host moduleName = false ->
  _getNormalizedModuleID host config resourceMap depth currPath moduleName
  = Ok moduleID ->
  (_getResource host config resourceMap JS moduleName <> None
   \/ _getResource host config resourceMap JSMock moduleName = None
   \/ _explicitShouldMock s !! moduleID = Some false
   \/ exists manualMock,
        _getResource host config resourceMap JSMock moduleName = Some manualMock
        /\ Some (path manualMock) = _isCurrentlyExecutingManualMock s) ->
  _moduleNameToPath host config resourceMap depth currPath moduleName
  = Ok modulePath ->
  JsString.startsWith (VENDOR_PATH host) modulePath = false ->
  modulePath <> "" ->
  requireModule host config resourceMap depth self currPath moduleName s
  = loadModule host self modulePath s.
Proof.
  intros Hcore Hid Hnosub Hpath Hvendor Hnonempty.
  apply String.eqb_neq in Hnonempty.
  unfold requireModule. unfold bind at 1, lift at 1. rewrite Hid.
  unfold bind at 1, gets at 1. unfold bind at 1, gets at 1.
  rewrite Hcore.
  assert (Hchoice :
    match _getResource host config resourceMap JS moduleName,
          _getResource host config resourceMap JSMock moduleName with
    | None, Some manualMockResource =>
        if negb (bool_decide (Some (path manualMockResource)
                              = _isCurrentlyExecutingManualMock s))
           && negb (bool_decide (_explicitShouldMock s !! moduleID = Some false))
        then Some (path manualMockResource)
        else None
    | _, _ => None
    end = None).
  { destruct (_getResource host config resourceMap JS moduleName) as [source|];
      [reflexivity|].
    destruct (_getResource host config resourceMap JSMock moduleName)
      as [manualMock|]; [|reflexivity].
    destruct Hnosub as [Hjs|[Hmock|[Hoff|(mk & Hmk & Hexecuting)]]].
    - congruence.
    - discriminate.
    - rewrite (bool_decide_eq_true_2 _ Hoff). simpl.
      now rewrite andb_false_r.
    - inversion Hmk; subst mk.
      now rewrite (bool_decide_eq_true_2 _ Hexecuting). }
  rewrite Hchoice. unfold bind at 1, lift at 1. rewrite Hpath, Hvendor, Hnonempty.
  reflexivity.
Qed.

Lemma requireModule_resolved (self : Call -> M Value) (s : Loader)
    (currPath moduleName modulePath : string) :
  resolvesTo host config resourceMap depth currPath moduleName modulePath ->
  requireModule host config resourceMap depth self currPath moduleName s
  = loadModule host self modulePath s.
Proof.
  intros (Hcore & (moduleID & Hid) & Hnosub & Hpath & Hvendor & Hnonempty).
  apply requireModule_real with moduleID; try assumption.
  destruct Hnosub as [Hjs|Hmock]; auto.
Qed.


Lemma loadModule_miss (self : Call -> M Value) (s : Loader)
    (modulePath : string) :
  _moduleRegistry s !! modulePath = None ->
  loadModule host self modulePath s
  = (fillModule host self modulePath (length (store s)) ;;;
     readExports (length (store s))) (preallocated modulePath s).
Proof.
  intros Hmiss. unfold loadModule. unfold bind at 1, gets at 1.
  rewrite Hmiss. reflexivity.
Qed.

Lemma preallocated_good (self : Call -> M Value) (s : Loader)
    (modulePath : string) :
  (forall c, Safe (self c)) ->
  Inv s ->
  _moduleRegistry s !! modulePath = None ->
  Inv (preallocated modulePath s)
  /\ Rel s (preallocated modulePath s)
  /\ store (preallocated modulePath s) !! length (store s)
     = Some (freshModule modulePath)
  /\ Good (preallocated modulePath s)
          (fillModule host self modulePath (length (store s))).
Proof.
  intros Hself Hinv Hmiss.
  destruct (Safe_allocate (freshModule modulePath) s Hinv) as [Hinv1 Hrel1].
  simpl in Hinv1, Hrel1.
  assert (Hlook : store (with_store (store s ++ [freshModule modulePath]) s)
                  !! length (store s) = Some (freshModule modulePath)).
  { simpl. apply list_lookup_middle. reflexivity. }
  destruct (registerModule_good _ modulePath (length (store s)) _ Hinv1 Hlook
              eq_refl eq_refl) as [Hinv2 Hrel2].
  change (snd (registerModule modulePath (length (store s))
                 (with_store (store s ++ [freshModule modulePath]) s)))
    with (preallocated modulePath s) in Hinv2, Hrel2.
  split; [exact Hinv2|]. split; [exact (Rel_trans _ _ _ Hrel1 Hrel2)|].
  split; [exact Hlook|].
  unfold fillModule.
  destruct (String.eqb (path_extname host modulePath) ".json");
    [apply Good_of_Safe; [safe | exact Hinv2]|].
  destruct (String.eqb (path_extname host modulePath) ".node");
    [apply Good_of_Safe; [safe | exact Hinv2]|].
  apply _execModule_good; [exact Hself | exact Hinv2 |].
  intros r Hr Ho. change (store (preallocated modulePath s))
    with (store s ++ [freshModule modulePath])%list in Hr.
  simpl in Hlook. rewrite Hlook in Hr. inversion Hr; subst r. simpl. split.
  - rewrite lookup_insert_eq. eauto.
  - intros Hin. apply (inv_registered s Hinv) in Hin.
    rewrite Hmiss in Hin. destruct Hin as [? Hin]. discriminate.
Qed.

Lemma loadModule_delivers (self : Call -> M Value) (s s' : Loader)
    (modulePath : string) (v : Value) :
  (forall c, Safe (self c)) ->
  Inv s ->
  loadModule host self modulePath s = (Ok v, s') ->
  deliveredFrom s' v modulePath.
Proof.
  intros Hself Hinv Hload.
  destruct (_moduleRegistry s !! modulePath) as [moduleObj|] eqn:Hreg.
  - unfold loadModule in Hload. unfold bind at 1, gets at 1 in Hload.
    rewrite Hreg in Hload.
    destruct (inv_records s Hinv _ _ Hreg) as (record & Hrec & Hfile & Horigin).
    unfold readExports, gets in Hload. rewrite Hrec in Hload.
    inversion Hload; subst. exists moduleObj, record. auto.
  - rewrite (loadModule_miss _ _ _ Hreg) in Hload.
    destruct (preallocated_good self s modulePath Hself Hinv Hreg)
      as (_ & _ & Hlook & _ & Hrel).
    unfold bind in Hload.
    destruct (fillModule host self modulePath (length (store s))
                (preallocated modulePath s)) as [[[]|e|] s3];
      simpl in Hrel; try discriminate.
    destruct (rel_store _ _ Hrel _ _ Hlook) as (record & Hrec & Hfile & Horigin).
    unfold readExports, gets in Hload. rewrite Hrec in Hload.
    inversion Hload; subst. exists (length (store s)), record. auto.
Qed.

(** C1, as the code has it: in every state the loader goes through,
    between calls and while a module is being evaluated, no evaluation
    started by [requireModule] is listed twice for the same registry
    generation and path, and such an evaluation in the current
    generation is of a registered path.  When a request resolves to a
    real path, a registered path is answered from its module object with
    nothing evaluated, whether the object has been filled or is still
    being filled, and an unregistered path gets a fresh module object
    with empty exports registered before the module is evaluated. *)
Theorem real_modules_evaluate_once (s : Loader) :
  reachable host config resourceMap depth s ->
  NoDup (realEvaluations s)
  /\ (forall p, In (generation s, p, RealModule) (evaluations s) ->
                is_Some (_moduleRegistry s !! p))
  /\ (forall self currPath moduleName modulePath moduleObj,
         resolvesTo host config resourceMap depth currPath moduleName modulePath ->
         _moduleRegistry s !! modulePath = Some moduleObj ->
         exists record,
           store s !! moduleObj = Some record
           /\ __filename record = modulePath
           /\ requireModule host config resourceMap depth self currPath
                moduleName s
              = (Ok (valueOfExports moduleObj (exports record)), s))
  /\ (forall self currPath moduleName modulePath,
         resolvesTo host config resourceMap depth currPath moduleName modulePath ->
         _moduleRegistry s !! modulePath = None ->
         _moduleRegistry (preallocated modulePath s) !! modulePath
         = Some (length (store s))
         /\ store (preallocated modulePath s) !! length (store s)
            = Some (freshModule modulePath)
         /\ evaluations (preallocated modulePath s) = evaluations s
         /\ requireModule host config resourceMap depth self currPath
              moduleName s
            = (fillModule host self modulePath (length (store s)) ;;;
               readExports (length (store s))) (preallocated modulePath s)).
Proof.
  intros Hreach. pose proof (reachable_Inv s Hreach) as Hinv.
  split; [exact (inv_once s Hinv)|].
  split; [exact (inv_registered s Hinv)|]. split.
  - intros self currPath moduleName modulePath moduleObj Hres Hreg.
    destruct (inv_records s Hinv _ _ Hreg) as (record & Hrec & Hfile & _).
    exists record. split; [exact Hrec|]. split; [exact Hfile|].
    rewrite (requireModule_resolved self s _ _ _ Hres).
    unfold loadModule. unfold bind at 1, gets at 1. rewrite Hreg.
    unfold readExports, gets. rewrite Hrec. reflexivity.
  - intros self currPath moduleName modulePath Hres Hmiss.
    split; [apply lookup_insert_eq|].
    split; [simpl; apply list_lookup_middle; reflexivity|].
    split; [reflexivity|].
    rewrite (requireModule_resolved self s _ _ _ Hres).
    now apply loadModule_miss.
Qed.


Lemma requireModule_taken_off_mocking (self : Call -> M Value) (s : Loader)
    (currPath moduleName moduleID : string) :
  resolve_isCore host moduleName = false ->
  _getNormalizedModuleID host config resourceMap depth currPath moduleName
  = Ok moduleID ->
  _explicitShouldMock s !! moduleID = Some false ->
  requireModule host config resourceMap depth self currPath moduleName s
  = match _moduleNameToPath host config resourceMap depth currPath
            moduleName with
    | Ok modulePath =>
        if JsString.startsWith (VENDOR_PATH host) modulePath
        then (Ok (VNative modulePath), s)
        else if String.eqb modulePath ""
        then (Throw (CannotFindModule moduleName currPath), s)
        else loadModule host self modulePath s
    | Throw e => (Throw e, s)
    | Diverge => (Diverge, s)
    end.
Proof.
  intros Hcore Hid Hoff.
  unfold requireModule. unfold bind at 1, lift at 1. rewrite Hid.
  unfold bind at 1, gets at 1. unfold bind at 1, gets at 1.
  rewrite Hcore.
  assert (Hchoice :
    match _getResource host config resourceMap JS moduleName,
          _getResource host config resourceMap JSMock moduleName with
    | None, Some manualMockResource =>
        if negb (bool_decide (Some (path manualMockResource)
                              = _isCurrentlyExecutingManualMock s))
           && negb (bool_decide (_explicitShouldMock s !! moduleID = Some false))
        then Some (path manualMockResource)
        else None
    | _, _ => None
    end = None).
  { destruct (_getResource host config resourceMap JS moduleName) as [source|];
      [reflexivity|].
    destruct (_getResource host config resourceMap JSMock moduleName)
      as [manualMock|]; [|reflexivity].
    rewrite (bool_decide_eq_true_2 _ Hoff). simpl.
    now rewrite andb_false_r. }
  rewrite Hchoice. unfold bind at 1, lift at 1.
  destruct (_moduleNameToPath host config resourceMap depth currPath
              moduleName) as [modulePath|e|]; try reflexivity.
  destruct (JsString.startsWith (VENDOR_PATH host) modulePath);
    [reflexivity|].
  destruct (String.eqb modulePath ""); reflexivity.
Qed.

(** C7, as the code has it: an explicit override stored for the module
    ID is what the policy answers, whatever the host says about core
    modules and whatever the auto-mock flag, the cached decisions and
    the unmock patterns are; [mock] and [dontMock] write the same
    entry, so the later call decides.  After [mock] then [dontMock] the
    policy answers real and the request is what [requireModule] makes
    of it with the stand-in of a manual mock switched off: a core
    module and a file under the vendor path are handed over by the
    host, a name that resolves to a real path is delivered from the
    module object of that path, and a name the resolver finds no real
    path for, such as one that has a manual mock only, leaves with the
    resolver's error.  The other way round the request is what
    [requireMock] makes of it. *)
Theorem explicit_override_dominates (s : Loader) (fuel : nat)
    (currPath x moduleID : string) :
  _getNormalizedModuleID host config resourceMap depth currPath x = Ok moduleID ->
  (forall decision,
      _explicitShouldMock s !! moduleID = Some decision ->
      _shouldMock host config resourceMap depth currPath x s = (Ok decision, s))
  /\ (let s2 := snd (dontMock host config resourceMap depth currPath x
                       (snd (mock host config resourceMap depth currPath x s))) in
      _explicitShouldMock s2 !! moduleID = Some false
      /\ _shouldMock host config resourceMap depth currPath x s2 = (Ok false, s2)
      /\ (forall self,
             requireModuleOrMock host config resourceMap depth self currPath x s2
             = self (CallRequireModule currPath x) s2)
      /\ run host config resourceMap depth (S (S fuel))
             (CallRequireModuleOrMock currPath x) s2
         = requireModule host config resourceMap depth
             (run host config resourceMap depth fuel) currPath x s2
      /\ (resolve_isCore host x = true ->
          run host config resourceMap depth (S (S fuel))
              (CallRequireModuleOrMock currPath x) s2
          = (Ok (VNative x), s2))
      /\ (resolve_isCore host x = false ->
          run host config resourceMap depth (S (S fuel))
              (CallRequireModuleOrMock currPath x) s2
          = match _moduleNameToPath host config resourceMap depth currPath
                  x with
            | Ok modulePath =>
                if JsString.startsWith (VENDOR_PATH host) modulePath
                then (Ok (VNative modulePath), s2)
                else if String.eqb modulePath ""
                then (Throw (CannotFindModule x currPath), s2)
                else loadModule host (run host config resourceMap depth fuel)
                                modulePath s2
            | Throw e => (Throw e, s2)
            | Diverge => (Diverge, s2)
            end)
      /\ (forall modulePath v s',
             reachable host config resourceMap depth s ->
             resolve_isCore host x = false ->
             _moduleNameToPath host config resourceMap depth currPath x
             = Ok modulePath ->
             JsString.startsWith (VENDOR_PATH host) modulePath = false ->
             run host config resourceMap depth (S (S fuel))
                 (CallRequireModuleOrMock currPath x) s2 = (Ok v, s') ->
             deliveredFrom s' v modulePath))
  /\ (let s2 := snd (mock host config resourceMap depth currPath x
                       (snd (dontMock host config resourceMap depth currPath x s))) in
      _explicitShouldMock s2 !! moduleID = Some true
      /\ _shouldMock host config resourceMap depth currPath x s2 = (Ok true, s2)
      /\ (forall self,
             requireModuleOrMock host config resourceMap depth self currPath x s2
             = self (CallRequireMock currPath x) s2)
      /\ run host config resourceMap depth (S (S fuel))
             (CallRequireModuleOrMock currPath x) s2
         = requireMock host config resourceMap depth
             (run host config resourceMap depth fuel) currPath x s2).
Proof.
  intros Hid. split; [|split].
  - intros decision Hex. by apply _shouldMock_explicit with moduleID.
  - unfold mock, dontMock.
    rewrite !(setExplicitShouldMock_state _ _ _ _ _ Hid).
    cbv beta iota delta [snd].
    match goal with
    | |- context [_shouldMock _ _ _ _ _ _ ?st] => set (s2 := st)
    end.
    assert (Hs2 : _explicitShouldMock s2 !! moduleID = Some false)
      by apply lookup_insert_eq.
    pose proof (_shouldMock_explicit s2 _ _ _ _ Hid Hs2) as Hd.
    assert (Hrun :
      run host config resourceMap depth (S (S fuel))
          (CallRequireModuleOrMock currPath x) s2
      = requireModule host config resourceMap depth
          (run host config resourceMap depth fuel) currPath x s2).
    { change (requireModuleOrMock host config resourceMap depth
                (run host config resourceMap depth (S fuel)) currPath x s2
              = requireModule host config resourceMap depth
                  (run host config resourceMap depth fuel) currPath x s2).
      unfold requireModuleOrMock, bind. rewrite Hd. reflexivity. }
    assert (Hreal : resolve_isCore host x = false ->
      requireModule host config resourceMap depth
        (run host config resourceMap depth fuel) currPath x s2
      = match _moduleNameToPath host config resourceMap depth currPath
              x with
        | Ok modulePath =>
            if JsString.startsWith (VENDOR_PATH host) modulePath
            then (Ok (VNative modulePath), s2)
            else if String.eqb modulePath ""
            then (Throw (CannotFindModule x currPath), s2)
            else loadModule host (run host config resourceMap depth fuel)
                            modulePath s2
        | Throw e => (Throw e, s2)
        | Diverge => (Diverge, s2)
        end).
    { intros Hcore.
      exact (requireModule_taken_off_mocking _ s2 _ _ _ Hcore Hid Hs2). }
    split; [exact Hs2|]. split; [exact Hd|]. split.
    { intros self. unfold requireModuleOrMock, bind. rewrite Hd.
      reflexivity. }
    split; [exact Hrun|]. split; [|split].
    + intros Hcore. rewrite Hrun.
      unfold requireModule, bind, lift, gets, ret. now rewrite Hid, Hcore.
    + intros Hcore. rewrite Hrun. exact (Hreal Hcore).
    + intros modulePath v s' Hreach Hcore Hpath Hvendor Hdelivered.
      rewrite Hrun, (Hreal Hcore), Hpath, Hvendor in Hdelivered.
      destruct (String.eqb modulePath ""); [discriminate|].
      assert (Hinv : Inv s2).
      { apply (Inv_sameGhost s); [|exact (reachable_Inv s Hreach)].
        subst s2. repeat split. }
      exact (loadModule_delivers _ _ _ _ _ (Safe_run fuel) Hinv Hdelivered).
  - unfold mock, dontMock.
    rewrite !(setExplicitShouldMock_state _ _ _ _ _ Hid).
    cbv beta iota delta [snd].
    match goal with
    | |- context [_shouldMock _ _ _ _ _ _ ?st] => set (s2 := st)
    end.
    assert (Hs2 : _explicitShouldMock s2 !! moduleID = Some true)
      by apply lookup_insert_eq.
    pose proof (_shouldMock_explicit s2 _ _ _ _ Hid Hs2) as Hd.
    split; [exact Hs2|]. split; [exact Hd|]. split.
    { intros self. unfold requireModuleOrMock, bind. rewrite Hd.
      reflexivity. }
    change (requireModuleOrMock host config resourceMap depth
              (run host config resourceMap depth (S fuel)) currPath x s2
            = requireMock host config resourceMap depth
                (run host config resourceMap depth fuel) currPath x s2).
    unfold requireModuleOrMock, bind. rewrite Hd. reflexivity.
Qed.

(** * Further properties of the loader *)

(** ** Requests through the policy *)

Lemma requireMock_slot (self : Call -> M Value) (s : Loader)
    (currPath moduleName moduleID : string) (v : Value) :
  _getNormalizedModuleID host config resourceMap depth currPath moduleName
  = Ok moduleID ->
  _explicitlySetMocks s !! moduleID = Some v ->
  requireMock host config resourceMap depth self currPath moduleName s
  = (Ok v, s).
Proof.
  intros Hid Hslot. unfold requireMock. unfold bind at 1, lift at 1.
  rewrite Hid. unfold bind at 1, gets at 1. rewrite Hslot. reflexivity.
Qed.

Lemma mocked_request_takes_slot (s : Loader) (fuel : nat)
    (currPath moduleName moduleID : string) (v : Value) :
  _getNormalizedModuleID host config resourceMap depth currPath moduleName
  = Ok moduleID ->
  _explicitShouldMock s !! moduleID = Some true ->
  _explicitlySetMocks s !! moduleID = Some v ->
  run host config resourceMap depth (S (S fuel))
      (CallRequireModuleOrMock currPath moduleName) s = (Ok v, s).
Proof.
  intros Hid Hmock Hslot.
  change (requireModuleOrMock host config resourceMap depth
            (run host config resourceMap depth (S fuel)) currPath moduleName s
          = (Ok v, s)).
  unfold requireModuleOrMock, bind.
  rewrite (_shouldMock_explicit s _ _ _ _ Hid Hmock).
  change (requireMock host config resourceMap depth
            (run host config resourceMap depth fuel) currPath moduleName s
          = (Ok v, s)).
  now apply requireMock_slot with moduleID.
Qed.

(** X1: after [jest.setMock(name, v)], a request for the name through the
    policy is answered with [v] and changes nothing, whatever the
    registries hold, and also after the registries have been reset. *)
Theorem setMock_then_require (s : Loader) (fuel : nat)
    (currPath moduleName moduleID : string) (v : Value) :
  _getNormalizedModuleID host config resourceMap depth currPath moduleName
  = Ok moduleID ->
  let installed :=
    snd (setMock host config resourceMap depth currPath moduleName v s) in
  run host config resourceMap depth (S (S fuel))
      (CallRequireModuleOrMock currPath moduleName) installed
  = (Ok v, installed)
  /\ run host config resourceMap depth (S (S fuel))
         (CallRequireModuleOrMock currPath moduleName)
         (snd (resetModuleRegistry installed))
     = (Ok v, snd (resetModuleRegistry installed)).
Proof.
  intros Hid installed.
  assert (Hinstalled :
    _explicitShouldMock installed !! moduleID = Some true
    /\ _explicitlySetMocks installed !! moduleID = Some v).
  { subst installed. unfold setMock, bind, lift, modify. rewrite Hid. simpl.
    split; apply lookup_insert_eq. }
  destruct Hinstalled as [Hmock Hslot]. split.
  - now apply mocked_request_takes_slot with moduleID.
  - destruct (resetModuleRegistry_frame installed) as (He & Hs & _).
    apply mocked_request_takes_slot with moduleID; [exact Hid | |].
    + now rewrite He.
    + now rewrite Hs.
Qed.

(** X2: a core module of the platform, with no explicit override on its
    module ID, is handed over by the host whatever the auto-mock flag,
    the cached decisions, the manual mocks and the registries are, and
    the request leaves the state as it was: nothing is registered and
    nothing evaluated. *)
Theorem core_module_passes_through (s : Loader) (fuel : nat)
    (currPath moduleName : string) :
  resolve_isCore host moduleName = true ->
  _explicitShouldMock s
    !! ("node" +:+ String (path_delimiter host) EmptyString +:+ moduleName
        +:+ String (path_delimiter host) EmptyString +:+ "null") = None ->
  run host config resourceMap depth (S (S fuel))
      (CallRequireModuleOrMock currPath moduleName) s
  = (Ok (VNative moduleName), s).
Proof.
  intros Hcore Hex.
  assert (Hid : _getNormalizedModuleID host config resourceMap depth currPath
                  moduleName
                = Ok ("node" +:+ String (path_delimiter host) EmptyString
                      +:+ moduleName
                      +:+ String (path_delimiter host) EmptyString +:+ "null")).
  { unfold _getNormalizedModuleID. now rewrite Hcore. }
  change (requireModuleOrMock host config resourceMap depth
            (run host config resourceMap depth (S fuel)) currPath moduleName s
          = (Ok (VNative moduleName), s)).
  unfold requireModuleOrMock, bind.
  assert (Hpolicy : _shouldMock host config resourceMap depth currPath
                      moduleName s = (Ok false, s)).
  { unfold _shouldMock, bind, lift, gets, ret. now rewrite Hid, Hex, Hcore. }
  rewrite Hpolicy.
  change (requireModule host config resourceMap depth
            (run host config resourceMap depth fuel) currPath moduleName s
          = (Ok (VNative moduleName), s)).
  unfold requireModule, bind, lift, gets, ret. now rewrite Hid, Hcore.
Qed.

Lemma _shouldMock_state (s s' : Loader) (currPath moduleName : string)
    (o : Outcome bool) :
  _shouldMock host config resourceMap depth currPath moduleName s = (o, s') ->
  s' = with_configShouldMockModuleNames (_configShouldMockModuleNames s') s
  /\ forall other,
      other <> moduleName ->
      _configShouldMockModuleNames s' !! other
      = _configShouldMockModuleNames s !! other.
Proof.
  unfold _shouldMock, bind, lift, gets, ret, throw, cacheDecision, modify.
  intros H.
  repeat match type of H with
         | context [match ?x with _ => _ end] => destruct x; simpl in H
         end;
    injection H as _ Hs; rewrite <- Hs; simpl;
    (split;
     [try reflexivity; destruct s; reflexivity
     |intros other Hne; rewrite ?lookup_insert_ne by congruence; reflexivity]).
Qed.

(** X3: of the state of the loader, the policy writes the cached
    decision of the requested name and nothing else: the explicit
    overrides, the explicitly set mocks, the cached metadata, the
    auto-mock flag, the two registries, the fields of the module being
    executed, the module objects and the global object are after the
    lookup what they were before, and so is the cached decision of
    every other name.  (The table of project configurations, which the
    resolver builds on the way, is not among them.) *)
Theorem _shouldMock_writes_one_cache_entry (s s' : Loader)
    (currPath moduleName : string) (o : Outcome bool) :
  _shouldMock host config resourceMap depth currPath moduleName s = (o, s') ->
  _explicitShouldMock s' = _explicitShouldMock s
  /\ _explicitlySetMocks s' = _explicitlySetMocks s
  /\ _mockMetaDataCache s' = _mockMetaDataCache s
  /\ _shouldAutoMock s' = _shouldAutoMock s
  /\ _mockRegistry s' = _mockRegistry s
  /\ _moduleRegistry s' = _moduleRegistry s
  /\ _currentlyExecutingModulePath s' = _currentlyExecutingModulePath s
  /\ _isCurrentlyExecutingManualMock s' = _isCurrentlyExecutingManualMock s
  /\ store s' = store s
  /\ global s' = global s
  /\ forall other,
      other <> moduleName ->
      _configShouldMockModuleNames s' !! other
      = _configShouldMockModuleNames s !! other.
Proof.
  intros H. destruct (_shouldMock_state _ _ _ _ _ H) as [Hs Hother].
  split; [|split; [|split; [|split; [|split; [|split; [|split; [|split;
    [|split; [|split]]]]]]]]]; try exact Hother; rewrite Hs; reflexivity.
Qed.

(** X4: with auto-mocking on and unmock patterns configured, the first
    lookup of a name that resolves outside the vendor path decides by
    the patterns: real when some pattern matches the resolved path or
    the path behind its symbolic links, mock otherwise.  The decision is
    cached under the name, and the next lookup answers it again. *)
Theorem unmock_patterns_decide (s : Loader)
    (currPath moduleName moduleID modulePath realPath : string) :
  _getNormalizedModuleID host config resourceMap depth currPath moduleName
  = Ok moduleID ->
  _explicitShouldMock s !! moduleID = None ->
  resolve_isCore host moduleName = false ->
  _shouldAutoMock s = true ->
  _configShouldMockModuleNames s !! moduleName = None ->
  _unmockListRegExps config <> [] ->
  _moduleNameToPath host config resourceMap depth currPath moduleName
  = Ok modulePath ->
  JsString.startsWith (VENDOR_PATH host) modulePath = false ->
  fs_realpathSync host modulePath = Some realPath ->
  let decision :=
    negb (existsb (fun unmockRegExp =>
                     RegExp_test host unmockRegExp modulePath
                     || RegExp_test host unmockRegExp realPath)
                  (_unmockListRegExps config)) in
  let decided :=
    with_configShouldMockModuleNames
      (<[moduleName := decision]> (_configShouldMockModuleNames s)) s in
  _shouldMock host config resourceMap depth currPath moduleName s
  = (Ok decision, decided)
  /\ _shouldMock host config resourceMap depth currPath moduleName decided
     = (Ok decision, decided).
Proof.
  intros Hid Hex Hcore Hauto Hcache Hpatterns Hpath Hvendor Hreal
         decision decided.
  split.
  - unfold _shouldMock, bind, lift, gets, ret, cacheDecision, modify.
    rewrite Hid, Hex, Hcore, Hauto, Hcache.
    destruct (_unmockListRegExps config) as [|re res] eqn:Hres;
      [congruence|].
    change (0 <? length (re :: res))%nat with true. cbv iota.
    rewrite Hpath, Hvendor, Hreal. simpl snd. simpl fst.
    subst decision decided.
    destruct (existsb _ (re :: res)); simpl.
    + now rewrite !insert_insert_eq.
    + rewrite !insert_insert_eq, lookup_insert_eq. reflexivity.
  - unfold _shouldMock, bind, lift, gets, ret.
    rewrite Hid. subst decided. simpl. rewrite Hex, Hcore. simpl.
    rewrite Hauto. simpl. rewrite lookup_insert_eq. reflexivity.
Qed.

(** X5: the policy throws in two ways only.  Either the module ID cannot be
    computed: the resolver's error leaves with the state untouched.  Or
    [realpathSync] fails on the resolved path: then the name is left
    cached as mock, so the next lookup answers mock instead of failing.
    A failure to resolve the real path on the way to the unmock
    patterns never leaves the policy: once the module ID is there, such
    a failure means a manual mock exists. *)
Theorem _shouldMock_errors (s s' : Loader) (currPath moduleName : string)
    (e : Error) :
  _shouldMock host config resourceMap depth currPath moduleName s
  = (Throw e, s') ->
  (_getNormalizedModuleID host config resourceMap depth currPath moduleName
   = Throw e /\ s' = s)
  \/ (exists modulePath,
        _moduleNameToPath host config resourceMap depth currPath moduleName
        = Ok modulePath
        /\ fs_realpathSync host modulePath = None
        /\ e = HostError "realpathSync"
        /\ _configShouldMockModuleNames s' !! moduleName = Some true
        /\ _shouldMock host config resourceMap depth currPath moduleName s'
           = (Ok true, s')).
Proof.
  unfold _shouldMock at 1.
  unfold bind, lift, gets, ret, throw, cacheDecision, modify.
  destruct (_getNormalizedModuleID host config resourceMap depth currPath
              moduleName) as [moduleID|e0|] eqn:Hid;
    [|intros H; inversion H; subst; now left|discriminate].
  destruct (_explicitShouldMock s !! moduleID) eqn:Hex; [discriminate|].
  destruct (resolve_isCore host moduleName) eqn:Hcore; [discriminate|].
  destruct (_shouldAutoMock s) eqn:Hauto; [|discriminate].
  destruct (_configShouldMockModuleNames s !! moduleName) eqn:Hcache;
    [discriminate|].
  destruct (0 <? length (_unmockListRegExps config))%nat; [|discriminate].
  simpl.
  destruct (_moduleNameToPath host config resourceMap depth currPath
              moduleName) as [modulePath|e1|] eqn:Hpath.
  - destruct (JsString.startsWith (VENDOR_PATH host) modulePath);
      [discriminate|].
    destruct (fs_realpathSync host modulePath) eqn:Hreal.
    + simpl. destruct (existsb _ _); discriminate.
    + intros H. inversion H; subst. right. exists modulePath.
      split; [reflexivity|]. split; [exact Hreal|]. split; [reflexivity|].
      split; [apply lookup_insert_eq|].
      unfold _shouldMock, bind, lift, gets, ret. rewrite Hid. simpl.
      rewrite Hex, Hcore. simpl. rewrite Hauto. simpl.
      rewrite lookup_insert_eq. reflexivity.
  - pose proof (resolution_failure_has_manual_mock _ _ _ _ Hcore Hid Hpath)
      as Hmock.
    destruct (_getResource host config resourceMap JSMock moduleName);
      [discriminate | congruence].
  - discriminate.
Qed.

(** X6: a logical name, one that is not in path form and that the resource
    map knows as a source or as a manual mock, has the same module ID
    for every importer, computed without the file system.  So an
    explicit override set from one module decides the requests for the
    name from every other module. *)
Theorem logical_name_override_applies_everywhere (s : Loader)
    (currPath1 currPath2 moduleName : string) :
  IS_PATH_BASED_MODULE_NAME moduleName = false ->
  (_getResource host config resourceMap JS moduleName <> None
   \/ _getResource host config resourceMap JSMock moduleName <> None) ->
  (exists moduleID,
      _getNormalizedModuleID host config resourceMap depth currPath1 moduleName
      = Ok moduleID
      /\ _getNormalizedModuleID host config resourceMap depth currPath2
           moduleName = Ok moduleID)
  /\ fst (_shouldMock host config resourceMap depth currPath2 moduleName
            (snd (mock host config resourceMap depth currPath1 moduleName s)))
     = Ok true
  /\ fst (_shouldMock host config resourceMap depth currPath2 moduleName
            (snd (dontMock host config resourceMap depth currPath1 moduleName
                    s)))
     = Ok false.
Proof.
  intros Hform Hknown.
  assert (Hids : exists moduleID, forall currPath,
             _getNormalizedModuleID host config resourceMap depth currPath
               moduleName = Ok moduleID).
  { unfold _getNormalizedModuleID.
    destruct (resolve_isCore host moduleName); [eauto|].
    rewrite Hform.
    assert (Hboth : absent (_getResource host config resourceMap JS moduleName)
                    && absent (_getResource host config resourceMap JSMock
                                 moduleName) = false).
    { destruct Hknown as [Hjs|Hmock].
      - destruct (_getResource host config resourceMap JS moduleName);
          [reflexivity | congruence].
      - destruct (_getResource host config resourceMap JSMock moduleName);
          [apply andb_false_r | congruence]. }
    rewrite Hboth. simpl. eauto. }
  destruct Hids as (moduleID & Hid). split; [eauto|].
  unfold mock, dontMock.
  rewrite !(setExplicitShouldMock_state _ _ _ _ _ (Hid currPath1)). simpl.
  split.
  - erewrite _shouldMock_explicit;
      [reflexivity | apply Hid | apply lookup_insert_eq].
  - erewrite _shouldMock_explicit;
      [reflexivity | apply Hid | apply lookup_insert_eq].
Qed.

Lemma unknown_file_ID (currPath moduleName modulePath : string) :
  resolve_isCore host moduleName = false ->
  _getResource host config resourceMap JS moduleName = None ->
  _getResource host config resourceMap JSMock moduleName = None ->
  _moduleNameToPath host config resourceMap depth currPath moduleName
  = Ok modulePath ->
  getResourceByPath resourceMap modulePath = None ->
  _getNormalizedModuleID host config resourceMap depth currPath moduleName
  = Ok ("user" +:+ String (path_delimiter host) EmptyString +:+ "null"
        +:+ String (path_delimiter host) EmptyString +:+ "null").
Proof.
  intros Hcore Hjs Hmock Hpath Hunknown. unfold _getNormalizedModuleID.
  rewrite Hcore, Hjs, Hmock, Hpath, Hunknown. simpl.
  rewrite orb_true_r, Hjs, Hmock. reflexivity.
Qed.

(** X7: the module ID names a file by what the resource map knows of it.  A
    file the resource map does not know, requested by a name that is
    neither a source nor a manual mock of the map, gets the module ID
    without a real and without a mock path, whichever file it is.  So
    an explicit override or an explicitly set mock for one such file
    applies to the requests for every other such file. *)
Theorem files_outside_the_map_share_one_ID (s : Loader) (fuel : nat)
    (currPath1 moduleName1 modulePath1 : string)
    (currPath2 moduleName2 modulePath2 : string) (v : Value) :
  resolve_isCore host moduleName1 = false ->
  _getResource host config resourceMap JS moduleName1 = None ->
  _getResource host config resourceMap JSMock moduleName1 = None ->
  _moduleNameToPath host config resourceMap depth currPath1 moduleName1
  = Ok modulePath1 ->
  getResourceByPath resourceMap modulePath1 = None ->
  resolve_isCore host moduleName2 = false ->
  _getResource host config resourceMap JS moduleName2 = None ->
  _getResource host config resourceMap JSMock moduleName2 = None ->
  _moduleNameToPath host config resourceMap depth currPath2 moduleName2
  = Ok modulePath2 ->
  getResourceByPath resourceMap modulePath2 = None ->
  _getNormalizedModuleID host config resourceMap depth currPath1 moduleName1
  = _getNormalizedModuleID host config resourceMap depth currPath2 moduleName2
  /\ fst (_shouldMock host config resourceMap depth currPath2 moduleName2
            (snd (dontMock host config resourceMap depth currPath1 moduleName1
                    s)))
     = Ok false
  /\ fst (_shouldMock host config resourceMap depth currPath2 moduleName2
            (snd (mock host config resourceMap depth currPath1 moduleName1 s)))
     = Ok true
  /\ fst (run host config resourceMap depth (S (S fuel))
            (CallRequireModuleOrMock currPath2 moduleName2)
            (snd (setMock host config resourceMap depth currPath1 moduleName1
                    v s)))
     = Ok v.
Proof.
  intros Hcore1 Hjs1 Hmock1 Hpath1 Hunknown1 Hcore2 Hjs2 Hmock2 Hpath2
    Hunknown2.
  pose proof (unknown_file_ID _ _ _ Hcore1 Hjs1 Hmock1 Hpath1 Hunknown1)
    as Hid1.
  pose proof (unknown_file_ID _ _ _ Hcore2 Hjs2 Hmock2 Hpath2 Hunknown2)
    as Hid2.
  split; [congruence|].
  split; [|split].
  - unfold dontMock.
    rewrite (setExplicitShouldMock_state _ _ _ _ _ Hid1). simpl.
    erewrite _shouldMock_explicit;
      [reflexivity | apply Hid2 | apply lookup_insert_eq].
  - unfold mock.
    rewrite (setExplicitShouldMock_state _ _ _ _ _ Hid1). simpl.
    erewrite _shouldMock_explicit;
      [reflexivity | apply Hid2 | apply lookup_insert_eq].
  - erewrite mocked_request_takes_slot; [reflexivity | apply Hid2 | |];
      unfold setMock, bind, lift, modify; rewrite Hid1; simpl;
      apply lookup_insert_eq.
Qed.

(** X8: with auto-mocking switched off, a request for a name without an
    explicit override on its module ID is a request for the real
    module: the policy answers real without reading or writing the
    cached decisions, whatever they and the unmock patterns say. *)
Theorem autoMockOff_requests_are_real (s : Loader) (fuel : nat)
    (currPath moduleName moduleID : string) :
  _getNormalizedModuleID host config resourceMap depth currPath moduleName
  = Ok moduleID ->
  _explicitShouldMock s !! moduleID = None ->
  let off := with_shouldAutoMock false s in
  _shouldMock host config resourceMap depth currPath moduleName off
  = (Ok false, off)
  /\ run host config resourceMap depth (S fuel)
         (CallRequireModuleOrMock currPath moduleName) off
     = run host config resourceMap depth fuel
           (CallRequireModule currPath moduleName) off.
Proof.
  intros Hid Hex off.
  assert (Hpolicy : _shouldMock host config resourceMap depth currPath
                      moduleName off = (Ok false, off)).
  { unfold _shouldMock, bind, lift, gets, ret. rewrite Hid. simpl.
    rewrite Hex. destruct (resolve_isCore host moduleName); reflexivity. }
  split; [exact Hpolicy|].
  change (requireModuleOrMock host config resourceMap depth
            (run host config resourceMap depth fuel) currPath moduleName off
          = run host config resourceMap depth fuel
                (CallRequireModule currPath moduleName) off).
  unfold requireModuleOrMock, bind. rewrite Hpolicy. reflexivity.
Qed.

(** ** The automocker and the mock registry *)

Lemma _generateMock_known (self : Call -> M Value) (t : Loader)
    (currPath moduleName modulePath : string) (metadata : option Metadata) :
  _moduleNameToPath host config resourceMap depth currPath moduleName
  = Ok modulePath ->
  _mockMetaDataCache t !! modulePath = Some metadata ->
  _generateMock host config resourceMap depth self currPath moduleName t
  = (Ok (VGeneratedMock metadata), t).
Proof.
  intros Hpath Hknown. unfold _generateMock, bind, lift, gets, ret.
  rewrite Hpath, Hknown. simpl. rewrite Hknown. reflexivity.
Qed.

Lemma _generateMock_restores (self : Call -> M Value) (s s' : Loader)
    (currPath moduleName : string) (v : Value) :
  _generateMock host config resourceMap depth self currPath moduleName s
  = (Ok v, s') ->
  _moduleRegistry s' = _moduleRegistry s
  /\ _mockRegistry s' = _mockRegistry s
  /\ generation s' = generation s.
Proof.
  unfold _generateMock.
  unfold bind, lift, gets, ret, throw, cacheMetadata, modify.
  destruct (_moduleNameToPath host config resourceMap depth currPath
              moduleName) as [modulePath|e|]; try discriminate.
  destruct (_mockMetaDataCache s !! modulePath) as [metadata|]; simpl.
  - intros H. injection H as _ <-. auto.
  - destruct (self (CallRequireModule currPath moduleName) _)
      as [[moduleExports|e|] s2]; simpl; try discriminate.
    destruct (moduleMocker_getMetadata host (describe _ moduleExports))
      as [mockMetadata|]; simpl; try discriminate.
    intros H. injection H as _ <-. simpl. auto.
Qed.

(** X9: when [_generateMock] returns, the two registries are the ones the
    caller had, whatever the module evaluated in isolation did to the
    registries it ran with; the metadata the mock was generated from is
    cached under the real path, and from then on a mock is generated
    from that cached metadata, so of the same shape, with nothing
    evaluated and nothing changed. *)
Theorem _generateMock_isolates_and_caches (self : Call -> M Value)
    (s s' : Loader) (currPath moduleName : string) (v : Value) :
  _generateMock host config resourceMap depth self currPath moduleName s
  = (Ok v, s') ->
  _moduleRegistry s' = _moduleRegistry s
  /\ _mockRegistry s' = _mockRegistry s
  /\ generation s' = generation s
  /\ exists modulePath metadata,
      _moduleNameToPath host config resourceMap depth currPath moduleName
      = Ok modulePath
      /\ _mockMetaDataCache s' !! modulePath = Some metadata
      /\ v = VGeneratedMock metadata
      /\ forall self' t,
          _mockMetaDataCache t !! modulePath = Some metadata ->
          _generateMock host config resourceMap depth self' currPath
            moduleName t = (Ok v, t).
Proof.
  unfold _generateMock at 1.
  unfold bind, lift, gets, ret, throw, cacheMetadata, modify.
  destruct (_moduleNameToPath host config resourceMap depth currPath
              moduleName) as [modulePath|e|] eqn:Hpath; try discriminate.
  destruct (_mockMetaDataCache s !! modulePath) as [metadata|] eqn:Hknown;
    simpl.
  - rewrite Hknown. intros H. injection H as <- <-.
    repeat (split; [reflexivity|]). exists modulePath, metadata.
    repeat (split; [assumption || reflexivity|]).
    intros self' t Ht. now apply _generateMock_known with modulePath.
  - destruct (self (CallRequireModule currPath moduleName) _)
      as [[moduleExports|e|] s2]; simpl; try discriminate.
    destruct (moduleMocker_getMetadata host (describe _ moduleExports))
      as [mockMetadata|]; simpl; try discriminate.
    rewrite lookup_insert_eq. simpl. intros H. injection H as <- <-. simpl.
    repeat (split; [reflexivity|]). exists modulePath, (Some mockMetadata).
    split; [reflexivity|]. split; [apply lookup_insert_eq|].
    split; [reflexivity|].
    intros self' t Ht. now apply _generateMock_known with modulePath.
Qed.

(** X10: a mock that [requireMock] has delivered is in the mock registry
    under the path of the mock, and is delivered again, with nothing
    evaluated and nothing changed, in every later state in which the
    registry still holds it and no explicit mock is set for the module
    ID; a reset of the registries takes it out. *)
Theorem requireMock_is_cached (self : Call -> M Value) (s s' : Loader)
    (currPath moduleName moduleID : string) (v : Value) :
  _getNormalizedModuleID host config resourceMap depth currPath moduleName
  = Ok moduleID ->
  requireMock host config resourceMap depth self currPath moduleName s
  = (Ok v, s') ->
  _explicitlySetMocks s' !! moduleID = None ->
  exists modulePath,
    mockRegistryPath host config resourceMap depth currPath moduleName
    = Ok modulePath
    /\ _mockRegistry s' !! modulePath = Some v
    /\ (forall self' t,
           _explicitlySetMocks t !! moduleID = None ->
           _mockRegistry t !! modulePath = Some v ->
           requireMock host config resourceMap depth self' currPath moduleName t
           = (Ok v, t))
    /\ _mockRegistry (snd (resetModuleRegistry s')) !! modulePath = None.
Proof.
  intros Hid H Hslot.
  assert (Hagain : forall modulePath,
    mockRegistryPath host config resourceMap depth currPath moduleName
    = Ok modulePath ->
    forall self' t,
      _explicitlySetMocks t !! moduleID = None ->
      _mockRegistry t !! modulePath = Some v ->
      requireMock host config resourceMap depth self' currPath moduleName t
      = (Ok v, t)).
  { intros modulePath Hpath self' t Hnone Hreg.
    unfold mockRegistryPath in Hpath. unfold requireMock.
    unfold bind, lift, gets, ret. rewrite Hid, Hnone.
    destruct (_getResource host config resourceMap JSMock moduleName)
      as [manualMock|].
    - inversion Hpath; subst. now rewrite Hreg.
    - destruct (_moduleNameToPath host config resourceMap depth currPath
                  moduleName) as [real|e|]; try discriminate.
      inversion Hpath; subst.
      destruct (fs_existsSync host _); now rewrite Hreg. }
  assert (Hreset : forall modulePath,
    _mockRegistry (snd (resetModuleRegistry s')) !! modulePath = None).
  { intros modulePath.
    destruct (resetModuleRegistry_frame s')
      as (_ & _ & _ & _ & _ & _ & _ & _ & _ & -> & _).
    apply lookup_empty. }
  unfold requireMock in H.
  unfold bind, lift, gets, ret, registerMock, modify, allocate, readExports
    in H.
  rewrite Hid in H.
  destruct (_explicitlySetMocks s !! moduleID) eqn:Hslot0.
  { injection H as _ <-. congruence. }
  unfold mockRegistryPath in *.
  destruct (_getResource host config resourceMap JSMock moduleName)
    as [manualMock|].
  - exists (path manualMock). split; [reflexivity|].
    split; [|split; [now apply Hagain | apply Hreset]].
    destruct (_mockRegistry s !! path manualMock) eqn:Hreg.
    + injection H as <- <-. exact Hreg.
    + destruct (_execModule host self _ _) as [[[]|e|] s2]; try discriminate.
      simpl in H. injection H as <- <-. simpl.
      now rewrite !lookup_insert_eq.
  - destruct (_moduleNameToPath host config resourceMap depth currPath
                moduleName) as [modulePath|e|]; try discriminate.
    eexists. split; [reflexivity|].
    split; [|split; [now apply Hagain | apply Hreset]].
    destruct (fs_existsSync host _).
    + destruct (_mockRegistry s !! _) eqn:Hreg.
      * injection H as <- <-. exact Hreg.
      * destruct (_execModule host self _ _) as [[[]|e|] s2];
          try discriminate.
        simpl in H. injection H as <- <-. simpl.
        now rewrite !lookup_insert_eq.
    + destruct (_mockRegistry s !! modulePath) eqn:Hreg.
      * injection H as <- <-. exact Hreg.
      * destruct (self (CallGenerateMock currPath moduleName) s)
          as [[mock|e|] s2]; try discriminate.
        simpl in H. injection H as <- <-. simpl.
        now rewrite !lookup_insert_eq.
Qed.

(** X11: an automock is made without a trace in the caller's module
    registry: when [requireMock] generates the mock of a module that has
    neither an explicit mock nor a manual mock, the module registry is
    afterwards what it was, and the mock registry differs by the entry
    of the real path only. *)
Theorem automock_keeps_the_module_registry (s s' : Loader) (fuel : nat)
    (currPath moduleName moduleID : string) (v : Value) :
  _getNormalizedModuleID host config resourceMap depth currPath moduleName
  = Ok moduleID ->
  _explicitlySetMocks s !! moduleID = None ->
  _getResource host config resourceMap JSMock moduleName = None ->
  (forall modulePath,
      _moduleNameToPath host config resourceMap depth currPath moduleName
      = Ok modulePath ->
      fs_existsSync host
        (path_join host [path_dirname host modulePath; "__mocks__";
                         path_basename host modulePath]) = false) ->
  run host config resourceMap depth (S (S fuel))
      (CallRequireMock currPath moduleName) s = (Ok v, s') ->
  _moduleRegistry s' = _moduleRegistry s
  /\ generation s' = generation s
  /\ exists modulePath,
      _moduleNameToPath host config resourceMap depth currPath moduleName
      = Ok modulePath
      /\ _mockRegistry s' !! modulePath = Some v
      /\ forall other,
          other <> modulePath ->
          _mockRegistry s' !! other = _mockRegistry s !! other.
Proof.
  intros Hid Hslot Hmanual Hsibling H.
  change (requireMock host config resourceMap depth
            (run host config resourceMap depth (S fuel)) currPath moduleName s
          = (Ok v, s')) in H.
  unfold requireMock in H.
  unfold bind at 1, lift at 1 in H. rewrite Hid in H.
  unfold bind at 1, gets at 1 in H. rewrite Hslot, Hmanual in H.
  unfold bind at 1 in H. unfold bind at 1, lift at 1 in H.
  destruct (_moduleNameToPath host config resourceMap depth currPath
              moduleName) as [modulePath|e|] eqn:Hpath; try discriminate.
  rewrite (Hsibling modulePath eq_refl) in H.
  unfold ret at 1 in H. unfold bind at 1, gets at 1 in H.
  destruct (_mockRegistry s !! modulePath) as [known|] eqn:Hreg.
  - injection H as <- <-. repeat (split; [reflexivity|]).
    exists modulePath. auto.
  - unfold bind at 1 in H. unfold bind at 1 in H.
    change (run host config resourceMap depth (S fuel)
              (CallGenerateMock currPath moduleName) s)
      with (_generateMock host config resourceMap depth
              (run host config resourceMap depth fuel) currPath moduleName s)
      in H.
    destruct (_generateMock host config resourceMap depth
                (run host config resourceMap depth fuel) currPath moduleName s)
      as [[mock|e|] s2] eqn:Hgen; try discriminate.
    destruct (_generateMock_restores _ _ _ _ _ _ Hgen)
      as (Hmodules & Hmocks & Hgeneration).
    unfold registerMock, modify, bind, gets, ret in H. simpl in H.
    rewrite lookup_insert_eq in H. injection H as <- <-. simpl.
    split; [exact Hmodules|]. split; [exact Hgeneration|].
    exists modulePath. split; [reflexivity|].
    split; [apply lookup_insert_eq|].
    intros other Hne. rewrite lookup_insert_ne by congruence.
    now rewrite Hmocks.
Qed.

(** ** Module objects and the module registry *)

(** X12: in every state the loader goes through, a registered path names a
    module object of that path; and whatever is called on the loader, a
    module object stays in the store under its address and keeps its
    file, so the exports a module has been handed stay those of the same
    module. *)
Theorem registry_names_module_objects (s : Loader) :
  reachable host config resourceMap depth s ->
  (forall modulePath moduleObj,
      _moduleRegistry s !! modulePath = Some moduleObj ->
      exists record,
        store s !! moduleObj = Some record /\ __filename record = modulePath)
  /\ (forall fuel call moduleObj record,
         store s !! moduleObj = Some record ->
         exists record',
           store (snd (run host config resourceMap depth fuel call s))
             !! moduleObj = Some record'
           /\ __filename record' = __filename record).
Proof.
  intros Hreach. pose proof (reachable_Inv s Hreach) as Hinv. split.
  - intros modulePath moduleObj Hreg.
    destruct (inv_records s Hinv _ _ Hreg) as (record & Hrec & Hfile & _).
    eauto.
  - intros fuel call moduleObj record Hrec.
    destruct (Safe_run fuel call s Hinv) as [_ Hrel].
    destruct (rel_store _ _ Hrel _ _ Hrec) as (record' & Hrec' & Hfile & _).
    eauto.
Qed.

Lemma fillModule_executes (self : Call -> M Value) (modulePath : string)
    (moduleObj : nat) :
  String.eqb (path_extname host modulePath) ".json" = false ->
  String.eqb (path_extname host modulePath) ".node" = false ->
  fillModule host self modulePath moduleObj = _execModule host self moduleObj.
Proof. intros Hjson Hnode. unfold fillModule. now rewrite Hjson, Hnode. Qed.

Lemma failing_source_throws (self : Call -> M Value) (s : Loader)
    (modulePath what : string) :
  _moduleRegistry s !! modulePath = None ->
  global s <> None ->
  String.eqb (path_extname host modulePath) ".json" = false ->
  String.eqb (path_extname host modulePath) ".node" = false ->
  (source host modulePath = TransformFails what
   \/ source host modulePath = EvaluationFails what) ->
  exists s1,
    loadModule host self modulePath s = (Throw (HostError what), s1)
    /\ _moduleRegistry s1
       = <[modulePath := length (store s)]> (_moduleRegistry s)
    /\ _mockRegistry s1 = _mockRegistry s
    /\ _mockMetaDataCache s1 = _mockMetaDataCache s.
Proof.
  intros Hmiss Hglobal Hjson Hnode Hsource.
  rewrite (loadModule_miss _ _ _ Hmiss).
  rewrite (fillModule_executes _ _ _ Hjson Hnode).
  unfold bind at 1. unfold _execModule.
  unfold bind at 1, gets at 1.
  change (global (preallocated modulePath s)) with (global s).
  destruct (global s) as [g|]; [|congruence].
  unfold bind at 1, gets at 1.
  change (store (preallocated modulePath s))
    with (store s ++ [freshModule modulePath])%list.
  rewrite list_lookup_middle by reflexivity.
  unfold bind, gets, modify, throw, updateRecord. simpl.
  destruct Hsource as [-> | ->]; simpl;
    (eexists; split; [reflexivity|]; simpl; auto).
Qed.

(** X13: a module whose source the transformer or the evaluation of the
    wrapper rejects stays registered with its empty exports: the first
    request throws, and in every later state in which the module
    registry still holds the module object, a request for it returns
    the exports of that object without an error and without another
    attempt.  After a reset of the registries the next request
    evaluates the module again, and throws again. *)
Theorem failed_module_stays_registered (self : Call -> M Value) (s : Loader)
    (currPath moduleName modulePath what : string) :
  resolvesTo host config resourceMap depth currPath moduleName modulePath ->
  _moduleRegistry s !! modulePath = None ->
  global s <> None ->
  String.eqb (path_extname host modulePath) ".json" = false ->
  String.eqb (path_extname host modulePath) ".node" = false ->
  (source host modulePath = TransformFails what
   \/ source host modulePath = EvaluationFails what) ->
  let failed :=
    requireModule host config resourceMap depth self currPath moduleName s in
  fst failed = Throw (HostError what)
  /\ _moduleRegistry (snd failed) !! modulePath = Some (length (store s))
  /\ (forall self',
         requireModule host config resourceMap depth self' currPath moduleName
           (snd failed)
         = (Ok (VExportsOf (length (store s))), snd failed))
  /\ (forall self' t moduleObj record,
         _moduleRegistry t !! modulePath = Some moduleObj ->
         store t !! moduleObj = Some record ->
         requireModule host config resourceMap depth self' currPath moduleName
           t
         = (Ok (valueOfExports moduleObj (exports record)), t))
  /\ (forall self',
         fst (requireModule host config resourceMap depth self' currPath
                moduleName (snd (resetModuleRegistry (snd failed))))
         = Throw (HostError what)).
Proof.
  intros Hres Hmiss Hglobal Hjson Hnode Hsource failed.
  assert (Hfailed :
    exists s1,
      failed = (Throw (HostError what), s1)
      /\ _moduleRegistry s1 !! modulePath = Some (length (store s))
      /\ global s1 <> None
      /\ exists record,
          store s1 !! length (store s) = Some record
          /\ exports record = EObject []).
  { subst failed. rewrite (requireModule_resolved self s _ _ _ Hres).
    rewrite (loadModule_miss _ _ _ Hmiss).
    rewrite (fillModule_executes _ _ _ Hjson Hnode).
    unfold bind at 1. unfold _execModule.
    unfold bind at 1, gets at 1.
    change (global (preallocated modulePath s)) with (global s).
    destruct (global s) as [g|] eqn:Hg; [|congruence].
    unfold bind at 1, gets at 1.
    change (store (preallocated modulePath s))
      with (store s ++ [freshModule modulePath])%list.
    rewrite list_lookup_middle by reflexivity.
    unfold bind, gets, modify, throw, updateRecord. simpl.
    destruct Hsource as [-> | ->]; simpl.
    - eexists. split; [reflexivity|]. simpl.
      split; [apply lookup_insert_eq|]. split; [now rewrite Hg|].
      exists (freshModule modulePath). split; [|reflexivity].
      apply list_lookup_middle. reflexivity.
    - eexists. split; [reflexivity|]. simpl.
      split; [apply lookup_insert_eq|]. split; [now rewrite Hg|].
      eexists. split.
      + rewrite list_lookup_alter_eq.
        rewrite list_lookup_middle by reflexivity. reflexivity.
      + reflexivity. }
  destruct Hfailed as (s1 & -> & Hreg & Hglobal1 & record & Hrec & Hexports).
  simpl.
  assert (Hhit : forall self' t moduleObj r,
    _moduleRegistry t !! modulePath = Some moduleObj ->
    store t !! moduleObj = Some r ->
    requireModule host config resourceMap depth self' currPath moduleName t
    = (Ok (valueOfExports moduleObj (exports r)), t)).
  { intros self' t moduleObj r Ht Hr.
    rewrite (requireModule_resolved self' t _ _ _ Hres).
    unfold loadModule. unfold bind at 1, gets at 1. rewrite Ht.
    unfold readExports, gets. now rewrite Hr. }
  split; [reflexivity|]. split; [exact Hreg|]. split; [|split].
  - intros self'. rewrite (Hhit self' s1 _ _ Hreg Hrec), Hexports.
    reflexivity.
  - exact Hhit.
  - intros self'.
    destruct (resetModuleRegistry_frame s1)
      as (_ & _ & _ & _ & _ & _ & _ & _ & Hempty & _ & Hkept).
    rewrite (requireModule_resolved self' _ _ _ _ Hres).
    destruct (failing_source_throws self' (snd (resetModuleRegistry s1))
                modulePath what) as (s2 & -> & _); auto.
    rewrite Hempty. apply lookup_empty.
Qed.

(** X14: the automocker does not put the registries back when the module it
    evaluates in isolation fails.  For a module whose source the
    transformer or the evaluation rejects, the request for a generated
    mock throws and leaves the isolated registries in place, the module
    registry holding the failed module only and the mock registry
    nothing; the metadata of an empty object stays cached for the
    path, so every later request returns a mock generated from it
    without evaluating the module again. *)
Theorem failed_automock_loses_the_registries (s : Loader) (fuel : nat)
    (currPath moduleName modulePath what : string) :
  resolvesTo host config resourceMap depth currPath moduleName modulePath ->
  _mockMetaDataCache s !! modulePath = None ->
  global s <> None ->
  String.eqb (path_extname host modulePath) ".json" = false ->
  String.eqb (path_extname host modulePath) ".node" = false ->
  (source host modulePath = TransformFails what
   \/ source host modulePath = EvaluationFails what) ->
  let failed :=
    run host config resourceMap depth (S (S fuel))
        (CallGenerateMock currPath moduleName) s in
  let empty := moduleMocker_getMetadata host (EObject []) in
  fst failed = Throw (HostError what)
  /\ _moduleRegistry (snd failed) = {[ modulePath := length (store s) ]}
  /\ _mockRegistry (snd failed) = ∅
  /\ _mockMetaDataCache (snd failed) !! modulePath = Some empty
  /\ forall self,
      _generateMock host config resourceMap depth self currPath moduleName
        (snd failed)
      = (Ok (VGeneratedMock empty), snd failed).
Proof.
  intros Hres Hnew Hglobal Hjson Hnode Hsource failed empty.
  pose proof Hres as (_ & _ & _ & Hpath & _).
  set (isolated :=
         with_fresh_registries
           (with_mockMetaDataCache
              (<[modulePath := empty]> (_mockMetaDataCache s)) s)).
  destruct (failing_source_throws
              (run host config resourceMap depth fuel) isolated modulePath
              what (lookup_empty _) Hglobal Hjson Hnode Hsource)
    as (s1 & Hload & Hmodules & Hmocks & Hcache).
  assert (Hfailed : failed = (Throw (HostError what), s1)).
  { subst failed.
    change (_generateMock host config resourceMap depth
              (run host config resourceMap depth (S fuel)) currPath moduleName
              s = (Throw (HostError what), s1)).
    unfold _generateMock. unfold bind at 1, lift at 1. rewrite Hpath.
    unfold bind at 1. unfold bind at 1, gets at 1. rewrite Hnew.
    unfold bind at 1. unfold bind at 1, cacheMetadata, modify at 1.
    unfold bind at 1, gets at 1. unfold bind at 1, gets at 1.
    unfold bind at 1, gets at 1. unfold bind at 1, modify at 1.
    unfold bind at 1.
    change (run host config resourceMap depth (S fuel)
              (CallRequireModule currPath moduleName))
      with (requireModule host config resourceMap depth
              (run host config resourceMap depth fuel) currPath moduleName).
    fold empty. fold isolated.
    rewrite (requireModule_resolved _ isolated _ _ _ Hres), Hload.
    reflexivity. }
  rewrite Hfailed. simpl.
  assert (Hcached : _mockMetaDataCache s1 !! modulePath = Some empty).
  { rewrite Hcache. subst isolated. simpl. apply lookup_insert_eq. }
  split; [reflexivity|]. split; [|split; [|split]].
  - rewrite Hmodules. subst isolated. simpl. reflexivity.
  - rewrite Hmocks. reflexivity.
  - exact Hcached.
  - intros self. now apply _generateMock_known with modulePath.
Qed.

(** X15: once the environment has been disposed of, a request for a
    module that is not registered evaluates no module code: it
    registers a module object and, for a script, returns its empty
    exports; a [.node] file is still loaded by the host, and for a
    JSON file the request throws. *)
Theorem disposed_environment_evaluates_nothing (self : Call -> M Value)
    (s : Loader) (currPath moduleName modulePath : string) :
  global s = None ->
  resolvesTo host config resourceMap depth currPath moduleName modulePath ->
  _moduleRegistry s !! modulePath = None ->
  let r :=
    requireModule host config resourceMap depth self currPath moduleName s in
  fst r = (if String.eqb (path_extname host modulePath) ".json"
           then Throw (TypeError "global")
           else if String.eqb (path_extname host modulePath) ".node"
           then Ok (VNative modulePath)
           else Ok (VExportsOf (length (store s))))
  /\ _moduleRegistry (snd r) !! modulePath = Some (length (store s))
  /\ evaluations (snd r) = evaluations s
  /\ (String.eqb (path_extname host modulePath) ".node" = false ->
      snd r = preallocated modulePath s).
Proof.
  intros Hglobal Hres Hmiss r. subst r.
  rewrite (requireModule_resolved self s _ _ _ Hres).
  rewrite (loadModule_miss _ _ _ Hmiss).
  unfold fillModule.
  destruct (String.eqb (path_extname host modulePath) ".json").
  - unfold bind, gets, throw.
    change (global (preallocated modulePath s)) with (global s).
    rewrite Hglobal. simpl.
    split; [reflexivity|]. split; [apply lookup_insert_eq|]. auto.
  - destruct (String.eqb (path_extname host modulePath) ".node").
    + unfold bind, updateRecord, modify, readExports, gets. simpl.
      rewrite list_lookup_alter_eq.
      rewrite list_lookup_middle by reflexivity. simpl.
      split; [reflexivity|]. split; [apply lookup_insert_eq|].
      split; [reflexivity | discriminate].
    + assert (Hexec :
        (_execModule host self (length (store s)) ;;;
         readExports (length (store s))) (preallocated modulePath s)
        = (Ok (VExportsOf (length (store s))), preallocated modulePath s)).
      { unfold bind at 1. unfold _execModule. unfold bind at 1, gets at 1.
        change (global (preallocated modulePath s)) with (global s).
        rewrite Hglobal. unfold ret, readExports, gets.
        change (store (preallocated modulePath s))
          with (store s ++ [freshModule modulePath])%list.
        rewrite list_lookup_middle by reflexivity. reflexivity. }
      rewrite Hexec. simpl.
      split; [reflexivity|]. split; [apply lookup_insert_eq|]. auto.
Qed.

Lemma _execModule_lists_the_evaluation (self : Call -> M Value)
    (moduleObj : nat) (record : ModuleRecord) (s : Loader) :
  (forall c, Safe (self c)) ->
  Inv s ->
  global s <> None ->
  store s !! moduleObj = Some record ->
  (origin record = RealModule ->
   is_Some (_moduleRegistry s !! __filename record)
   /\ ~ In (generation s, __filename record, RealModule) (evaluations s)) ->
  In (generation s, __filename record, origin record)
     (evaluations (snd (_execModule host self moduleObj s))).
Proof.
  intros Hself Hinv Hglobal Hrec Hpre.
  destruct (Inv_evaluation s moduleObj record Hinv Hrec Hpre) as [Hinv1 _].
  simpl in Hinv1.
  unfold _execModule. unfold bind at 1, gets at 1.
  destruct (global s) as [g|]; [|congruence].
  unfold bind at 1, gets at 1. rewrite Hrec.
  unfold bind at 1, gets at 1. unfold bind at 1, modify at 1.
  match goal with
  | |- In _ (evaluations (snd (?rest ?logged))) =>
      assert (Hrest : Good logged rest)
  end.
  { destruct (source host (__filename record));
      (apply Good_of_Safe; [safe | exact Hinv1]). }
  destruct Hrest as [_ Hrel].
  destruct (rel_evaluations _ _ Hrel) as (new & -> & _).
  apply in_or_app. right. left. reflexivity.
Qed.

(** X16: after the registries have been reset, a request for a real module
    has it evaluated again, in a registry generation that has never been
    in use before. *)
Theorem reset_triggers_reevaluation (s : Loader) (fuel : nat)
    (currPath moduleName modulePath : string) :
  reachable host config resourceMap depth s ->
  resolvesTo host config resourceMap depth currPath moduleName modulePath ->
  global s <> None ->
  String.eqb (path_extname host modulePath) ".json" = false ->
  String.eqb (path_extname host modulePath) ".node" = false ->
  let cleared := snd (resetModuleRegistry s) in
  let after := snd (run host config resourceMap depth (S fuel)
                        (CallRequireModule currPath moduleName) cleared) in
  In (generation cleared, modulePath, RealModule) (evaluations after)
  /\ (forall p o, ~ In (generation cleared, p, o) (evaluations s)).
Proof.
  intros Hreach Hres Hglobal Hjson Hnode cleared after.
  pose proof (reachable_Inv s Hreach) as Hinv.
  destruct (resetModuleRegistry_frame s)
    as (_ & _ & _ & _ & _ & _ & Hev & Hgen & Hreg & _ & Halive).
  fold cleared in Hev, Hgen, Hreg, Halive.
  assert (Hinv0 : Inv cleared)
    by exact (proj1 (Safe_resetModuleRegistry s Hinv)).
  assert (Hmiss : _moduleRegistry cleared !! modulePath = None)
    by (rewrite Hreg; apply lookup_empty).
  split.
  - subst after.
    change (run host config resourceMap depth (S fuel)
              (CallRequireModule currPath moduleName) cleared)
      with (requireModule host config resourceMap depth
              (run host config resourceMap depth fuel) currPath moduleName
              cleared).
    rewrite (requireModule_resolved _ cleared _ _ _ Hres).
    rewrite (loadModule_miss _ _ _ Hmiss).
    rewrite (fillModule_executes _ _ _ Hjson Hnode).
    destruct (preallocated_good (run host config resourceMap depth fuel)
                cleared modulePath (Safe_run fuel) Hinv0 Hmiss)
      as (Hinv1 & _ & Hlook & _).
    pose proof (_execModule_lists_the_evaluation
                  (run host config resourceMap depth fuel)
                  (length (store cleared)) (freshModule modulePath)
                  (preallocated modulePath cleared) (Safe_run fuel) Hinv1
                  (Halive Hglobal) Hlook) as Hlisted.
    simpl in Hlisted.
    assert (Hin : In (generation cleared, modulePath, RealModule)
                     (evaluations
                        (snd (_execModule host
                                (run host config resourceMap depth fuel)
                                (length (store cleared))
                                (preallocated modulePath cleared))))).
    { apply Hlisted. intros _. split.
      - rewrite lookup_insert_eq. eauto.
      - intros Hin. apply (inv_registered cleared Hinv0) in Hin.
        rewrite Hmiss in Hin. destruct Hin as [? Hin]. discriminate. }
    unfold bind.
    destruct (_execModule host (run host config resourceMap depth fuel)
                (length (store cleared)) (preallocated modulePath cleared))
      as [[[]|e|] s1]; exact Hin.
  - intros p o Hin. apply (inv_numbered s Hinv) in Hin. lia.
Qed.

(** ** Dependencies, module IDs and tables *)

(** X17: [getDependenciesFromPath] throws for a path the resource map does
    not know and for a project configuration or a plain resource, and
    for nothing else: a required name that does not resolve is left out
    of the answer, which therefore has at most as many entries as the
    file has required names. *)
Theorem getDependenciesFromPath_errors (modulePath : string) :
  (forall e,
      getDependenciesFromPath host config resourceMap depth modulePath = Throw e
      <-> (getResourceByPath resourceMap modulePath = None
           /\ e = UnknownModulePath modulePath)
          \/ (exists resource,
                getResourceByPath resourceMap modulePath = Some resource
                /\ (type resource = ProjectConfiguration
                    \/ type resource = OtherResource)
                /\ e = CouldNotExtractDependencies))
  /\ (forall resource deps,
         getResourceByPath resourceMap modulePath = Some resource ->
         getDependenciesFromPath host config resourceMap depth modulePath
         = Ok deps ->
         length deps <= length (requiredModules resource)).
Proof.
  unfold getDependenciesFromPath, _getDependencyPathsFromResource. split.
  - intros e.
    destruct (getResourceByPath resourceMap modulePath) as [resource|].
    + destruct (dependencyPathsFrom_outcome resource
                  (requiredModules resource) []) as [Hthrow _].
      destruct (type resource) eqn:Htype; split;
        try (intros H; exfalso; exact (Hthrow e H));
        try (intros [[H _]|(r & Hr & [Ht|Ht] & _)];
             [discriminate | inversion Hr; subst; congruence
             | inversion Hr; subst; congruence]).
      * intros H. inversion H; subst. right. eauto.
      * intros [[H _]|(r & _ & _ & ->)]; [discriminate | reflexivity].
      * intros H. inversion H; subst. right. eauto.
      * intros [[H _]|(r & _ & _ & ->)]; [discriminate | reflexivity].
    + split.
      * intros H. inversion H; subst. now left.
      * intros [[_ ->]|(r & Hr & _)]; [reflexivity | discriminate].
  - intros resource deps Hres. rewrite Hres.
    destruct (dependencyPathsFrom_outcome resource
                (requiredModules resource) []) as [_ Hlen].
    destruct (type resource); try discriminate; intros H; apply Hlen in H;
      simpl in H; exact H.
Qed.

Lemma split_head_free (d : ascii) (s : string) :
  exists h t, JsString.split d s = h :: t /\ JsString.contains d h = false.
Proof.
  induction s as [|c s (h & t & Hsplit & Hfree)]; simpl.
  - eauto.
  - destruct (Ascii.eqb c d) eqn:Hc; [eauto|].
    rewrite Hsplit. exists (String c h), t. split; [reflexivity|].
    simpl. now rewrite Hc.
Qed.

(** X18: the real path is read back from a module ID by cutting the text at
    the delimiter, so it comes back whole exactly when it does not
    contain the delimiter: for a name the resource map has a source
    for, the path read back from the module ID is the path of the
    source if and only if that path is free of the delimiter. *)
Theorem real_path_read_back (currPath moduleName : string)
    (source : HasteResource) :
  path_delimiter host = ":"%char \/ path_delimiter host = ";"%char ->
  resolve_isCore host moduleName = false ->
  IS_PATH_BASED_MODULE_NAME moduleName = false ->
  _getResource host config resourceMap JS moduleName = Some source ->
  exists moduleID,
    _getNormalizedModuleID host config resourceMap depth currPath moduleName
    = Ok moduleID
    /\ (_getRealPathFromNormalizedModuleID host moduleID = Some (path source)
        <-> JsString.contains (path_delimiter host) (path source) = false).
Proof.
  intros Hdelim Hcore Hform Hjs.
  eexists. split.
  { unfold _getNormalizedModuleID. rewrite Hcore, Hform, Hjs. simpl.
    rewrite Hjs. simpl. reflexivity. }
  assert (Huser : JsString.contains (path_delimiter host) "user" = false)
    by (destruct Hdelim as [-> | ->]; reflexivity).
  split.
  - intros Hback. unfold _getRealPathFromNormalizedModuleID in Hback.
    change (String (path_delimiter host) "" +:+ ?r)
      with (String (path_delimiter host) r) in Hback.
    rewrite split_segment in Hback by exact Huser.
    destruct (split_head_free (path_delimiter host)
                (path source
                 +:+ String (path_delimiter host) ""
                 +:+ JsString.orNull
                       (option_map path
                          (_getResource host config resourceMap JSMock
                             moduleName))))
      as (h & t & Hsplit & Hfree).
    rewrite Hsplit in Hback. simpl in Hback. inversion Hback; subst.
    exact Hfree.
  - intros Hfree. now apply realPath_of_moduleID.
Qed.

Lemma lookupKey_set {V} (o : list (string * V)) (k k' : string) (v : V) :
  lookupKey (JsObject.set o k v) k'
  = if String.eqb k k' then Some v else lookupKey o k'.
Proof.
  induction o as [|[k0 v0] o IH]; simpl.
  - reflexivity.
  - destruct (String.eqb_spec k0 k) as [->|Hne]; simpl.
    + destruct (String.eqb k k'); reflexivity.
    + rewrite IH. destruct (String.eqb_spec k0 k') as [->|Hne'];
        [|reflexivity].
      destruct (String.eqb_spec k k'); [congruence | reflexivity].
Qed.

Lemma lookupKey_In {V} (o : list (string * V)) (k : string) :
  (exists v, In (k, v) o) <-> lookupKey o k <> None.
Proof.
  induction o as [|[k0 v0] o IH]; simpl.
  - split; [intros (v & []) | congruence].
  - destruct (String.eqb_spec k0 k) as [->|Hne].
    + split; [discriminate | eauto].
    + rewrite <- IH. split.
      * intros (v & [Heq|Hin]); [inversion Heq; congruence | eauto].
      * intros (v & Hin). eauto.
Qed.

Lemma insertIndex_In {V} (n : N) (e : string * V)
    (l : list (N * (string * V))) (x : N * (string * V)) :
  In x (JsObject.insertIndex n e l) <-> x = (n, e) \/ In x l.
Proof.
  induction l as [|[m e'] l IH]; simpl.
  - split; intros [H|H]; auto; contradiction.
  - destruct (n <? m)%N; simpl; [intuition congruence|].
    rewrite IH. intuition congruence.
Qed.

Lemma indexEntries_In {V} (o : list (string * V)) (n : N) (e : string * V) :
  In (n, e) (JsObject.indexEntries o)
  <-> In e o /\ JsObject.arrayIndex (fst e) = Some n.
Proof.
  induction o as [|[k v] o IH]; simpl.
  - tauto.
  - destruct (JsObject.arrayIndex k) as [m|] eqn:Hk.
    + rewrite insertIndex_In, IH. split.
      * intros [Heq|[Hin Hidx]]; [|auto].
        inversion Heq; subst. simpl. auto.
      * intros [[Heq|Hin] Hidx]; [|auto].
        subst e. simpl in Hidx. left. congruence.
    + rewrite IH. split; [tauto|].
      intros [[Heq|Hin] Hidx]; [|auto].
      subst e. simpl in Hidx. congruence.
Qed.

Lemma forIn_In {V} (o : list (string * V)) (e : string * V) :
  In e (JsObject.forIn o) <-> In e o.
Proof.
  unfold JsObject.forIn, JsObject.namedEntries.
  rewrite in_app_iff, in_map_iff, filter_In. split.
  - intros [([n e'] & Heq & Hin)|[Hin _]]; [|exact Hin].
    simpl in Heq. subst e'. now apply indexEntries_In in Hin.
  - intros Hin. destruct (JsObject.arrayIndex (fst e)) as [n|] eqn:Hidx.
    + left. exists (n, e). split; [reflexivity|]. now apply indexEntries_In.
    + right. auto.
Qed.

Lemma keysOf_In {V} (o : list (string * V)) (k : string) :
  In k (keysOf o) <-> lookupKey o k <> None.
Proof.
  unfold keysOf. rewrite in_map_iff, <- lookupKey_In. split.
  - intros ([k' v] & Heq & Hin). simpl in Heq. subst k'.
    exists v. now apply forIn_In.
  - intros (v & Hin). exists (k, v). split; [reflexivity|].
    now apply forIn_In.
Qed.

Lemma set_keys_NoDup {V} (o : list (string * V)) (k : string) (v : V) :
  NoDup (List.map fst o) -> NoDup (List.map fst (JsObject.set o k v)).
Proof.
  intros Hnd. induction o as [|[k0 v0] o IH]; simpl.
  - apply NoDup_cons. split; [apply not_elem_of_nil | apply NoDup_nil_2].
  - simpl in Hnd. apply NoDup_cons in Hnd as [Hnotin Hnd].
    destruct (String.eqb_spec k0 k) as [->|Hne]; simpl.
    + apply NoDup_cons. auto.
    + apply NoDup_cons. split; [|auto].
      intros Hin. apply list_elem_of_In, in_map_iff in Hin
        as ([k1 v1] & Heq & Hin).
      simpl in Heq. subst k1.
      assert (Hlook : lookupKey (JsObject.set o k v) k0 <> None)
        by (apply lookupKey_In; eauto).
      rewrite lookupKey_set in Hlook.
      destruct (String.eqb_spec k k0); [congruence|].
      apply lookupKey_In in Hlook as (v2 & Hin2).
      apply Hnotin. apply list_elem_of_In, in_map_iff.
      exists (k0, v2). auto.
Qed.

Lemma lookupKey_of_In {V} (o : list (string * V)) (k : string) (v : V) :
  NoDup (List.map fst o) -> In (k, v) o -> lookupKey o k = Some v.
Proof.
  induction o as [|[k0 v0] o IH]; simpl; intros Hnd Hin; [contradiction|].
  apply NoDup_cons in Hnd as [Hnotin Hnd].
  destruct Hin as [Heq|Hin].
  - inversion Heq; subst. now rewrite String.eqb_refl.
  - destruct (String.eqb_spec k0 k) as [->|Hne]; [|auto].
    exfalso. apply Hnotin. apply list_elem_of_In, in_map_iff.
    exists (k, v). auto.
Qed.

Lemma table_holds_last_pattern (mapper acc : list (string * string))
    (canonical : string) :
  lookupKey
    (fold_left (fun o map => JsObject.set o (snd map) (fst map)) mapper acc)
    canonical
  = match lastPatternFor mapper canonical with
    | Some pattern => Some pattern
    | None => lookupKey acc canonical
    end.
Proof.
  revert acc. induction mapper as [|[p c] mapper IH]; intros acc; simpl.
  - reflexivity.
  - rewrite IH. destruct (lastPatternFor mapper canonical); [reflexivity|].
    simpl. rewrite lookupKey_set.
    destruct (String.eqb c canonical); reflexivity.
Qed.

Lemma table_keys_NoDup (mapper acc : list (string * string)) :
  NoDup (List.map fst acc) ->
  NoDup (List.map fst
           (fold_left (fun o map => JsObject.set o (snd map) (fst map))
                      mapper acc)).
Proof.
  revert acc. induction mapper as [|[p c] mapper IH]; intros acc Hnd; simpl.
  - exact Hnd.
  - apply IH. now apply set_keys_NoDup.
Qed.

(** X19: the table of mapped names is keyed by canonical name, so of the
    mappings declared for one canonical name only the last keeps its
    pattern: a name is mapped to a canonical name only if the pattern of
    the last mapping declared for that canonical name matches it, and
    whenever such a last pattern matches, the name is mapped. *)
Theorem later_mapping_replaces_pattern (moduleName : string) :
  (forall canonical,
      _resolveStubModuleName host config moduleName = Some canonical ->
      exists pattern,
        lastPatternFor (moduleNameMapper config) canonical = Some pattern
        /\ RegExp_test host pattern moduleName = true)
  /\ (forall canonical pattern,
         lastPatternFor (moduleNameMapper config) canonical = Some pattern ->
         RegExp_test host pattern moduleName = true ->
         _resolveStubModuleName host config moduleName <> None).
Proof.
  unfold _resolveStubModuleName, _mappedModuleNames.
  pose proof (table_keys_NoDup (moduleNameMapper config) [] (NoDup_nil_2))
    as Hnd.
  pose proof (table_holds_last_pattern (moduleNameMapper config) [])
    as Hlast.
  set (table := fold_left (fun o map => JsObject.set o (snd map) (fst map))
                          (moduleNameMapper config) []) in *.
  split.
  - intros canonical H.
    destruct (List.find _ (JsObject.forIn table)) as [[k pattern]|] eqn:Hfind;
      [|discriminate].
    inversion H; subst k.
    apply find_some in Hfind as [Hin Htest]. simpl in Htest.
    apply (proj1 (forIn_In _ _)) in Hin.
    pose proof (lookupKey_of_In table canonical pattern Hnd Hin) as Hlook.
    rewrite Hlast in Hlook. simpl in Hlook.
    destruct (lastPatternFor (moduleNameMapper config) canonical);
      [|discriminate].
    inversion Hlook; subst. eauto.
  - intros canonical pattern Hpattern Htest.
    destruct (List.find _ (JsObject.forIn table)) as [[k p]|] eqn:Hfind;
      [discriminate|].
    exfalso.
    assert (Hlook : lookupKey table canonical = Some pattern)
      by (rewrite Hlast, Hpattern; reflexivity).
    assert (Hin : In (canonical, pattern) (JsObject.forIn table)).
    { apply forIn_In.
      assert (Hsome : lookupKey table canonical <> None) by congruence.
      apply lookupKey_In in Hsome as (v & Hin).
      rewrite (lookupKey_of_In table canonical v Hnd Hin) in Hlook.
      inversion Hlook; subst. exact Hin. }
    pose proof (find_none _ _ Hfind _ Hin) as Hnone. simpl in Hnone.
    congruence.
Qed.

Lemma insertIndex_Permutation {V} (n : N) (e : string * V)
    (l : list (N * (string * V))) :
  Permutation.Permutation (JsObject.insertIndex n e l) ((n, e) :: l).
Proof.
  induction l as [|[m e'] l IH]; simpl; [reflexivity|].
  destruct (n <? m)%N; [reflexivity|].
  rewrite IH. apply Permutation.perm_swap.
Qed.

Lemma forIn_Permutation {V} (o : list (string * V)) :
  Permutation.Permutation (JsObject.forIn o) o.
Proof.
  unfold JsObject.forIn, JsObject.namedEntries.
  induction o as [|[k v] o IH]; simpl; [reflexivity|].
  destruct (JsObject.arrayIndex k) as [n|].
  - rewrite (Permutation.Permutation_map snd
               (insertIndex_Permutation n (k, v) (JsObject.indexEntries o))).
    simpl. now rewrite IH.
  - rewrite <- Permutation.Permutation_middle. now rewrite IH.
Qed.

(** ** The dependents of a file *)

Lemma addDependent_lists (resourcePath : string)
    (reverseDepMap : list (string * list (string * bool)))
    (entry : option string) (modulePath dependent : string) :
  listsDependent (addDependent resourcePath reverseDepMap entry)
                 modulePath dependent
  <-> listsDependent reverseDepMap modulePath dependent
      \/ (propertyKey entry = modulePath /\ dependent = resourcePath).
Proof.
  unfold listsDependent, addDependent.
  destruct (lookupKey reverseDepMap (propertyKey entry)) as [inner|] eqn:Hkey.
  - rewrite Hkey. split.
    + intros (dependents & Hlook & Hin). rewrite lookupKey_set in Hlook.
      destruct (String.eqb_spec (propertyKey entry) modulePath) as [Heq|Hne].
      * inversion Hlook; subst dependents. rewrite lookupKey_set in Hin.
        destruct (String.eqb_spec resourcePath dependent) as [<-|Hne'].
        -- right. auto.
        -- left. exists inner. rewrite <- Heq. auto.
      * left. eauto.
    + intros [(dependents & Hlook & Hin)|[Heq ->]].
      * destruct (String.eqb_spec (propertyKey entry) modulePath) as [Heq|Hne].
        -- exists (JsObject.set inner resourcePath true).
           rewrite !lookupKey_set.
           destruct (String.eqb_spec (propertyKey entry) modulePath);
             [|contradiction].
           split; [reflexivity|].
           destruct (String.eqb resourcePath dependent); [discriminate|].
           rewrite <- Heq in Hlook. congruence.
        -- exists dependents. rewrite lookupKey_set.
           destruct (String.eqb_spec (propertyKey entry) modulePath);
             [contradiction | auto].
      * exists (JsObject.set inner resourcePath true). rewrite !lookupKey_set.
        destruct (String.eqb_spec (propertyKey entry) modulePath);
          [|contradiction].
        split; [reflexivity|]. now rewrite String.eqb_refl.
  - rewrite lookupKey_set, String.eqb_refl. split.
    + intros (dependents & Hlook & Hin). rewrite !lookupKey_set in Hlook.
      destruct (String.eqb_spec (propertyKey entry) modulePath) as [Heq|Hne].
      * injection Hlook as Hd. rewrite <- Hd in Hin. simpl in Hin.
        destruct (String.eqb_spec resourcePath dependent) as [<-|Hne'].
        -- right. auto.
        -- contradiction.
      * left. eauto.
    + intros [(dependents & Hlook & Hin)|[Heq ->]].
      * destruct (String.eqb_spec (propertyKey entry) modulePath) as [Heq|Hne];
          [congruence|].
        exists dependents. rewrite !lookupKey_set.
        destruct (String.eqb_spec (propertyKey entry) modulePath);
          [contradiction | auto].
      * exists (JsObject.set [] resourcePath true). rewrite !lookupKey_set.
        destruct (String.eqb_spec (propertyKey entry) modulePath);
          [|contradiction].
        split; [reflexivity|]. now rewrite String.eqb_refl.
Qed.

Lemma addDependent_once (resourcePath : string)
    (reverseDepMap : list (string * list (string * bool)))
    (entry : option string) :
  dependentsOnce reverseDepMap ->
  dependentsOnce (addDependent resourcePath reverseDepMap entry).
Proof.
  unfold dependentsOnce, addDependent. intros Honce modulePath dependents.
  destruct (lookupKey reverseDepMap (propertyKey entry)) as [inner|] eqn:Hkey.
  - rewrite Hkey, lookupKey_set.
    destruct (String.eqb (propertyKey entry) modulePath); [|apply Honce].
    intros H. inversion H; subst. apply set_keys_NoDup. eauto.
  - rewrite lookupKey_set, String.eqb_refl, !lookupKey_set.
    destruct (String.eqb (propertyKey entry) modulePath); [|apply Honce].
    intros H. injection H as <-.
    apply (set_keys_NoDup (V:=bool) [] resourcePath true). apply NoDup_nil_2.
Qed.

Lemma addDependents_lists (resourcePath : string)
    (dependencyPaths : list (option string))
    (reverseDepMap : list (string * list (string * bool)))
    (modulePath dependent : string) :
  listsDependent
    (fold_left (addDependent resourcePath) dependencyPaths reverseDepMap)
    modulePath dependent
  <-> listsDependent reverseDepMap modulePath dependent
      \/ (dependent = resourcePath
          /\ exists entry,
               In entry dependencyPaths /\ propertyKey entry = modulePath).
Proof.
  revert reverseDepMap.
  induction dependencyPaths as [|entry rest IH]; intros reverseDepMap; simpl.
  - split; [auto|]. intros [H|[_ (entry & [] & _)]]. exact H.
  - rewrite IH, addDependent_lists. split.
    + intros [[H|[Hkey ->]]|[-> (e & Hin & Hkey)]]; eauto 8.
    + intros [H|[-> (e & [<-|Hin] & Hkey)]]; eauto 8.
Qed.

Lemma addDependents_once (resourcePath : string)
    (dependencyPaths : list (option string))
    (reverseDepMap : list (string * list (string * bool))) :
  dependentsOnce reverseDepMap ->
  dependentsOnce
    (fold_left (addDependent resourcePath) dependencyPaths reverseDepMap).
Proof.
  revert reverseDepMap.
  induction dependencyPaths as [|entry rest IH]; intros reverseDepMap Honce;
    simpl; [exact Honce|].
  apply IH. now apply addDependent_once.
Qed.

Lemma scanResources_lists (resources : list HasteResource)
    (reverseDepMap : list (string * list (string * bool))) :
  (forall resource,
      In resource resources ->
      _getDependencyPathsFromResource host config resourceMap depth resource
      <> Diverge) ->
  dependentsOnce reverseDepMap ->
  exists built,
    scanResources host config resourceMap depth resources reverseDepMap
    = (Ok tt, built)
    /\ dependentsOnce built
    /\ forall modulePath dependent,
         listsDependent built modulePath dependent
         <-> listsDependent reverseDepMap modulePath dependent
             \/ exists resource,
                  In resource resources
                  /\ path resource = dependent
                  /\ dependsOn host config resourceMap depth resource
                              modulePath.
Proof.
  revert reverseDepMap.
  induction resources as [|resource rest IH]; intros reverseDepMap Hends Honce.
  - exists reverseDepMap. split; [reflexivity|]. split; [exact Honce|].
    intros modulePath dependent. split; [auto|].
    intros [H|(r & [] & _)]. exact H.
  - assert (Hrest : forall r, In r rest ->
              _getDependencyPathsFromResource host config resourceMap depth r
              <> Diverge) by (intros r Hr; apply Hends; now right).
    assert (Hskip : type resource = ProjectConfiguration
                    \/ type resource = OtherResource ->
              forall modulePath,
                ~ dependsOn host config resourceMap depth resource modulePath).
    { intros [Ht|Ht] modulePath (H1 & H2 & _); contradiction. }
    assert (Hskipped :
              type resource = ProjectConfiguration
              \/ type resource = OtherResource ->
              exists built,
                scanResources host config resourceMap depth rest reverseDepMap
                = (Ok tt, built)
                /\ dependentsOnce built
                /\ forall modulePath dependent,
                     listsDependent built modulePath dependent
                     <-> listsDependent reverseDepMap modulePath dependent
                         \/ exists r,
                              In r (resource :: rest)
                              /\ path r = dependent
                              /\ dependsOn host config resourceMap depth r
                                          modulePath).
    { intros Ht. destruct (IH reverseDepMap Hrest Honce)
        as (built & Hscan & Hbuilt & Hlists).
      exists built. split; [exact Hscan|]. split; [exact Hbuilt|].
      intros modulePath dependent. rewrite Hlists. split.
      - intros [H|(r & Hin & Hp & Hd)]; [auto|]. right. exists r.
        split; [now right | auto].
      - intros [H|(r & [<-|Hin] & Hp & Hd)]; [auto| |eauto].
        exfalso. exact (Hskip Ht modulePath Hd). }
    assert (Hscanned :
              type resource <> ProjectConfiguration ->
              type resource <> OtherResource ->
              exists built,
                match _getDependencyPathsFromResource host config resourceMap
                        depth resource with
                | Ok dependencyPaths =>
                    scanResources host config resourceMap depth rest
                      (fold_left (addDependent (path resource)) dependencyPaths
                                 reverseDepMap)
                | Throw e => (Throw e, reverseDepMap)
                | Diverge => (Diverge, reverseDepMap)
                end = (Ok tt, built)
                /\ dependentsOnce built
                /\ forall modulePath dependent,
                     listsDependent built modulePath dependent
                     <-> listsDependent reverseDepMap modulePath dependent
                         \/ exists r,
                              In r (resource :: rest)
                              /\ path r = dependent
                              /\ dependsOn host config resourceMap depth r
                                          modulePath).
    { intros Ht1 Ht2.
      destruct (_getDependencyPathsFromResource host config resourceMap depth
                  resource) as [dependencyPaths|e|] eqn:Hdeps.
      - destruct (IH (fold_left (addDependent (path resource)) dependencyPaths
                                reverseDepMap) Hrest
                     (addDependents_once _ _ _ Honce))
          as (built & Hscan & Hbuilt & Hlists).
        exists built. split; [exact Hscan|]. split; [exact Hbuilt|].
        intros modulePath dependent.
        rewrite Hlists, addDependents_lists. split.
        + intros [[H|[-> (entry & Hin & Hkey)]]|(r & Hin & Hp & Hd)].
          * auto.
          * right. exists resource. split; [now left|]. split; [reflexivity|].
            split; [exact Ht1|]. split; [exact Ht2|].
            exists dependencyPaths, entry. auto.
          * right. exists r. split; [now right | auto].
        + intros [H|(r & [<-|Hin] & Hp & Hd)]; [auto| |eauto].
          left. right. split; [now symmetry|].
          destruct Hd as (_ & _ & paths & entry & Hpaths & Hin & Hkey).
          rewrite Hdeps in Hpaths. inversion Hpaths; subst. eauto.
      - exfalso. unfold _getDependencyPathsFromResource in Hdeps.
        exact (proj1 (dependencyPathsFrom_outcome _ _ _) e Hdeps).
      - exfalso. apply (Hends resource); [now left | exact Hdeps]. }
    simpl. destruct (type resource) eqn:Htype;
      first [ apply Hskipped; auto; fail
            | apply Hscanned; discriminate ].
Qed.

(** X20: [getDependentsFromPath] inverts the dependency lists: the first
    call scans every resource that is neither a project configuration
    nor a plain resource, and answers with the paths of exactly those
    whose dependency paths include the asked path, each named once.
    The map it built is kept, and a later call answers from it without
    looking at the resources again.  The asked path is any but
    [__proto__], which a plain object does not keep as a key of its
    own. *)
Theorem getDependentsFromPath_inverts_dependencies
    (allResources : list HasteResource) (modulePath : string) :
  modulePath <> "__proto__" ->
  (forall resource,
      In resource allResources ->
      _getDependencyPathsFromResource host config resourceMap depth resource
      <> Diverge) ->
  exists dependents memo,
    getDependentsFromPath host config resourceMap depth allResources None
                          modulePath
    = (Ok dependents, Some memo)
    /\ (forall dependent,
           In dependent dependents
           <-> exists resource,
                 In resource allResources
                 /\ path resource = dependent
                 /\ dependsOn host config resourceMap depth resource
                             modulePath)
    /\ NoDup dependents
    /\ (forall laterResources,
           getDependentsFromPath host config resourceMap depth laterResources
                                 (Some memo) modulePath
           = (Ok dependents, Some memo)).
Proof.
  intros _ Hends.
  assert (Hempty : dependentsOnce []) by (intros p d H; discriminate).
  destruct (scanResources_lists allResources [] Hends Hempty)
    as (built & Hscan & Hbuilt & Hlists).
  unfold getDependentsFromPath. rewrite Hscan.
  eexists. exists built. split; [reflexivity|].
  split; [|split; [|reflexivity]].
  - intros dependent.
    transitivity (listsDependent built modulePath dependent).
    + unfold listsDependent.
      destruct (lookupKey built modulePath) as [reverseDeps|].
      * rewrite keysOf_In. split; [eauto|].
        intros (d & Hd & Hin). inversion Hd; subst. exact Hin.
      * split; [intros [] | intros (d & Hd & _); discriminate].
    + rewrite Hlists. split; [|auto].
      intros [(d & Hd & _)|H]; [discriminate | exact H].
  - destruct (lookupKey built modulePath) as [reverseDeps|] eqn:Hlook;
      [|apply NoDup_nil_2].
    unfold keysOf.
    rewrite (Permutation.Permutation_map fst (forIn_Permutation reverseDeps)).
    exact (Hbuilt _ _ Hlook).
Qed.

(** ** Packages found through their manifest *)

Lemma split_nonempty (d : ascii) (s : string) : JsString.split d s <> [].
Proof.
  destruct (split_head_free d s) as (h & t & Hsplit & _). congruence.
Qed.

Lemma join_split (s : string) :
  JsString.join "/" (JsString.split "/" s) = s.
Proof.
  induction s as [|a s IH]; simpl; [reflexivity|].
  pose proof (split_nonempty "/" s) as Hne.
  destruct (Ascii.eqb_spec a "/") as [->|Hne'].
  - destruct (JsString.split "/" s) as [|q qs]; [contradiction|].
    change (JsString.join "/" ("" :: q :: qs))
      with ("" +:+ "/" +:+ JsString.join "/" (q :: qs)).
    rewrite IH. reflexivity.
  - destruct (JsString.split "/" s) as [|q qs]; [contradiction|].
    destruct qs as [|q' qs].
    + simpl in *. now rewrite IH.
    + change (JsString.join "/" (String a q :: q' :: qs))
        with (String a (q +:+ "/" +:+ JsString.join "/" (q' :: qs))).
      change (JsString.join "/" (q :: q' :: qs))
        with (q +:+ "/" +:+ JsString.join "/" (q' :: qs)) in IH.
      now rewrite IH.
Qed.

Lemma prefix_index (p s : string) :
  String.prefix p s = true -> String.index 0 p s = Some 0.
Proof.
  destruct s as [|a s]; simpl.
  - destruct p; [reflexivity | discriminate].
  - destruct p as [|b p]; [reflexivity|].
    intros H. simpl. now rewrite H.
Qed.

(** X21: a package that node's resolution does not find is looked up by the
    name in its manifest.  When the directory of the manifest is the
    directory of the importing file or lies below it, the manifest is
    used: a request for the package itself goes on to its [main] entry,
    [index.js] when it declares none, a request for a path inside the
    package goes on to that path, both resolved from the manifest. *)
Theorem package_below_importer_uses_manifest (fuel : nat)
    (currPath package : string) (inside : option string)
    (manifest : HasteResource) :
  let moduleName :=
    match inside with
    | Some subPath => package +:+ "/" +:+ subPath
    | None => package
    end in
  JsString.contains "/" package = false ->
  _getResource host config resourceMap JS moduleName = None ->
  resolve_sync host (path_dirname host currPath) moduleName = None ->
  _nodeModuleProjectConfigNameToResource resourceMap package = Some manifest ->
  JsString.startsWith (path_dirname host currPath)
                      (path_dirname host (path manifest)) = true ->
  _moduleNameToPath_at host config resourceMap (S fuel) currPath moduleName
  = _moduleNameToPath_at host config resourceMap fuel (path manifest)
      ("./" +:+ match inside with
                | Some subPath => subPath
                | None =>
                    match data_main manifest with
                    | Some main => main
                    | None => "index.js"
                    end
                end).
Proof.
  intros moduleName Hpackage Hjs Hresolve Hmanifest Hbelow.
  assert (Hindex : JsString.indexOfPositive (path_dirname host currPath)
                     (path_dirname host (path manifest)) = false).
  { unfold JsString.indexOfPositive.
    now rewrite (prefix_index _ _ Hbelow). }
  change (_moduleNameToPath_at host config resourceMap (S fuel) currPath
            moduleName)
    with (match _getResource host config resourceMap JS moduleName with
          | Some resource => Ok (path resource)
          | None =>
              _nodeModuleNameToPath_ host resourceMap
                (_moduleNameToPath_at host config resourceMap fuel)
                currPath moduleName
          end).
  rewrite Hjs. unfold _nodeModuleNameToPath_, projectParts.
  rewrite Hresolve.
  destruct inside as [subPath|]; subst moduleName.
  - assert (Hslash : JsString.contains "/" (package +:+ "/" +:+ subPath)
                     = true).
    { clear. induction package as [|a package IH]; simpl; [reflexivity|].
      destruct (Ascii.eqb a "/"); [reflexivity | exact IH]. }
    rewrite Hslash.
    change ("/" +:+ subPath) with (String "/" subPath).
    rewrite split_segment by exact Hpackage.
    rewrite Hmanifest, Hindex, join_split. reflexivity.
  - rewrite Hpackage, Hmanifest, Hindex. reflexivity.
Qed.

End Properties.

(** * The properties on the project of [Scenario] *)

Import Scenario.

(** C5: a property of the global object carries the flag of a mock
    function and has no [mockClear]; [resetModuleRegistry] throws a
    [TypeError] at it, with the registries already replaced, the mock
    function listed after it not cleared and the [mockClearTimers] hook
    not invoked.  And a mock function held by a property that
    [Object.keys] does not list is not cleared by a reset that
    returns. *)
Lemma resetModuleRegistry_skips_mock_functions :
  let hidden := [("hiddenSpy", GFunction true true [4]%Z)] in
  let flagged :=
    {| properties := [("spy", GFunction true true [1; 2]%Z);
                      ("fake", GObject true false []);
                      ("late", GFunction true true [3]%Z)];
       unlisted := hidden;
       mockClearTimers := Hook 0 |} in
  let loaded := snd (run node plain project 3 20 (CallRequireModule test "A")
                         fresh) in
  let thrown := resetModuleRegistry (with_global (Some flagged) loaded) in
  let plainGlobal :=
    {| properties := [("spy", GFunction true true [1; 2]%Z)];
       unlisted := hidden;
       mockClearTimers := Hook 0 |} in
  let returned := resetModuleRegistry (with_global (Some plainGlobal) loaded) in
  _moduleRegistry loaded !! "/proj/a.js" = Some 0
  /\ fst thrown = Throw (TypeError "globalMock.mockClear")
  /\ _moduleRegistry (snd thrown) = ∅
  /\ global (snd thrown)
     = Some {| properties := [("spy", GFunction true true []);
                              ("fake", GObject true false []);
                              ("late", GFunction true true [3]%Z)];
               unlisted := hidden;
               mockClearTimers := Hook 0 |}
  /\ fst returned = Ok tt
  /\ global (snd returned)
     = Some {| properties := [("spy", GFunction true true [])];
               unlisted := hidden;
               mockClearTimers := Hook 1 |}.
Proof. vm_compute. repeat split. Qed.

(** C1: the executor evaluates the file of the manual mock [M] twice in
    one registry generation, once for [requireMock] and once for
    [requireModule], which takes the manual mock for the missing
    source. *)
Lemma manual_mock_evaluated_twice :
  let s1 := snd (run node plain project 3 20 (CallRequireMock test "M") fresh) in
  let s2 := snd (run node plain project 3 20 (CallRequireModule test "M") s1) in
  evaluations s2 = [(0, "/proj/__mocks__/M.js", RealModule);
                    (0, "/proj/__mocks__/M.js", ManualMock)]
  /\ generation fresh = 0 /\ generation s1 = 0 /\ generation s2 = 0
  /\ ~ NoDup (List.map fst (evaluations s2)).
Proof.
  intros s1 s2.
  assert (Hev : evaluations s2 = [(0, "/proj/__mocks__/M.js", RealModule);
                                  (0, "/proj/__mocks__/M.js", ManualMock)])
    by (vm_compute; reflexivity).
  split; [exact Hev|]. do 3 (split; [vm_compute; reflexivity|]).
  rewrite Hev. simpl. intros Hnd. apply NoDup_cons in Hnd as [Hnotin _].
  apply Hnotin. left.
Qed.

Lemma real_modules_evaluate_once_witness :
  let during := entered 0 (freshModule "/proj/a.js")
                        (preallocated "/proj/a.js" fresh) in
  let after := snd (run node plain project 3 20
                        (CallBlock "/proj/a.js" 0
                           [SExport "early" 1; SRequireActual "B";
                            SExport "late" 2]) during) in
  reachable node plain project 3 after
  /\ evaluations after = [(0, "/proj/b.js", RealModule);
                          (0, "/proj/a.js", RealModule)]
  /\ NoDup (realEvaluations after)
  /\ requireModule node plain project 3 (run node plain project 3 5)
       "/proj/b.js" "A" during
     = (Ok (VExportsOf 0), during).
Proof.
  intros during after.
  assert (Hduring : reachable node plain project 3 during).
  { apply (reach_enter_real node plain project 3 "/proj/a.js" fresh).
    - apply reach_constructor.
    - reflexivity. }
  assert (Hafter : reachable node plain project 3 after)
    by (apply reach_call; exact Hduring).
  split; [exact Hafter|]. split; [vm_compute; reflexivity|].
  split;
    [exact (proj1 (real_modules_evaluate_once node plain project 3 after Hafter))|].
  destruct (proj1 (proj2 (proj2
              (real_modules_evaluate_once node plain project 3 during Hduring)))
              (run node plain project 3 5) "/proj/b.js" "A" "/proj/a.js" 0)
    as (record & Hrecord & _ & Hhit).
  - repeat split; try (vm_compute; reflexivity).
    + exists "user:/proj/a.js:null". vm_compute. reflexivity.
    + left. vm_compute. discriminate.
    + discriminate.
  - vm_compute. reflexivity.
  - rewrite Hhit. vm_compute in Hrecord. inversion Hrecord. reflexivity.
Defined.

(** C2: the top level of [Bad] throws; [_execModule] lets the exception
    through with the module path and the manual-mock flag still set to
    the file of [Bad], not to what they were before the call. *)
Lemma _execModule_throw_keeps_state :
  let s := preallocated "/proj/bad.js" fresh in
  let r := _execModule node (run node plain project 3 10) 0 s in
  fst r = Throw (HostError "boom")
  /\ _currentlyExecutingModulePath s = ""
  /\ _currentlyExecutingModulePath (snd r) = "/proj/bad.js"
  /\ _isCurrentlyExecutingManualMock s = None
  /\ _isCurrentlyExecutingManualMock (snd r) = Some "/proj/bad.js".
Proof. vm_compute. repeat split. Qed.

Lemma _execModule_restores_on_return_witness :
  let s := preallocated "/proj/a.js" fresh in
  let r := _execModule node (run node plain project 3 10) 0 s in
  fst r = Ok tt
  /\ evaluations (snd r) = [(0, "/proj/b.js", RealModule);
                            (0, "/proj/a.js", RealModule)]
  /\ _currentlyExecutingModulePath (snd r) = _currentlyExecutingModulePath s
  /\ _isCurrentlyExecutingManualMock (snd r) = _isCurrentlyExecutingManualMock s.
Proof.
  intros s r.
  assert (Hok : fst r = Ok tt) by (vm_compute; reflexivity).
  split; [exact Hok|]. split; [vm_compute; reflexivity|].
  refine (proj1 (_execModule_restores_on_return node
                   (run node plain project 3 10) 0 s (snd r) (fst r) _) Hok).
  apply surjective_pairing.
Defined.

(** C3: with an unmock pattern configured, the first lookup of the
    assertion library under the vendor path answers real and leaves the
    decision mock in the cache, so the second lookup answers mock; with
    no unmock pattern the first lookup already answers mock. *)
Theorem vendor_decision_cached_as_mock :
  let first := _shouldMock node plain project 3 test "jasmine" fresh in
  let second := _shouldMock node plain project 3 test "jasmine" (snd first) in
  _moduleNameToPath node plain project 3 test "jasmine"
  = Ok "/jest/vendor/jasmine.js"
  /\ JsString.startsWith (VENDOR_PATH node) "/jest/vendor/jasmine.js" = true
  /\ fst first = Ok false
  /\ _configShouldMockModuleNames (snd first) !! "jasmine" = Some true
  /\ fst second = Ok true
  /\ fst (_shouldMock node bare project 3 test "jasmine" fresh) = Ok true.
Proof. vm_compute. repeat split. Qed.





Lemma explicit_override_dominates_witness :
  let off := snd (dontMock node plain project 3 test "A"
                    (snd (mock node plain project 3 test "A" fresh))) in
  let on := snd (mock node plain project 3 test "A"
                   (snd (dontMock node plain project 3 test "A" fresh))) in
  let r := run node plain project 3 20 (CallRequireModuleOrMock test "A") off in
  _getNormalizedModuleID node plain project 3 test "A" = Ok "user:/proj/a.js:null"
  /\ fst (_shouldMock node plain project 3 test "A" off) = Ok false
  /\ fst (_shouldMock node plain project 3 test "A" on) = Ok true
  /\ fst r = Ok (VExportsOf 0)
  /\ deliveredFrom (snd r) (VExportsOf 0) "/proj/a.js".
Proof.
  intros off on r.
  assert (Hid : _getNormalizedModuleID node plain project 3 test "A"
                = Ok "user:/proj/a.js:null") by (vm_compute; reflexivity).
  split; [exact Hid|].
  destruct (explicit_override_dominates node plain project 3 fresh 18 test "A"
              _ Hid)
    as (_ & (_ & Hreal & _ & _ & _ & _ & Hdelivered) & (_ & Hmock & _)).
  fold off in Hreal, Hdelivered. fold on in Hmock.
  rewrite Hreal, Hmock. split; [reflexivity|]. split; [reflexivity|].
  assert (Hok : fst r = Ok (VExportsOf 0)) by (vm_compute; reflexivity).
  split; [exact Hok|].
  apply (Hdelivered "/proj/a.js" (VExportsOf 0) (snd r)).
  - apply reach_constructor.
  - reflexivity.
  - vm_compute. reflexivity.
  - vm_compute. reflexivity.
  - rewrite <- Hok. apply surjective_pairing.
Defined.

(** C7: the name [M] has a manual mock and no source.  A request for it
    is answered with the manual mock; after [jest.mock("M")] then
    [jest.dontMock("M")] the policy answers real and the request leaves
    with the module-not-found error of the resolver: nothing is
    delivered. *)
Lemma dontMock_of_a_manual_mock_delivers_nothing :
  let off := snd (dontMock node plain project 3 test "M"
                    (snd (mock node plain project 3 test "M" fresh))) in
  _getResource node plain project JS "M" = None
  /\ option_map path (_getResource node plain project JSMock "M")
     = Some "/proj/__mocks__/M.js"
  /\ fst (run node plain project 3 20 (CallRequireModuleOrMock test "M") fresh)
     = Ok (VExportsOf 0)
  /\ fst (_shouldMock node plain project 3 test "M" off) = Ok false
  /\ fst (run node plain project 3 20 (CallRequireModuleOrMock test "M") off)
     = Throw (CannotFindModule "M" "/proj/t.js").
Proof. vm_compute. repeat split. Qed.






(** ** The further properties on the project and on the checkout *)

Lemma A_resolves : resolvesTo node plain project 3 test "A" "/proj/a.js".
Proof.
  repeat split; try (vm_compute; reflexivity).
  - exists "user:/proj/a.js:null". vm_compute. reflexivity.
  - left. vm_compute. discriminate.
  - discriminate.
Qed.

Lemma Broken_resolves :
  resolvesTo Checkout.disk plain Checkout.checkout 3 test "Broken"
             "/proj/broken.js".
Proof.
  repeat split; try (vm_compute; reflexivity).
  - exists "user:/proj/broken.js:null". vm_compute. reflexivity.
  - left. vm_compute. discriminate.
  - discriminate.
Qed.

Lemma setMock_then_require_witness :
  let installed := snd (setMock node plain project 3 test "A" (VNumber 7) fresh) in
  run node plain project 3 2 (CallRequireModuleOrMock test "A") installed
  = (Ok (VNumber 7), installed)
  /\ run node plain project 3 2 (CallRequireModuleOrMock test "A")
         (snd (resetModuleRegistry installed))
     = (Ok (VNumber 7), snd (resetModuleRegistry installed)).
Proof.
  apply (setMock_then_require node plain project 3 fresh 0 test "A"
           "user:/proj/a.js:null" (VNumber 7)).
  vm_compute. reflexivity.
Defined.

Lemma core_module_passes_through_witness :
  run node plain project 3 2 (CallRequireModuleOrMock test "fs") fresh
  = (Ok (VNative "fs"), fresh).
Proof.
  apply (core_module_passes_through node plain project 3 fresh 0 test "fs");
    vm_compute; reflexivity.
Defined.

Lemma _shouldMock_writes_one_cache_entry_witness :
  let r := _shouldMock node plain project 3 test "A" fresh in
  fst r = Ok true
  /\ _configShouldMockModuleNames (snd r) !! "A" = Some true
  /\ _explicitShouldMock (snd r) = _explicitShouldMock fresh
  /\ _explicitlySetMocks (snd r) = _explicitlySetMocks fresh
  /\ _mockMetaDataCache (snd r) = _mockMetaDataCache fresh
  /\ _shouldAutoMock (snd r) = _shouldAutoMock fresh
  /\ _mockRegistry (snd r) = _mockRegistry fresh
  /\ _moduleRegistry (snd r) = _moduleRegistry fresh
  /\ _currentlyExecutingModulePath (snd r) = _currentlyExecutingModulePath fresh
  /\ _isCurrentlyExecutingManualMock (snd r)
     = _isCurrentlyExecutingManualMock fresh
  /\ store (snd r) = store fresh
  /\ global (snd r) = global fresh
  /\ forall other,
      other <> "A" ->
      _configShouldMockModuleNames (snd r) !! other
      = _configShouldMockModuleNames fresh !! other.
Proof.
  intros r. split; [vm_compute; reflexivity|].
  split; [vm_compute; reflexivity|].
  apply (_shouldMock_writes_one_cache_entry node plain project 3 fresh (snd r)
           test "A" (fst r)).
  apply surjective_pairing.
Defined.

Lemma unmock_patterns_decide_witness :
  let decided :=
    with_configShouldMockModuleNames
      (<["Kept" := false]> (_configShouldMockModuleNames fresh)) fresh in
  _shouldMock Checkout.disk plain Checkout.checkout 3 test "Kept" fresh
  = (Ok false, decided)
  /\ _shouldMock Checkout.disk plain Checkout.checkout 3 test "Kept" decided
     = (Ok false, decided).
Proof.
  apply (unmock_patterns_decide Checkout.disk plain Checkout.checkout 3 fresh
           test "Kept" "user:/proj/keep/k.js:null" "/proj/keep/k.js"
           "/proj/keep/k.js");
    try (vm_compute; reflexivity).
  discriminate.
Defined.

Lemma _shouldMock_errors_witness :
  let r := _shouldMock Checkout.disk plain Checkout.checkout 3 test "Gone"
             fresh in
  fst r = Throw (HostError "realpathSync")
  /\ ((_getNormalizedModuleID Checkout.disk plain Checkout.checkout 3 test
         "Gone" = Throw (HostError "realpathSync") /\ snd r = fresh)
      \/ (exists modulePath,
            _moduleNameToPath Checkout.disk plain Checkout.checkout 3 test
              "Gone" = Ok modulePath
            /\ fs_realpathSync Checkout.disk modulePath = None
            /\ HostError "realpathSync" = HostError "realpathSync"
            /\ _configShouldMockModuleNames (snd r) !! "Gone" = Some true
            /\ _shouldMock Checkout.disk plain Checkout.checkout 3 test "Gone"
                 (snd r)
               = (Ok true, snd r))).
Proof.
  intros r. split; [vm_compute; reflexivity|].
  apply (_shouldMock_errors Checkout.disk plain Checkout.checkout 3 fresh
           (snd r) test "Gone" (HostError "realpathSync")).
  vm_compute. reflexivity.
Defined.

Lemma logical_name_override_applies_everywhere_witness :
  (exists moduleID,
      _getNormalizedModuleID node plain project 3 test "A" = Ok moduleID
      /\ _getNormalizedModuleID node plain project 3 "/proj/b.js" "A"
         = Ok moduleID)
  /\ fst (_shouldMock node plain project 3 "/proj/b.js" "A"
            (snd (mock node plain project 3 test "A" fresh)))
     = Ok true
  /\ fst (_shouldMock node plain project 3 "/proj/b.js" "A"
            (snd (dontMock node plain project 3 test "A" fresh)))
     = Ok false.
Proof.
  apply (logical_name_override_applies_everywhere node plain project 3 fresh
           test "/proj/b.js" "A").
  - vm_compute. reflexivity.
  - left. vm_compute. discriminate.
Defined.

Lemma files_outside_the_map_share_one_ID_witness :
  _getNormalizedModuleID Checkout.disk plain Checkout.checkout 3 test
    "./tools/one"
  = _getNormalizedModuleID Checkout.disk plain Checkout.checkout 3 test
      "./tools/two"
  /\ fst (_shouldMock Checkout.disk plain Checkout.checkout 3 test
            "./tools/two"
            (snd (dontMock Checkout.disk plain Checkout.checkout 3 test
                    "./tools/one" fresh)))
     = Ok false
  /\ fst (_shouldMock Checkout.disk plain Checkout.checkout 3 test
            "./tools/two"
            (snd (mock Checkout.disk plain Checkout.checkout 3 test
                    "./tools/one" fresh)))
     = Ok true
  /\ fst (run Checkout.disk plain Checkout.checkout 3 2
            (CallRequireModuleOrMock test "./tools/two")
            (snd (setMock Checkout.disk plain Checkout.checkout 3 test
                    "./tools/one" (VNumber 7) fresh)))
     = Ok (VNumber 7).
Proof.
  apply (files_outside_the_map_share_one_ID Checkout.disk plain
           Checkout.checkout 3 fresh 0
           test "./tools/one" "/proj/tools/one.js"
           test "./tools/two" "/proj/tools/two.js" (VNumber 7));
    vm_compute; reflexivity.
Defined.

Lemma autoMockOff_requests_are_real_witness :
  let off := with_shouldAutoMock false fresh in
  _shouldMock node plain project 3 test "A" off = (Ok false, off)
  /\ run node plain project 3 6 (CallRequireModuleOrMock test "A") off
     = run node plain project 3 5 (CallRequireModule test "A") off.
Proof.
  apply (autoMockOff_requests_are_real node plain project 3 fresh 5 test "A"
           "user:/proj/a.js:null");
    vm_compute; reflexivity.
Defined.

Lemma _generateMock_isolates_and_caches_witness :
  let r := _generateMock node plain project 3 (run node plain project 3 10)
             test "A" fresh in
  fst r = Ok (VGeneratedMock (Some ["early"; "late"]))
  /\ _moduleRegistry (snd r) = _moduleRegistry fresh
  /\ _mockRegistry (snd r) = _mockRegistry fresh
  /\ generation (snd r) = generation fresh
  /\ exists modulePath metadata,
      _moduleNameToPath node plain project 3 test "A" = Ok modulePath
      /\ _mockMetaDataCache (snd r) !! modulePath = Some metadata
      /\ VGeneratedMock (Some ["early"; "late"]) = VGeneratedMock metadata
      /\ forall self' t,
          _mockMetaDataCache t !! modulePath = Some metadata ->
          _generateMock node plain project 3 self' test "A" t
          = (Ok (VGeneratedMock (Some ["early"; "late"])), t).
Proof.
  intros r. split; [vm_compute; reflexivity|].
  apply (_generateMock_isolates_and_caches node plain project 3
           (run node plain project 3 10) fresh (snd r) test "A"
           (VGeneratedMock (Some ["early"; "late"]))).
  vm_compute. reflexivity.
Defined.

Lemma requireMock_is_cached_witness :
  let r := requireMock node plain project 3 (run node plain project 3 10)
             test "A" fresh in
  let mock := VGeneratedMock (Some ["early"; "late"]) in
  fst r = Ok mock
  /\ exists modulePath,
      mockRegistryPath node plain project 3 test "A" = Ok modulePath
      /\ _mockRegistry (snd r) !! modulePath = Some mock
      /\ (forall self' t,
             _explicitlySetMocks t !! "user:/proj/a.js:null" = None ->
             _mockRegistry t !! modulePath = Some mock ->
             requireMock node plain project 3 self' test "A" t = (Ok mock, t))
      /\ _mockRegistry (snd (resetModuleRegistry (snd r))) !! modulePath
         = None.
Proof.
  intros r mock. split; [vm_compute; reflexivity|].
  apply (requireMock_is_cached node plain project 3
           (run node plain project 3 10) fresh (snd r) test "A"
           "user:/proj/a.js:null" mock);
    vm_compute; reflexivity.
Defined.

Lemma automock_keeps_the_module_registry_witness :
  let r := run node plain project 3 12 (CallRequireMock test "A") fresh in
  fst r = Ok (VGeneratedMock (Some ["early"; "late"]))
  /\ _moduleRegistry (snd r) = _moduleRegistry fresh
  /\ generation (snd r) = generation fresh
  /\ exists modulePath,
      _moduleNameToPath node plain project 3 test "A" = Ok modulePath
      /\ _mockRegistry (snd r) !! modulePath
         = Some (VGeneratedMock (Some ["early"; "late"]))
      /\ forall other,
          other <> modulePath ->
          _mockRegistry (snd r) !! other = _mockRegistry fresh !! other.
Proof.
  intros r. split; [vm_compute; reflexivity|].
  apply (automock_keeps_the_module_registry node plain project 3 fresh (snd r)
           10 test "A" "user:/proj/a.js:null"
           (VGeneratedMock (Some ["early"; "late"])));
    vm_compute; reflexivity.
Defined.

Lemma registry_names_module_objects_witness :
  let s := snd (run node plain project 3 20 (CallRequireModule test "A")
                    fresh) in
  _moduleRegistry s !! "/proj/b.js" = Some 1
  /\ (forall modulePath moduleObj,
         _moduleRegistry s !! modulePath = Some moduleObj ->
         exists record,
           store s !! moduleObj = Some record
           /\ __filename record = modulePath)
  /\ (forall fuel call moduleObj record,
         store s !! moduleObj = Some record ->
         exists record',
           store (snd (run node plain project 3 fuel call s)) !! moduleObj
           = Some record'
           /\ __filename record' = __filename record).
Proof.
  intros s. split; [vm_compute; reflexivity|].
  apply (registry_names_module_objects node plain project 3 s).
  apply reach_call, reach_constructor.
Defined.

Lemma failed_module_stays_registered_witness :
  let failed :=
    requireModule Checkout.disk plain Checkout.checkout 3
      (run Checkout.disk plain Checkout.checkout 3 5) test "Broken" fresh in
  fst failed = Throw (HostError "boom")
  /\ _moduleRegistry (snd failed) !! "/proj/broken.js"
     = Some (length (store fresh))
  /\ (forall self',
         requireModule Checkout.disk plain Checkout.checkout 3 self' test
           "Broken" (snd failed)
         = (Ok (VExportsOf (length (store fresh))), snd failed))
  /\ (forall self' t moduleObj record,
         _moduleRegistry t !! "/proj/broken.js" = Some moduleObj ->
         store t !! moduleObj = Some record ->
         requireModule Checkout.disk plain Checkout.checkout 3 self' test
           "Broken" t
         = (Ok (valueOfExports moduleObj (exports record)), t))
  /\ (forall self',
         fst (requireModule Checkout.disk plain Checkout.checkout 3 self' test
                "Broken" (snd (resetModuleRegistry (snd failed))))
         = Throw (HostError "boom")).
Proof.
  apply (failed_module_stays_registered Checkout.disk plain Checkout.checkout 3
           (run Checkout.disk plain Checkout.checkout 3 5) fresh test "Broken"
           "/proj/broken.js" "boom");
    try (vm_compute; reflexivity).
  - exact Broken_resolves.
  - discriminate.
  - right. vm_compute. reflexivity.
Defined.

Lemma Addon_resolves :
  resolvesTo Checkout.disk plain Checkout.checkout 3 test "Addon"
             "/proj/addon.node".
Proof.
  repeat split; try (vm_compute; reflexivity).
  - exists "user:/proj/addon.node:null". vm_compute. reflexivity.
  - left. vm_compute. discriminate.
  - discriminate.
Qed.

Lemma disposed_environment_evaluates_nothing_witness :
  let disposed := constructor None in
  let r := requireModule node plain project 3 (run node plain project 3 5)
             test "A" disposed in
  let native :=
    requireModule Checkout.disk plain Checkout.checkout 3
      (run Checkout.disk plain Checkout.checkout 3 5) test "Addon" disposed in
  fst r = Ok (VExportsOf 0)
  /\ _moduleRegistry (snd r) !! "/proj/a.js" = Some 0
  /\ evaluations (snd r) = evaluations disposed
  /\ snd r = preallocated "/proj/a.js" disposed
  /\ fst native = Ok (VNative "/proj/addon.node").
Proof.
  intros disposed r native.
  destruct (disposed_environment_evaluates_nothing node plain project 3
              (run node plain project 3 5) disposed test "A" "/proj/a.js")
    as (Hvalue & Hregistered & Hevaluations & Hstate);
    try (vm_compute; reflexivity); [exact A_resolves|].
  fold r in Hvalue, Hregistered, Hevaluations, Hstate.
  split; [exact Hvalue|]. split; [exact Hregistered|].
  split; [exact Hevaluations|]. split; [apply Hstate; reflexivity|].
  exact (proj1 (disposed_environment_evaluates_nothing Checkout.disk plain
                  Checkout.checkout 3
                  (run Checkout.disk plain Checkout.checkout 3 5) disposed
                  test "Addon" "/proj/addon.node" eq_refl Addon_resolves
                  eq_refl)).
Defined.

Lemma reset_triggers_reevaluation_witness :
  let s := snd (run node plain project 3 20 (CallRequireModule test "A")
                    fresh) in
  let cleared := snd (resetModuleRegistry s) in
  let after := snd (run node plain project 3 20
                        (CallRequireModule test "A") cleared) in
  generation s = 0 /\ generation cleared = 1
  /\ In (generation cleared, "/proj/a.js", RealModule) (evaluations after)
  /\ (forall p o, ~ In (generation cleared, p, o) (evaluations s)).
Proof.
  intros s cleared after.
  split; [vm_compute; reflexivity|]. split; [vm_compute; reflexivity|].
  apply (reset_triggers_reevaluation node plain project 3 s 19 test "A"
           "/proj/a.js").
  - apply reach_call, reach_constructor.
  - exact A_resolves.
  - vm_compute. discriminate.
  - vm_compute. reflexivity.
  - vm_compute. reflexivity.
Defined.

Lemma real_path_read_back_witness :
  exists moduleID,
    _getNormalizedModuleID node plain project 3 test "A" = Ok moduleID
    /\ (_getRealPathFromNormalizedModuleID node moduleID = Some "/proj/a.js"
        <-> JsString.contains ":" "/proj/a.js" = false).
Proof.
  apply (real_path_read_back node plain project 3 test "A"
           (resource "A" JS "/proj/a.js" ["B"])).
  - left. reflexivity.
  - vm_compute. reflexivity.
  - vm_compute. reflexivity.
  - vm_compute. reflexivity.
Defined.

Lemma getDependentsFromPath_inverts_dependencies_witness :
  exists dependents memo,
    getDependentsFromPath Checkout.disk plain Checkout.checkout 3
      Checkout.resources None "/proj/gone.js"
    = (Ok dependents, Some memo)
    /\ (forall dependent,
           In dependent dependents
           <-> exists resource,
                 In resource Checkout.resources
                 /\ path resource = dependent
                 /\ dependsOn Checkout.disk plain Checkout.checkout 3 resource
                             "/proj/gone.js")
    /\ NoDup dependents
    /\ (forall laterResources,
           getDependentsFromPath Checkout.disk plain Checkout.checkout 3
             laterResources (Some memo) "/proj/gone.js"
           = (Ok dependents, Some memo)).
Proof.
  apply (getDependentsFromPath_inverts_dependencies Checkout.disk plain
           Checkout.checkout 3 Checkout.resources "/proj/gone.js").
  - discriminate.
  - intros r Hr. simpl in Hr.
    repeat (destruct Hr as [<-|Hr]; [vm_compute; discriminate|]).
    contradiction.
Defined.

Lemma package_below_importer_uses_manifest_witness :
  _moduleNameToPath_at Checkout.disk plain Checkout.checkout 2 test "pkg"
  = Ok "/proj/node_modules/pkg/main.js".
Proof.
  rewrite (package_below_importer_uses_manifest Checkout.disk plain
             Checkout.checkout 1 test "pkg" None Checkout.manifest);
    vm_compute; reflexivity.
Defined.

Lemma failed_automock_loses_the_registries_witness :
  let loaded := snd (run Checkout.disk plain Checkout.checkout 3 5
                         (CallRequireModule test "Kept") fresh) in
  let failed := run Checkout.disk plain Checkout.checkout 3 5
                    (CallGenerateMock test "Broken") loaded in
  _moduleRegistry loaded !! "/proj/keep/k.js" = Some 0
  /\ fst failed = Throw (HostError "boom")
  /\ _moduleRegistry (snd failed) = {[ "/proj/broken.js" := 1 ]}
  /\ _mockRegistry (snd failed) = ∅
  /\ _mockMetaDataCache (snd failed) !! "/proj/broken.js" = Some (Some [])
  /\ forall self,
      _generateMock Checkout.disk plain Checkout.checkout 3 self test "Broken"
        (snd failed)
      = (Ok (VGeneratedMock (Some [])), snd failed).
Proof.
  intros loaded failed. split; [vm_compute; reflexivity|].
  apply (failed_automock_loses_the_registries Checkout.disk plain
           Checkout.checkout 3 loaded 3 test "Broken" "/proj/broken.js"
           "boom");
    try (vm_compute; reflexivity).
  - exact Broken_resolves.
  - vm_compute. discriminate.
  - right. vm_compute. reflexivity.
Defined.

Lemma getDependenciesFromPath_errors_witness :
  getDependenciesFromPath Checkout.disk plain Checkout.checkout 3
    "/proj/node_modules/pkg/package.json"
  = Throw CouldNotExtractDependencies
  /\ getDependenciesFromPath Checkout.disk plain Checkout.checkout 3
       "/proj/elsewhere.js"
     = Throw (UnknownModulePath "/proj/elsewhere.js")
  /\ getDependenciesFromPath Checkout.disk plain Checkout.checkout 3 test
     = Ok [Some "/proj/keep/k.js"; Some "null"; Some "null"].
Proof.
  split; [|split].
  - apply (proj1 (getDependenciesFromPath_errors Checkout.disk plain
                    Checkout.checkout 3
                    "/proj/node_modules/pkg/package.json")).
    right. exists Checkout.manifest. split; [vm_compute; reflexivity|].
    split; [left; reflexivity | reflexivity].
  - apply (proj1 (getDependenciesFromPath_errors Checkout.disk plain
                    Checkout.checkout 3 "/proj/elsewhere.js")).
    left. split; [vm_compute; reflexivity | reflexivity].
  - vm_compute. reflexivity.
Defined.

Lemma later_mapping_replaces_pattern_witness :
  lastPatternFor (moduleNameMapper shared) "Stub" = Some "png"
  /\ _resolveStubModuleName node shared "logo.png" <> None
  /\ _resolveStubModuleName node shared "page.css" = None.
Proof.
  split; [reflexivity|]. split.
  - apply (proj2 (later_mapping_replaces_pattern node shared "logo.png")
             "Stub" "png"); vm_compute; reflexivity.
  - vm_compute. reflexivity.
Defined.
